(** * P4Go: command result and output dispatch engine

    A shallow embedding of the parts of P4Go that decide how the output of
    one command is typed, dispatched and collected:

    - [p4goresult.cpp]      the result collection ([P4GoResults]);
    - [p4goclientuser.cpp]  the output dispatcher and resolve negotiator
                            ([P4GoClientUser]);
    - [p4gospecmgr.cpp]     the spec manager ([P4GoSpecMgr]);
    - [p4gomergedata.cpp]   the merge case ([P4GoMergeData]);
    - [p4goclientapi.cpp]   the session facade ([P4GoClientApi]);
    - [p4.go]               the Go surface ([P4.Run], [P4Message] decoders).

    The Perforce C++ API (P4API: [Spec], [StrBufDict], [Error],
    [ClientMerge], [ClientApi]) is not part of the repository.  Its
    containers are modelled by their documented behaviour; its spec
    parser/formatter and its answers about the connection are parameters. *)

From Stdlib Require Import ZArith String Ascii List Bool Lia Finite.
From stdpp Require Import base gmap strings pretty.
Import ListNotations.

Local Open Scope string_scope.
Local Open Scope list_scope.
Local Open Scope Z_scope.

(* ===================================================================== *)
(** ** P4API containers *)
(* ===================================================================== *)

(** [StrBufDict]: an insertion-ordered dictionary with unique keys.
    [SetVar] overwrites the value of an existing key in place and appends
    a new key at the end; [GetVar] by index walks in insertion order. *)
Module StrDict.

Definition t : Type := list (string * string).

Definition empty : t := [].

Fixpoint GetVar (var : string) (d : t) : option string :=
  match d with
  | [] => None
  | (k, v) :: d' => if String.eqb k var then Some v else GetVar var d'
  end.

Definition GetVarI (i : nat) (d : t) : option (string * string) :=
  nth_error d i.

Fixpoint SetVar (var val : string) (d : t) : t :=
  match d with
  | [] => [(var, val)]
  | (k, v) :: d' =>
      if String.eqb k var then (k, val) :: d' else (k, v) :: SetVar var val d'
  end.

Fixpoint RemoveVar (var : string) (d : t) : t :=
  match d with
  | [] => []
  | (k, v) :: d' =>
      if String.eqb k var then d' else (k, v) :: RemoveVar var d'
  end.

Definition has (var : string) (d : t) : bool :=
  match GetVar var d with Some _ => true | None => false end.

End StrDict.

(* ===================================================================== *)
(** ** Messages ([Error]) and their packed line codes (p4.go) *)
(* ===================================================================== *)

Module Msg.

(** Severities, numbered as in P4API and in [P4MessageSeverity]. *)
Definition E_EMPTY  : Z := 0.
Definition E_INFO   : Z := 1.
Definition E_WARN   : Z := 2.
Definition E_FAILED : Z := 3.
Definition E_FATAL  : Z := 4.

(** One line of a message: the packed code and the formatted text. *)
Record ErrorId := { code : Z; fmt : string }.

(** P4API's [Error]: overall severity, the lines, the variable table. *)
Record Error := {
  severity : Z;
  ids : list ErrorId;
  vars : StrDict.t
}.

Definition empty : Error := {| severity := E_EMPTY; ids := []; vars := [] |}.

Definition GetSeverity (e : Error) : Z := severity e.
Definition GetErrorCount (e : Error) : Z := Z.of_nat (length (ids e)).

(** [Error::Test()]: true for warnings and worse. *)
Definition Test (e : Error) : bool := E_INFO <? severity e.

(** [Error::Set( severity, text )]: adds one line; the overall severity
    is the worst one seen.  An empty error starts afresh. *)
Definition Set_ (s : Z) (text : string) (e : Error) : Error :=
  let base := if severity e =? E_EMPTY then [] else ids e in
  {| severity := Z.max s (severity e);
     ids := base ++ [ {| code := Z.shiftl s 28; fmt := text |} ];
     vars := vars e |}.

(** The decoders of [P4Message] (p4.go), on the [code] of one line. *)
Definition SubCode (c : Z) : Z := Z.land (Z.shiftr c 0) 1023.     (* 0x3ff *)
Definition Subsystem (c : Z) : Z := Z.land (Z.shiftr c 10) 63.    (* 0x3f *)
Definition Generic (c : Z) : Z := Z.land (Z.shiftr c 16) 255.     (* 0xff *)
Definition ArgCount (c : Z) : Z := Z.land (Z.shiftr c 24) 15.     (* 0x0f *)
Definition LineSeverity (c : Z) : Z := Z.land (Z.shiftr c 28) 15. (* 0x0f *)
Definition UniqueCode (c : Z) : Z := Z.land c 65535.              (* 0xffff *)

End Msg.

(* ===================================================================== *)
(** ** Spec data (p4gospecmgr.h) *)
(* ===================================================================== *)

(** [P4GoSpecData]: a [SpecDataTable] (whose table [Dict()] the P4API
    parser fills) plus the side dictionary [extras]. *)
Record P4GoSpecData := {
  Dict : StrDict.t;
  extras : StrDict.t
}.

(** [P4GoSpecData( StrDict* dict = 0 )]: wraps [dict], fresh [extras]. *)
Definition P4GoSpecData_new (dict : StrDict.t) : P4GoSpecData :=
  {| Dict := dict; extras := StrDict.empty |}.

(* ===================================================================== *)
(** ** The result collection (p4goresult.h, p4goresult.cpp) *)
(* ===================================================================== *)

Module Results.

Inductive P4GoResultType := STRING | BINARY | TRACK | DICT | ERROR | SPEC.

Definition type_eqb (a b : P4GoResultType) : bool :=
  match a, b with
  | STRING, STRING | BINARY, BINARY | TRACK, TRACK
  | DICT, DICT | ERROR, ERROR | SPEC, SPEC => true
  | _, _ => false
  end.

(** [struct P4GoResult]: a kind tag and one payload slot per kind.  A
    slot the code never assigns is [None]; [spec] is [Some None] when
    the code stores a null [P4GoSpecData*]. *)
Record P4GoResult := {
  type : P4GoResultType;
  taken : Z;
  str : option string;
  dict : option StrDict.t;
  err : option Msg.Error;
  spec : option (option P4GoSpecData)
}.

(** [class P4GoResults : VVarArray]: the units in arrival order and the
    running counts per kind. *)
Record P4GoResults := {
  items : list P4GoResult;
  infoCount : Z;
  warnCount : Z;
  errorCount : Z;
  trackCount : Z;
  dictCount : Z;
  specCount : Z;
  stringCount : Z
}.

Definition Count (r : P4GoResults) : Z := Z.of_nat (length (items r)).

(** [VVarArray::Put]: append at the end. *)
Definition Put (x : P4GoResult) (r : P4GoResults) : P4GoResults :=
  {| items := items r ++ [x];
     infoCount := infoCount r; warnCount := warnCount r;
     errorCount := errorCount r; trackCount := trackCount r;
     dictCount := dictCount r; specCount := specCount r;
     stringCount := stringCount r |}.

Definition with_items (l : list P4GoResult) (r : P4GoResults) : P4GoResults :=
  {| items := l;
     infoCount := infoCount r; warnCount := warnCount r;
     errorCount := errorCount r; trackCount := trackCount r;
     dictCount := dictCount r; specCount := specCount r;
     stringCount := stringCount r |}.

(** [VVarArray::Remove( i )]. *)
Fixpoint remove_at {A} (i : nat) (l : list A) : list A :=
  match l, i with
  | [], _ => []
  | _ :: l', O => l'
  | x :: l', S i' => x :: remove_at i' l'
  end.

(** [P4GoResults::AddOutput( Error* e )]: an empty message is not
    stored; the count bumped depends on the severity.  The source leaves
    [taken] of a message unit unassigned; it is modelled as 0. *)
Definition AddOutput_Error (e : Msg.Error) (r : P4GoResults) : P4GoResults :=
  if Msg.GetSeverity e =? Msg.E_EMPTY then r
  else
    let x := {| type := ERROR; taken := 0; str := None; dict := None;
                err := Some e; spec := None |} in
    let r1 := Put x r in
    {| items := items r1;
       infoCount :=
         if Msg.GetSeverity e =? Msg.E_INFO then infoCount r1 + 1
         else infoCount r1;
       warnCount :=
         if Msg.GetSeverity e =? Msg.E_INFO then warnCount r1
         else if Msg.GetSeverity e =? Msg.E_WARN then warnCount r1 + 1
         else warnCount r1;
       errorCount :=
         if Msg.GetSeverity e =? Msg.E_INFO then errorCount r1
         else if Msg.GetSeverity e =? Msg.E_WARN then errorCount r1
         else errorCount r1 + 1;
       trackCount := trackCount r1; dictCount := dictCount r1;
       specCount := specCount r1; stringCount := stringCount r1 |}.

(** [P4GoResults::AddOutput( StrPtr o, bool binary )]. *)
Definition AddOutput_Str (o : string) (binary : bool) (r : P4GoResults)
  : P4GoResults :=
  let x := {| type := if binary then BINARY else STRING; taken := 0;
              str := Some o; dict := None; err := None; spec := None |} in
  let r1 := Put x r in
  {| items := items r1;
     infoCount := infoCount r1; warnCount := warnCount r1;
     errorCount := errorCount r1; trackCount := trackCount r1;
     dictCount := dictCount r1; specCount := specCount r1;
     stringCount := stringCount r1 + 1 |}.

(** [P4GoResults::AddOutput( StrDict* d )]. *)
Definition AddOutput_Dict (d : StrDict.t) (r : P4GoResults) : P4GoResults :=
  let x := {| type := DICT; taken := 0; str := None; dict := Some d;
              err := None; spec := None |} in
  let r1 := Put x r in
  {| items := items r1;
     infoCount := infoCount r1; warnCount := warnCount r1;
     errorCount := errorCount r1; trackCount := trackCount r1;
     dictCount := dictCount r1 + 1; specCount := specCount r1;
     stringCount := stringCount r1 |}.

(** [P4GoResults::AddOutput( P4GoSpecData* s )]; [s] may be null. *)
Definition AddOutput_Spec (s : option P4GoSpecData) (r : P4GoResults)
  : P4GoResults :=
  let x := {| type := SPEC; taken := 0; str := None; dict := None;
              err := None; spec := Some s |} in
  let r1 := Put x r in
  {| items := items r1;
     infoCount := infoCount r1; warnCount := warnCount r1;
     errorCount := errorCount r1; trackCount := trackCount r1;
     dictCount := dictCount r1; specCount := specCount r1 + 1;
     stringCount := stringCount r1 |}.

(** [P4GoResults::AddTrack( StrPtr t )]. *)
Definition AddTrack (t : string) (r : P4GoResults) : P4GoResults :=
  let x := {| type := TRACK; taken := 0; str := Some t; dict := None;
              err := None; spec := None |} in
  let r1 := Put x r in
  {| items := items r1;
     infoCount := infoCount r1; warnCount := warnCount r1;
     errorCount := errorCount r1; trackCount := trackCount r1 + 1;
     dictCount := dictCount r1; specCount := specCount r1;
     stringCount := stringCount r1 |}.

(** [P4GoResults::DeleteTrack()]: the loop
    [for( i = Count() - 1; i >= 0; i-- )], which returns at the first
    unit from the end that is not a TRACK and otherwise removes unit
    [i].  [n] is [i + 1].  The counts are left as they are. *)
Fixpoint DeleteTrack_loop (n : nat) (l : list P4GoResult) : list P4GoResult :=
  match n with
  | O => l
  | S i =>
      match nth_error l i with
      | Some res =>
          if type_eqb (type res) TRACK
          then DeleteTrack_loop i (remove_at i l)
          else l
      | None => l
      end
  end.

Definition DeleteTrack (r : P4GoResults) : P4GoResults :=
  with_items (DeleteTrack_loop (length (items r)) (items r)) r.

(** [P4GoResults::Reset()]: the loop
    [for( i = Count() - 1; i >= 0; i-- ) { Destroy( Get( i ) ); Remove( i ); }]
    followed by zeroing every count.  The loop returns what is left of
    the array and, in call order, the units handed to [Destroy]. *)
Fixpoint Reset_loop (n : nat) (l : list P4GoResult)
  : list P4GoResult * list P4GoResult :=
  match n with
  | O => (l, [])
  | S i =>
      match nth_error l i with
      | Some res =>
          let '(l', destroyed) := Reset_loop i (remove_at i l) in
          (l', res :: destroyed)
      | None => (l, [])
      end
  end.

Definition Reset (r : P4GoResults) : P4GoResults :=
  {| items := fst (Reset_loop (length (items r)) (items r));
     infoCount := 0; warnCount := 0; errorCount := 0; trackCount := 0;
     dictCount := 0; specCount := 0; stringCount := 0 |}.

Definition Reset_destroyed (r : P4GoResults) : list P4GoResult :=
  snd (Reset_loop (length (items r)) (items r)).

(** [P4GoResults::P4GoResults()]: [Reset()] on the empty array. *)
Definition new : P4GoResults :=
  {| items := [];
     infoCount := 0; warnCount := 0; errorCount := 0; trackCount := 0;
     dictCount := 0; specCount := 0; stringCount := 0 |}.

Definition ErrorCount (r : P4GoResults) : Z := errorCount r.
Definition WarningCount (r : P4GoResults) : Z := warnCount r.

Definition is_kind (k : P4GoResultType) (x : P4GoResult) : bool :=
  type_eqb (type x) k.

End Results.

(* ===================================================================== *)
(** ** The merge case (p4gomergedata.cpp) *)
(* ===================================================================== *)

Module MergeData.

(** [MergeStatus] of P4API, numbered as [P4MergeStatus] in p4.go. *)
Definition CMS_QUIT   : Z := 0.
Definition CMS_SKIP   : Z := 1.
Definition CMS_MERGED : Z := 2.
Definition CMS_EDIT   : Z := 3.
Definition CMS_THEIRS : Z := 4.
Definition CMS_YOURS  : Z := 5.

(** What the code reads from the engine's [ClientMerge]: the hint
    [AutoResolve( CMF_FORCE )], the answer of the engine's own
    [Resolve( e )], and the names of the four files (a null [FileSys*]
    is [None]). *)
Record ClientMerge := {
  cm_AutoResolve : Z;
  cm_Resolve : Z;
  cm_YourFile : option string;
  cm_TheirFile : option string;
  cm_BaseFile : option string;
  cm_ResultFile : option string
}.

(** What the code reads from the engine's [ClientResolveA]. *)
Record ClientResolveA := {
  cra_AutoResolve : Z;
  cra_Resolve : Z;
  cra_MergeAction : Msg.Error;
  cra_YoursAction : Msg.Error;
  cra_TheirAction : Msg.Error;
  cra_Type : Msg.Error
}.

(** [class P4GoMergeData].  [yours], [theirs] and [base] are [StrBuf]s,
    empty until assigned. *)
Record P4GoMergeData := {
  merger : option ClientMerge;
  actionmerger : option ClientResolveA;
  hint : Z;
  yours : string;
  theirs : string;
  base : string
}.

Definition from_var (name : string) (varList : StrDict.t) : string :=
  match StrDict.GetVar name varList with
  | Some t => t
  | None => ""
  end.

(** [P4GoMergeData( ClientUser* ui, ClientMerge* m, void* info )];
    [varList] is [ui->varList], the variables of the current RPC. *)
Definition of_merge (varList : StrDict.t) (m : ClientMerge) : P4GoMergeData :=
  {| merger := Some m;
     actionmerger := None;
     hint := cm_AutoResolve m;
     yours := from_var "yourName" varList;
     theirs := from_var "theirName" varList;
     base := from_var "baseName" varList |}.

(** [P4GoMergeData( ClientUser* ui, ClientResolveA* m, void* info )]. *)
Definition of_action (m : ClientResolveA) : P4GoMergeData :=
  {| merger := None;
     actionmerger := Some m;
     hint := cra_AutoResolve m;
     yours := ""; theirs := ""; base := "" |}.

(** [StrBuf::Length()] as a truth value. *)
Definition nonempty (s : string) : bool := negb (String.eqb s "").

(** The accessors; [None] is the null pointer they return. *)
Definition GetYourName (md : P4GoMergeData) : option string :=
  match merger md with
  | Some _ => if nonempty (yours md) then Some (yours md) else None
  | None => None
  end.

Definition GetTheirName (md : P4GoMergeData) : option string :=
  match merger md with
  | Some _ => if nonempty (theirs md) then Some (theirs md) else None
  | None => None
  end.

Definition GetBaseName (md : P4GoMergeData) : option string :=
  match merger md with
  | Some _ => if nonempty (base md) then Some (base md) else None
  | None => None
  end.

Definition GetYourPath (md : P4GoMergeData) : option string :=
  match merger md with
  | Some m => cm_YourFile m
  | None => None
  end.

Definition GetTheirPath (md : P4GoMergeData) : option string :=
  match merger md with
  | Some m => cm_TheirFile m
  | None => None
  end.

Definition GetBasePath (md : P4GoMergeData) : option string :=
  match merger md with
  | Some m => cm_BaseFile m
  | None => None
  end.

Definition GetResultPath (md : P4GoMergeData) : option string :=
  match merger md with
  | Some m => cm_ResultFile m
  | None => None
  end.

Definition GetMergeHint (md : P4GoMergeData) : Z := hint md.

Definition GetActionResolveStatus (md : P4GoMergeData) : Z :=
  match actionmerger md with Some _ => 1 | None => 0 end.

Definition GetContentResolveStatus (md : P4GoMergeData) : Z :=
  match merger md with Some _ => 1 | None => 0 end.

Definition GetMergeAction (md : P4GoMergeData) : option Msg.Error :=
  match actionmerger md with
  | Some a => Some (cra_MergeAction a)
  | None => None
  end.

Definition GetYoursAction (md : P4GoMergeData) : option Msg.Error :=
  match actionmerger md with
  | Some a => Some (cra_YoursAction a)
  | None => None
  end.

Definition GetTheirAction (md : P4GoMergeData) : option Msg.Error :=
  match actionmerger md with
  | Some a => Some (cra_TheirAction a)
  | None => None
  end.

Definition GetType (md : P4GoMergeData) : option Msg.Error :=
  match actionmerger md with
  | Some a => Some (cra_Type a)
  | None => None
  end.

(** The Go accessors of [P4MergeData] (p4.go) for names and paths:
    [C.GoString] of a null pointer is the empty string. *)
Definition GoString (p : option string) : string :=
  match p with Some s => s | None => "" end.

Definition YourName (md : P4GoMergeData) : string := GoString (GetYourName md).
Definition TheirName (md : P4GoMergeData) : string := GoString (GetTheirName md).
Definition BaseName (md : P4GoMergeData) : string := GoString (GetBaseName md).
Definition YourPath (md : P4GoMergeData) : string := GoString (GetYourPath md).
Definition TheirPath (md : P4GoMergeData) : string := GoString (GetTheirPath md).
Definition BasePath (md : P4GoMergeData) : string := GoString (GetBasePath md).
Definition ResultPath (md : P4GoMergeData) : string := GoString (GetResultPath md).
Definition IsActionResolve (md : P4GoMergeData) : bool :=
  negb (GetActionResolveStatus md =? 0).
Definition IsContentResolve (md : P4GoMergeData) : bool :=
  negb (GetContentResolveStatus md =? 0).

End MergeData.

(* ===================================================================== *)
(** ** Handlers (p4goclientuser.h) *)
(* ===================================================================== *)

(** Every call that reaches caller code is recorded, in call order, in the
    session's [callbacks] log.  A callback is a function of the log so far
    (what the caller has been shown before) and of its argument, so a
    handler may answer the k-th call differently from the first. *)
Inductive Callback :=
| CbBinary (data : string)
| CbMessage (e : Msg.Error)
| CbStat (d : StrDict.t)
| CbText (data : string)
| CbResolve (md : MergeData.P4GoMergeData).

(** The three answers of an output handler ([P4OutputHandlerResult]). *)
Definition REPORT  : Z := 0.
Definition HANDLED : Z := 1.
Definition CANCEL  : Z := 2.

(** [class P4GoHandler]: the six function pointers. *)
Record P4GoHandler := {
  cbHandleBin : list Callback -> string -> Z;
  cbHandleMsg : list Callback -> Msg.Error -> Z;
  cbHandleStat : list Callback -> StrDict.t -> Z;
  cbHandleText : list Callback -> string -> Z;
  cbHandleTrack : list Callback -> string -> Z;
  cbHandleSpec : list Callback -> P4GoSpecData -> Z
}.

(** [class P4GoResolveHandler]. *)
Record P4GoResolveHandler := {
  cbResolve : list Callback -> MergeData.P4GoMergeData -> Z
}.

(** Progress and SSO handlers are only stored by the code modelled here. *)
Inductive P4GoProgress := MkP4GoProgress.
Inductive P4GoSSOHandler := MkP4GoSSOHandler.

(* ===================================================================== *)
(** ** The engine (P4API) *)
(* ===================================================================== *)

(** P4API's [Spec] class, as the code uses it.
    - [Spec_init def]: the constructor [Spec s( def, "", &e )]; [Some err]
      when it leaves an error for which [e.Test()] holds.
    - [Spec_Format def d]: [s.Format( &SpecDataTable( d ), &form )].
    - [Spec_ParseNoValid def form]: [s.ParseNoValid( form, &data, &e )];
      the table it filled, or the error it left. *)
Record SpecEngine := {
  Spec_init : string -> option Msg.Error;
  Spec_Format : string -> StrDict.t -> string;
  Spec_ParseNoValid : string -> string -> Msg.Error + StrDict.t
}.

(** One output call of the engine on the [ClientUser]. *)
Inductive Event :=
| EvOutputText (data : string)
| EvOutputBinary (data : string)
| EvOutputStat (values : StrDict.t)
| EvMessage (e : Msg.Error)
| EvHandleError (e : Msg.Error).

(** What the engine does for one [client.Run( cmd, ui )]: the output
    calls it makes, in order; whether [client.Dropped()] holds afterwards;
    and the error lines [client.Final( e )] and [client.Init( e )] add to
    [e] should the session be re-established. *)
Record EngineRun := {
  run_events : list Event;
  run_dropped : bool;
  run_final_errors : list (Z * string);
  run_init_errors : list (Z * string)
}.

Definition add_errors (l : list (Z * string)) (e : Msg.Error) : Msg.Error :=
  fold_left (fun acc st => Msg.Set_ (fst st) (snd st) acc) l e.

(* ===================================================================== *)
(** ** The spec manager (p4gospecmgr.cpp) *)
(* ===================================================================== *)

Module SpecMgr.

(** [class P4GoSpecMgr]: the cache of spec definitions by type. *)
Record P4GoSpecMgr := { specs : StrDict.t }.

(** [P4GoSpecMgr::AddSpecDef( type, specDef )]. *)
Definition AddSpecDef (type specDef : string) (m : P4GoSpecMgr) : P4GoSpecMgr :=
  let s := specs m in
  let s1 := if StrDict.has type s then StrDict.RemoveVar type s else s in
  {| specs := StrDict.SetVar type specDef s1 |}.

(** [P4GoSpecMgr::Reset()]; [speclist] is the generated table of
    built-in definitions. *)
Definition Reset (speclist : list (string * string)) : P4GoSpecMgr :=
  fold_left (fun m sp => AddSpecDef (fst sp) (snd sp) m) speclist
            {| specs := StrDict.empty |}.

Definition HaveSpecDef (type : string) (m : P4GoSpecMgr) : bool :=
  StrDict.has type (specs m).

(** [tag << et << i]: the key ["extraTag"] followed by [i] in decimal. *)
Definition extraTag (i : nat) : string := "extraTag" +:+ pretty i.

(** The scan for [extraTag0], [extraTag1], ... of [StrDictToSpec]:
    [for( i = 0;; i++ )], which stops at the first index whose tag is
    absent and skips a tag whose target has no value.  [fuel] bounds the
    number of iterations. *)
Fixpoint extraTag_loop (fuel : nat) (i : nat) (dict : StrDict.t)
         (extras : StrDict.t) : StrDict.t :=
  match fuel with
  | O => extras
  | S fuel' =>
      let tag := extraTag i in
      match StrDict.GetVar tag dict with
      | None => extras
      | Some var =>
          match StrDict.GetVar var dict with
          | None => extraTag_loop fuel' (S i) dict extras
          | Some val =>
              extraTag_loop fuel' (S i) dict (StrDict.SetVar var val extras)
          end
      end
  end.

(** [P4GoSpecMgr::StrDictToSpec( dict, specDef )]: format the record,
    parse the form into a fresh [P4GoSpecData], then collect the extra
    tags into its [extras].  [None] is the null pointer.  The tags are
    distinct keys of [dict], so [S (length dict)] iterations suffice. *)
Definition StrDictToSpec (E : SpecEngine) (dict : StrDict.t) (specDef : string)
  : option P4GoSpecData :=
  match Spec_init E specDef with
  | Some _ => None
  | None =>
      let form := Spec_Format E specDef dict in
      match Spec_ParseNoValid E specDef form with
      | inl _ => None
      | inr table =>
          Some {| Dict := table;
                  extras := extraTag_loop (S (length dict)) 0 dict
                                          StrDict.empty |}
      end
  end.

(** [P4GoSpecMgr::StringToSpec( type, form, e )], called once
    [HaveSpecDef( type )] is known. *)
Definition StringToSpec (E : SpecEngine) (type form : string) (m : P4GoSpecMgr)
  : Msg.Error + P4GoSpecData :=
  let specDef := match StrDict.GetVar type (specs m) with
                 | Some d => d | None => "" end in
  match Spec_init E specDef with
  | Some err => inl err
  | None =>
      match Spec_ParseNoValid E specDef form with
      | inl err => inl err
      | inr table => inr {| Dict := table; extras := StrDict.empty |}
      end
  end.

(** [P4GoSpecMgr::SpecToString( type, spec, b, e )]: the form, or the
    error left in [e]. *)
Definition SpecToString (E : SpecEngine) (type : string) (spec : StrDict.t)
           (m : P4GoSpecMgr) (e : Msg.Error) : Msg.Error + string :=
  match StrDict.GetVar type (specs m) with
  | None =>
      inl (Msg.Set_ Msg.E_FAILED
             "No specdef available. Cannot convert hash to a Perforce form" e)
  | Some specDef =>
      match Spec_init E specDef with
      | Some err => inl err
      | None => inr (Spec_Format E specDef spec)
      end
  end.

(** [SpecDataGetKeyPair( spec, index, &var, &val )] (p4go.cpp): the
    iteration the Go side uses to read a spec. *)
Definition SpecDataGetKeyPair (spec : P4GoSpecData) (index : nat)
  : option (string * string) :=
  StrDict.GetVarI index (Dict spec).

End SpecMgr.

(* ===================================================================== *)
(** ** The output dispatcher (p4goclientuser.cpp) *)
(* ===================================================================== *)

Module ClientUser.

Import Results.

(** [class P4GoClientUser].  [specMgr] is the session's spec manager,
    which the client user reaches through a pointer; it is kept here so
    that both see one store.  [varList] is the base class's table of the
    variables of the current RPC.  [callbacks] is the log of calls into
    caller code. *)
Record P4GoClientUser := {
  cmd : string;
  specMgr : SpecMgr.P4GoSpecMgr;
  results : P4GoResults;
  input : list string;
  resolveHandler : option P4GoResolveHandler;
  handler : option P4GoHandler;
  progress : option P4GoProgress;
  ssoHandler : option P4GoSSOHandler;
  alive : Z;
  track : bool;
  varList : StrDict.t;
  callbacks : list Callback
}.

Definition set_results (r : P4GoResults) (u : P4GoClientUser) :=
  {| cmd := cmd u; specMgr := specMgr u; results := r; input := input u;
     resolveHandler := resolveHandler u; handler := handler u;
     progress := progress u; ssoHandler := ssoHandler u; alive := alive u;
     track := track u; varList := varList u; callbacks := callbacks u |}.

Definition set_alive (a : Z) (u : P4GoClientUser) :=
  {| cmd := cmd u; specMgr := specMgr u; results := results u;
     input := input u;
     resolveHandler := resolveHandler u; handler := handler u;
     progress := progress u; ssoHandler := ssoHandler u; alive := a;
     track := track u; varList := varList u; callbacks := callbacks u |}.

Definition set_callbacks (l : list Callback) (u : P4GoClientUser) :=
  {| cmd := cmd u; specMgr := specMgr u; results := results u;
     input := input u;
     resolveHandler := resolveHandler u; handler := handler u;
     progress := progress u; ssoHandler := ssoHandler u; alive := alive u;
     track := track u; varList := varList u; callbacks := l |}.

Definition set_specMgr (m : SpecMgr.P4GoSpecMgr) (u : P4GoClientUser) :=
  {| cmd := cmd u; specMgr := m; results := results u; input := input u;
     resolveHandler := resolveHandler u; handler := handler u;
     progress := progress u; ssoHandler := ssoHandler u; alive := alive u;
     track := track u; varList := varList u; callbacks := callbacks u |}.

(** [P4GoClientUser::P4GoClientUser( s )]. *)
Definition new (s : SpecMgr.P4GoSpecMgr) : P4GoClientUser :=
  {| cmd := ""; specMgr := s; results := Results.new; input := [];
     resolveHandler := None; handler := None; progress := None;
     ssoHandler := None; alive := 1; track := false; varList := [];
     callbacks := [] |}.

(** [P4GoClientUser::Reset()]. *)
Definition Reset (u : P4GoClientUser) : P4GoClientUser :=
  set_alive 1 (set_results (Results.Reset (results u)) u).

Definition SetCommand (c : string) (u : P4GoClientUser) : P4GoClientUser :=
  {| cmd := c; specMgr := specMgr u; results := results u; input := input u;
     resolveHandler := resolveHandler u; handler := handler u;
     progress := progress u; ssoHandler := ssoHandler u; alive := alive u;
     track := track u; varList := varList u; callbacks := callbacks u |}.

Definition SetTrack (t : bool) (u : P4GoClientUser) : P4GoClientUser :=
  {| cmd := cmd u; specMgr := specMgr u; results := results u;
     input := input u;
     resolveHandler := resolveHandler u; handler := handler u;
     progress := progress u; ssoHandler := ssoHandler u; alive := alive u;
     track := t; varList := varList u; callbacks := callbacks u |}.

Definition IsAlive (u : P4GoClientUser) : Z := alive u.
Definition GetHandler (u : P4GoClientUser) := handler u.
Definition GetResults (u : P4GoClientUser) := results u.

(** [SetHandler], [SetProgress], [SetSSOHandler], [SetResolveHandler]. *)
Definition SetHandler (h : option P4GoHandler) (u : P4GoClientUser) :=
  {| cmd := cmd u; specMgr := specMgr u; results := results u;
     input := input u;
     resolveHandler := resolveHandler u; handler := h;
     progress := progress u; ssoHandler := ssoHandler u; alive := 1;
     track := track u; varList := varList u; callbacks := callbacks u |}.

Definition SetProgress (p : option P4GoProgress) (u : P4GoClientUser) :=
  {| cmd := cmd u; specMgr := specMgr u; results := results u;
     input := input u;
     resolveHandler := resolveHandler u; handler := handler u;
     progress := p; ssoHandler := ssoHandler u; alive := 1;
     track := track u; varList := varList u; callbacks := callbacks u |}.

Definition SetSSOHandler (h : option P4GoSSOHandler) (u : P4GoClientUser) :=
  {| cmd := cmd u; specMgr := specMgr u; results := results u;
     input := input u;
     resolveHandler := resolveHandler u; handler := handler u;
     progress := progress u; ssoHandler := h; alive := 1;
     track := track u; varList := varList u; callbacks := callbacks u |}.

Definition SetResolveHandler (h : option P4GoResolveHandler)
           (u : P4GoClientUser) :=
  {| cmd := cmd u; specMgr := specMgr u; results := results u;
     input := input u;
     resolveHandler := h; handler := handler u;
     progress := progress u; ssoHandler := ssoHandler u; alive := alive u;
     track := track u; varList := varList u; callbacks := callbacks u |}.

(** The tail shared by the four [CallOutputMethod] overloads: log the
    call, clear [alive] on answer 2, and tell whether the answer was 0. *)
Definition after_call (cb : option Callback) (ret : Z) (u : P4GoClientUser)
  : bool * P4GoClientUser :=
  let u1 := match cb with
            | Some c => set_callbacks (callbacks u ++ [c]) u
            | None => u
            end in
  let u2 := if ret =? 2 then set_alive 0 u1 else u1 in
  (ret =? 0, u2).

(** [CallOutputMethod( StrPtr data, bool binary )]. *)
Definition CallOutputMethod_Str (h : P4GoHandler) (data : string)
           (binary : bool) (u : P4GoClientUser) : bool * P4GoClientUser :=
  if binary
  then after_call (Some (CbBinary data)) (cbHandleBin h (callbacks u) data) u
  else after_call (Some (CbText data)) (cbHandleText h (callbacks u) data) u.

(** [CallOutputMethod( StrDict* data )]. *)
Definition CallOutputMethod_Dict (h : P4GoHandler) (data : StrDict.t)
           (u : P4GoClientUser) : bool * P4GoClientUser :=
  after_call (Some (CbStat data)) (cbHandleStat h (callbacks u) data) u.

(** [CallOutputMethod( Error* e )]. *)
Definition CallOutputMethod_Error (h : P4GoHandler) (e : Msg.Error)
           (u : P4GoClientUser) : bool * P4GoClientUser :=
  after_call (Some (CbMessage e)) (cbHandleMsg h (callbacks u) e) u.

(** [CallOutputMethod( P4GoSpecData* data )]: the call of
    [handler->HandleSpec] is commented out in the source, [ret] is 0. *)
Definition CallOutputMethod_Spec (h : P4GoHandler) (data : option P4GoSpecData)
           (u : P4GoClientUser) : bool * P4GoClientUser :=
  after_call None 0 u.

(** [ProcessOutput( StrPtr data, bool binary )]. *)
Definition ProcessOutput_Str (data : string) (binary : bool)
           (u : P4GoClientUser) : P4GoClientUser :=
  match handler u with
  | Some h =>
      let '(report, u1) := CallOutputMethod_Str h data binary u in
      if report
      then set_results (AddOutput_Str data binary (results u1)) u1
      else u1
  | None => set_results (AddOutput_Str data binary (results u)) u
  end.

(** [ProcessOutput( StrDict* data )]. *)
Definition ProcessOutput_Dict (data : StrDict.t) (u : P4GoClientUser)
  : P4GoClientUser :=
  match handler u with
  | Some h =>
      let '(report, u1) := CallOutputMethod_Dict h data u in
      if report
      then set_results (AddOutput_Dict data (results u1)) u1
      else u1
  | None => set_results (AddOutput_Dict data (results u)) u
  end.

(** [ProcessOutput( P4GoSpecData* data )]. *)
Definition ProcessOutput_Spec (data : option P4GoSpecData)
           (u : P4GoClientUser) : P4GoClientUser :=
  match handler u with
  | Some h =>
      let '(report, u1) := CallOutputMethod_Spec h data u in
      if report
      then set_results (AddOutput_Spec data (results u1)) u1
      else u1
  | None => set_results (AddOutput_Spec data (results u)) u
  end.

(** [ProcessMessage( Error* e )]. *)
Definition ProcessMessage (e : Msg.Error) (u : P4GoClientUser)
  : P4GoClientUser :=
  match handler u with
  | Some h =>
      let '(report, u1) := CallOutputMethod_Error h e u in
      if report
      then set_results (AddOutput_Error e (results u1)) u1
      else u1
  | None => set_results (AddOutput_Error e (results u)) u
  end.

(** [data[i]]; the loop below only reads inside the text. *)
Definition char_at (data : string) (i : nat) : option ascii :=
  String.get i data.

Definition is_char (c : ascii) (o : option ascii) : bool :=
  match o with
  | Some x => Ascii.eqb x c
  | None => false
  end.

Definition newline : ascii := "010"%char.

(** The body of [OutputText] in track mode:
    [for( int i = 4; i < length; ++i )] with the running start [p] of
    the current track line.  [n] is [length - i]. *)
Fixpoint OutputText_loop (data : string) (n : nat) (i p : nat)
         (u : P4GoClientUser) : P4GoClientUser :=
  match n with
  | O => u
  | S n' =>
      if is_char newline (char_at data i)
      then
        if (p <? i)%nat
        then
          let line := String.substring p (i - p) data in
          OutputText_loop data n' (S i) (i + 5)%nat
                          (set_results (AddTrack line (results u)) u)
        else
          (* this was not track data after all,
             try to rollback the damage done *)
          let u1 := ProcessOutput_Str data false u in
          set_results (DeleteTrack (results u1)) u1
      else OutputText_loop data n' (S i) p u
  end.

(** The guard of [OutputText]: track mode, more than four characters,
    and the marker ["--- "]. *)
Definition is_track_text (u : P4GoClientUser) (data : string) : bool :=
  track u
  && (4 <? String.length data)%nat
  && is_char "-"%char (char_at data 0)
  && is_char "-"%char (char_at data 1)
  && is_char "-"%char (char_at data 2)
  && is_char " "%char (char_at data 3).

(** [P4GoClientUser::OutputText( data, length )]. *)
Definition OutputText (data : string) (u : P4GoClientUser) : P4GoClientUser :=
  if is_track_text u data
  then OutputText_loop data (String.length data - 4) 4 4 u
  else ProcessOutput_Str data false u.

(** [Message], [HandleError], [OutputBinary]. *)
Definition Message (e : Msg.Error) (u : P4GoClientUser) := ProcessMessage e u.
Definition HandleError (e : Msg.Error) (u : P4GoClientUser) := ProcessMessage e u.
Definition OutputBinary (data : string) (u : P4GoClientUser) :=
  ProcessOutput_Str data true u.

(** The copy loop of [OutputStat] for a plain record: every variable
    but the three housekeeping ones is set in a fresh [StrBufDict]. *)
Definition is_housekeeping (var : string) : bool :=
  String.eqb var "specdef" || String.eqb var "func"
  || String.eqb var "specFormatted".

Definition plain_dict (dict : StrDict.t) : StrDict.t :=
  fold_left
    (fun ndict kv =>
       if is_housekeeping (fst kv) then ndict
       else StrDict.SetVar (fst kv) (snd kv) ndict)
    dict StrDict.empty.

(** [isspec = spec && ( sf || data )]. *)
Definition isspec (values : StrDict.t) : bool :=
  StrDict.has "specdef" values
  && (StrDict.has "specFormatted" values || StrDict.has "data" values).

(** [P4GoClientUser::OutputStat( values )]. *)
Definition OutputStat (E : SpecEngine) (values : StrDict.t)
           (u : P4GoClientUser) : P4GoClientUser :=
  let spec := StrDict.GetVar "specdef" values in
  let data := StrDict.GetVar "data" values in
  (* Save the spec definition for later *)
  let u1 := match spec with
            | Some sp =>
                set_specMgr (SpecMgr.AddSpecDef (cmd u) sp (specMgr u)) u
            | None => u
            end in
  match spec, data with
  | Some sp, Some form =>
      (* the form arrives as text: parse it with the supplied spec *)
      match Spec_init E sp with
      | Some e => HandleError e u1
      | None =>
          match Spec_ParseNoValid E sp form with
          | inl e => HandleError e u1
          | inr table =>
              ProcessOutput_Spec (SpecMgr.StrDictToSpec E table sp) u1
          end
      end
  | Some sp, None =>
      if isspec values
      then ProcessOutput_Spec (SpecMgr.StrDictToSpec E values sp) u1
      else ProcessOutput_Dict (plain_dict values) u1
  | None, _ => ProcessOutput_Dict (plain_dict values) u1
  end.

(** One output call of the engine. *)
Definition deliver (E : SpecEngine) (ev : Event) (u : P4GoClientUser)
  : P4GoClientUser :=
  match ev with
  | EvOutputText data => OutputText data u
  | EvOutputBinary data => OutputBinary data u
  | EvOutputStat values => OutputStat E values u
  | EvMessage e => Message e u
  | EvHandleError e => HandleError e u
  end.

(** The output calls of one command, in arrival order. *)
Definition deliver_all (E : SpecEngine) (evs : list Event)
           (u : P4GoClientUser) : P4GoClientUser :=
  fold_left (fun acc ev => deliver E ev acc) evs u.

(** [P4GoClientUser::Resolve( ClientMerge* m, Error* e )]: the answer
    for the engine and the session afterwards. *)
Definition Resolve (m : MergeData.ClientMerge) (u : P4GoClientUser)
  : Z * P4GoClientUser :=
  match resolveHandler u with
  | None =>
      (* default to using the merger's resolve *)
      (MergeData.cm_Resolve m, u)
  | Some h =>
      let md := MergeData.of_merge (varList u) m in
      (cbResolve h (callbacks u) md,
       set_callbacks (callbacks u ++ [CbResolve md]) u)
  end.

(** [P4GoClientUser::Resolve( ClientResolveA* m, int preview, Error* e )]. *)
Definition ResolveA (m : MergeData.ClientResolveA) (preview : Z)
           (u : P4GoClientUser) : Z * P4GoClientUser :=
  match resolveHandler u with
  | None => (MergeData.cra_Resolve m, u)
  | Some h =>
      let md := MergeData.of_action m in
      (cbResolve h (callbacks u) md,
       set_callbacks (callbacks u ++ [CbResolve md]) u)
  end.

End ClientUser.

(* ===================================================================== *)
(** ** The session facade (p4goclientapi.cpp) *)
(* ===================================================================== *)

Module ClientApi.

Import ClientUser.

(** [class P4GoClientApi]: the client user, the nesting depth, the
    exception level and the two session flags the code below tests. *)
Record P4GoClientApi := {
  ui : P4GoClientUser;
  depth : Z;
  exceptionLevel : Z;
  connected : bool;
  cmdRun : bool
}.

Definition set_ui (u : P4GoClientUser) (a : P4GoClientApi) :=
  {| ui := u; depth := depth a; exceptionLevel := exceptionLevel a;
     connected := connected a; cmdRun := cmdRun a |}.

Definition set_depth (d : Z) (a : P4GoClientApi) :=
  {| ui := ui a; depth := d; exceptionLevel := exceptionLevel a;
     connected := connected a; cmdRun := cmdRun a |}.

(** Modelled from the spec: the flag helpers of p4goclientapi.h, which is
    not among the sources.  A session is connected from a successful
    connect until its flags are reset. *)
Definition IsConnected (a : P4GoClientApi) : bool := connected a.

(** Modelled from the spec: [SetConnected] of p4goclientapi.h (not among
    the sources) marks the session connected. *)
Definition SetConnected (a : P4GoClientApi) :=
  {| ui := ui a; depth := depth a; exceptionLevel := exceptionLevel a;
     connected := true; cmdRun := cmdRun a |}.

(** Modelled from the spec: [ResetFlags] of p4goclientapi.h (not among the
    sources) ends the connected state and forgets that a command was
    run. *)
Definition ResetFlags (a : P4GoClientApi) :=
  {| ui := ui a; depth := depth a; exceptionLevel := exceptionLevel a;
     connected := false; cmdRun := false |}.

(** Modelled from the spec: [SetCmdRun] of p4goclientapi.h (not among the
    sources) records that a command was run. *)
Definition SetCmdRun (a : P4GoClientApi) :=
  {| ui := ui a; depth := depth a; exceptionLevel := exceptionLevel a;
     connected := connected a; cmdRun := true |}.

(** [P4GoClientApi::P4GoClientApi()]. *)
Definition new (speclist : list (string * string)) : P4GoClientApi :=
  {| ui := ClientUser.new (SpecMgr.Reset speclist);
     depth := 0; exceptionLevel := 2; connected := false; cmdRun := false |}.

(** [P4GoClientApi::Disconnect( e )]. *)
Definition Disconnect (speclist : list (string * string)) (R : EngineRun)
           (e : Msg.Error) (a : P4GoClientApi) : Z * P4GoClientApi * Msg.Error :=
  if negb (IsConnected a)
  then (1, a, Msg.Set_ Msg.E_WARN "P4#disconnect - not connected" e)
  else
    let e1 := add_errors (run_final_errors R) e in   (* client.Final( e ) *)
    let a1 := ResetFlags a in
    (* Clear the specdef cache. *)
    let u1 := set_specMgr (SpecMgr.Reset speclist) (ui a1) in
    (* Clear out any results from the last command *)
    let u2 := ClientUser.Reset u1 in
    (1, set_ui u2 a1, e1).

(** [P4GoClientApi::ConnectOrReconnect( e )]. *)
Definition ConnectOrReconnect (R : EngineRun) (e : Msg.Error)
           (a : P4GoClientApi) : Z * P4GoClientApi * Msg.Error :=
  let a1 := ResetFlags a in
  let e1 := add_errors (run_init_errors R) e in      (* client.Init( e ) *)
  let e2 := if Msg.Test e1 && negb (exceptionLevel a1 =? 0)
            then Msg.Set_ Msg.E_FAILED
                   "P4#connect - Failed to connect to Perforce server." e1
            else e1 in
  if Msg.Test e2 then (0, a1, e2)
  else (1, SetConnected a1, e2).

(** [P4GoClientApi::RunCmd( cmd, ui, argc, argv )]: the engine makes its
    output calls on the client user; the protocol block it reads
    afterwards is not modelled. *)
Definition RunCmd (E : SpecEngine) (R : EngineRun) (a : P4GoClientApi)
  : P4GoClientApi :=
  SetCmdRun (set_ui (deliver_all E (run_events R) (ui a)) a).

(** [P4GoClientApi::Run( cmd, argc, argv, e )]: the session afterwards,
    the returned pointer ([None] is null) and the error [e]. *)
Definition Run (E : SpecEngine) (speclist : list (string * string))
           (R : EngineRun) (cmd : string) (argv : list string)
           (e : Msg.Error) (a : P4GoClientApi)
  : P4GoClientApi * option Results.P4GoResults * Msg.Error :=
  if negb (depth a =? 0)
  then (a, None,
        Msg.Set_ Msg.E_WARN
                 "P4#run - Can't execute nested Perforce commands." e)
  else
    (* Clear out any results from the previous command *)
    let a1 := set_ui (ClientUser.Reset (ui a)) a in
    let e1 := if negb (IsConnected a1) && negb (exceptionLevel a1 =? 0)
              then Msg.Set_ Msg.E_FAILED
                     "P4#run - Not connected to a Perforce Server." e
              else e in
    if negb (IsConnected a1) then (a1, None, e1)
    else
      (* Tell the UI which command we're running. *)
      let a2 := set_ui (SetCommand cmd (ui a1)) a1 in
      let a3 := set_depth (depth a2 + 1) a2 in
      let a4 := RunCmd E R a3 in
      let a5 := set_depth (depth a4 - 1) a4 in
      let '(a6, e2) :=
        match GetHandler (ui a5) with
        | Some _ =>
            if run_dropped R && (IsAlive (ui a5) =? 0)
            then
              let '(_, b1, f1) := Disconnect speclist R e1 a5 in
              let '(_, b2, f2) := ConnectOrReconnect R f1 b1 in
              (b2, f2)
            else (a5, e1)
        | None => (a5, e1)
        end in
      (a6, Some (GetResults (ui a6)), e2).

(** [P4GoClientApi::ParseSpec( type, form, e )], for an [e] that comes
    in empty: the spec ([None] is null) and the error.  The text of an
    engine error is formatted by P4API; [%msg%] stands for it. *)
Definition ParseSpec (E : SpecEngine) (type form : string) (a : P4GoClientApi)
  : option P4GoSpecData * Msg.Error :=
  if negb (SpecMgr.HaveSpecDef type (specMgr (ui a)))
  then (None,
        if negb (exceptionLevel a =? 0)
        then Msg.Set_ Msg.E_FAILED "No spec definition for %type% objects."
                      Msg.empty
        else Msg.empty)
  else
    (* Got a specdef so now we can attempt to parse it. *)
    match SpecMgr.StringToSpec E type form (specMgr (ui a)) with
    | inl err =>
        (None,
         if negb (exceptionLevel a =? 0)
         then Msg.Set_ Msg.E_FAILED "P4#parse_spec - %msg%" err
         else err)
    | inr spec => (Some spec, Msg.empty)
    end.

(** [P4GoClientApi::FormatSpec( type, dict, e )], for an [e] that comes in
    empty: the form ([None] is null) and the error. *)
Definition FormatSpec (E : SpecEngine) (type : string) (dict : StrDict.t)
           (a : P4GoClientApi) : option string * Msg.Error :=
  if negb (SpecMgr.HaveSpecDef type (specMgr (ui a)))
  then (None,
        if negb (exceptionLevel a =? 0)
        then Msg.Set_ Msg.E_FAILED "No spec definition for %type% objects."
                      Msg.empty
        else Msg.empty)
  else
    (* Got a specdef so now we can attempt to convert. *)
    match SpecMgr.SpecToString E type dict (specMgr (ui a)) Msg.empty with
    | inr buf => (Some buf, Msg.empty)
    | inl err =>
        (None,
         if negb (exceptionLevel a =? 0)
         then Msg.Set_ Msg.E_FAILED "P4#format_spec - %msg%" err
         else err)
    end.

(** Modelled from the spec: [SetHandler] of p4goclientapi.h (not among the
    sources), which p4go.cpp calls on the session; it hands the handler to
    the client user. *)
Definition SetHandler (h : option P4GoHandler) (a : P4GoClientApi) :=
  set_ui (ClientUser.SetHandler h (ui a)) a.

(** Modelled from the spec: [SetProgress] of p4goclientapi.h (not among
    the sources); it hands the progress object to the client user. *)
Definition SetProgress (p : option P4GoProgress) (a : P4GoClientApi) :=
  set_ui (ClientUser.SetProgress p (ui a)) a.

(** Modelled from the spec: [SetSSOHandler] of p4goclientapi.h (not among
    the sources); it hands the handler to the client user. *)
Definition SetSSOHandler (h : option P4GoSSOHandler) (a : P4GoClientApi) :=
  set_ui (ClientUser.SetSSOHandler h (ui a)) a.

(** Modelled from the spec: [SetResolveHandler] of p4goclientapi.h (not
    among the sources); it hands the handler to the client user. *)
Definition SetResolveHandler (h : option P4GoResolveHandler)
           (a : P4GoClientApi) :=
  set_ui (ClientUser.SetResolveHandler h (ui a)) a.

(** Modelled from the spec: [GetResults] of p4goclientapi.h (not among the
    sources), which [ResultCount] and [ResultGet] of p4go.cpp call; it is
    the collection of the client user. *)
Definition GetResults (a : P4GoClientApi) := ClientUser.GetResults (ui a).

End ClientApi.

(* ===================================================================== *)
(** ** The Go surface (p4.go) *)
(* ===================================================================== *)

Module Cgo.

(** [C.GoString( p )] on a buffer that holds [s]: the characters before
    the first NUL.  [strcpy] copies the same characters. *)
Fixpoint GoString (s : string) : string :=
  match s with
  | EmptyString => EmptyString
  | String c s' =>
      if Ascii.eqb c Ascii.zero then EmptyString else String c (GoString s')
  end.

(** A buffer with a NUL among its characters. *)
Definition has_nul (s : string) : bool := negb (String.eqb (GoString s) s).

End Cgo.

Module P4.

Import Results.

(** [Dictionary] is [map[string]string], filled by the loop
    [d[C.GoString(k)] = C.GoString(v)] over the pairs of a [StrDict]:
    each key and value is read up to its first NUL. *)
Definition dict_of_pairs (l : StrDict.t) : gmap string string :=
  fold_left
    (fun d kv => <[Cgo.GoString (fst kv) := Cgo.GoString (snd kv)]> d) l ∅.

Record P4MessageLine := {
  line_severity : Z;
  line_code : Z;
  line_fmt : string
}.

Record P4Message := {
  msg_severity : Z;
  lines : list P4MessageLine;
  msgdict : gmap string string
}.

Inductive P4Result :=
| P4Data (s : string)
| P4Track (s : string)
| Dictionary (d : gmap string string)
| Message (m : P4Message).

Definition P4MESSAGE_FAILED : Z := 3.
Definition P4MESSAGE_FATAL : Z := 4.

(** The loop over [GetErrorCount( e )] lines shared by [Run],
    [handleCError] and the handler callbacks. *)
Definition goLine (id : Msg.ErrorId) : P4MessageLine :=
  {| line_severity := Msg.LineSeverity (Msg.code id);   (* GetErrorSeverityI *)
     line_code := Msg.code id;
     line_fmt := Msg.fmt id |}.

Definition goLines (e : Msg.Error) : list P4MessageLine :=
  map goLine (Msg.ids e).

(** [err.msgdict[fmt.Sprintf("Error %d", j)] = el.fmt] for each line. *)
Fixpoint add_line_entries (j : nat) (l : list P4MessageLine)
         (d : gmap string string) : gmap string string :=
  match l with
  | [] => d
  | el :: l' =>
      add_line_entries (S j) l' (<["Error " +:+ pretty j := line_fmt el]> d)
  end.

(** The [P4RESULTTYPE_MESSAGE] case of [Run]. *)
Definition goMessage (e : Msg.Error) : P4Message :=
  {| msg_severity := Msg.GetSeverity e;
     lines := goLines e;
     msgdict := add_line_entries 0 (goLines e) (dict_of_pairs (Msg.vars e)) |}.

(** The value one turn of the result loop of [Run] makes of a unit.
    [ResultGetString] copies the text with [strcpy] and [C.GoString]
    reads the copy, so a text or track line ends at its first NUL.
    [ResultGetBinary] copies with [strcpy] too, but [C.GoBytes] then
    reads [Length()] bytes: with a NUL in the payload, the bytes behind
    it were never written.  [None]: the code leaves defined behaviour
    (the unit has no payload of its kind to read, as a SPEC unit holding
    a null pointer, or bytes are read that were never written). *)
Definition goResult (x : P4GoResult) : option P4Result :=
  match type x with
  | STRING => (fun s => P4Data (Cgo.GoString s)) <$> str x
  | BINARY =>
      match str x with
      | Some s => if Cgo.has_nul s then None else Some (P4Data s)
      | None => None
      end
  | TRACK => (fun s => P4Track (Cgo.GoString s)) <$> str x
  | DICT => (fun d => Dictionary (dict_of_pairs d)) <$> dict x
  | SPEC =>
      match spec x with
      | Some (Some s) => Some (Dictionary (dict_of_pairs (Dict s)))
      | _ => None
      end
  | ERROR => (fun e => Message (goMessage e)) <$> err x
  end.

(** [handleCError]: nil unless the error holds at least one line. *)
Definition handleCError (e : Msg.Error) : option P4Message :=
  if Msg.GetErrorCount e =? 0 then None
  else Some {| msg_severity := Msg.GetSeverity e;
               lines := goLines e;
               msgdict := ∅ |}.

(** The loops over [ResultGetKeyPair] in [Run] and over
    [StrDictGetKeyPair] in [goCallHandleStatFunction] start with [k] and
    [v] pointing at one allocated byte each and end with [C.free( k )]
    and [C.free( v )].  Every successful call has put into [k] and [v]
    the text of a key and of a value inside the dictionary, so after a
    dictionary with at least one pair it is the buffers of its last key
    and value that are freed.  [last_pair x]: the unit [x] holds such a
    dictionary. *)
Definition last_pair (x : P4GoResult) : bool :=
  match type x with
  | DICT =>
      match dict x with
      | Some (_ :: _) => true
      | _ => false
      end
  | SPEC =>
      match spec x with
      | Some (Some s) =>
          match Dict s with
          | _ :: _ => true
          | [] => false
          end
      | _ => false
      end
  | _ => false
  end.

(** One turn of the result loop of [Run] on a unit whose last pair is
    [freed] already, or not: the value, and whether the last pair is
    freed afterwards.  [None]: the code leaves defined behaviour, here
    also by reading buffers that are freed and freeing them again. *)
Definition walk_unit (x : P4GoResult) (freed : bool)
  : option (P4Result * bool) :=
  if last_pair x && freed then None
  else (fun v => (v, freed || last_pair x)) <$> goResult x.

(** The result loop of [Run] over the units of a collection, each with
    the state of its last pair: the values, and the states afterwards. *)
Fixpoint walk (units : list (P4GoResult * bool))
  : option (list P4Result * list bool) :=
  match units with
  | [] => Some ([], [])
  | (x, freed) :: units' =>
      match walk_unit x freed with
      | None => None
      | Some (v, freed') =>
          (fun r => (v :: fst r, freed' :: snd r)) <$> walk units'
      end
  end.

(** Under an output handler a record is stored only after
    [goCallHandleStatFunction] has been through its pairs
    ([ProcessOutput( StrDict* )]): the last pair of a Record unit met
    under a handler is freed already.  The handler call for a spec is
    commented out in the source, and without a handler nothing is
    called. *)
Definition freed_by_callback (u : ClientUser.P4GoClientUser)
           (x : P4GoResult) : bool :=
  match ClientUser.handler u with
  | Some _ => is_kind DICT x
  | None => false
  end.

(** The units of the collection as the output calls of a command leave
    them. *)
Definition marked (u : ClientUser.P4GoClientUser)
  : list (P4GoResult * bool) :=
  map (fun x => (x, freed_by_callback u x))
      (items (ClientUser.results u)).

(** [func (p4 *P4) Run(cmd string, args ...string) ([]P4Result, error)]:
    the session afterwards, the results and [run_err].  [None] for the
    results: the process does not get through the result loop, and
    nothing is returned. *)
Definition Run (E : SpecEngine) (speclist : list (string * string))
           (R : EngineRun) (cmd : string) (args : list string)
           (a : ClientApi.P4GoClientApi)
  : ClientApi.P4GoClientApi * option (list P4Result) * option P4Message :=
  let '(a', _, e) := ClientApi.Run E speclist R cmd args Msg.empty a in
  (a', fst <$> walk (marked (ClientApi.ui a')), handleCError e).

(** Go errors as [Run] and its wrappers build them: one message, or
    the [errors.Join] of the non-nil ones among several. *)
Inductive GoError :=
| ErrMessage (m : P4Message)
| ErrJoin (errs : list P4Message).

(** [errors.Join( run_err, &v )]: nil arguments are dropped, and the
    result is nil if nothing is left. *)
Definition errors_Join (errs : list (option P4Message)) : option GoError :=
  match omap id errs with
  | [] => None
  | l => Some (ErrJoin l)
  end.

Definition is_failure (m : P4Message) : bool :=
  (msg_severity m =? P4MESSAGE_FAILED) || (msg_severity m =? P4MESSAGE_FATAL).



End P4.

(* ===================================================================== *)
(** ** The merge case seen from Go (p4.go) *)
(* ===================================================================== *)

Module GoMergeData.

(** The body shared by [ActionType], [MergeAction], [TheirAction] and
    [YourAction] of [P4MergeData] while the message is not cached: the
    [Error*] [e] that the C getter returns goes to [GetErrorSeverity],
    [GetErrorCount], [GetErrorSeverityI], [FmtError] and
    [GetErrorCode], each of which calls a member of [*e].  [None]: [e]
    is the null pointer, and the process stops in [GetErrorSeverity]. *)
Definition message_of (e : option Msg.Error) : option P4.P4Message :=
  match e with
  | None => None
  | Some e =>
      Some {| P4.msg_severity := Msg.GetSeverity e;
              P4.lines := P4.goLines e;
              P4.msgdict := ∅ |}
  end.

Definition ActionType (md : MergeData.P4GoMergeData) : option P4.P4Message :=
  message_of (MergeData.GetType md).

Definition MergeAction (md : MergeData.P4GoMergeData) : option P4.P4Message :=
  message_of (MergeData.GetMergeAction md).

Definition TheirAction (md : MergeData.P4GoMergeData) : option P4.P4Message :=
  message_of (MergeData.GetTheirAction md).

Definition YourAction (md : MergeData.P4GoMergeData) : option P4.P4Message :=
  message_of (MergeData.GetYoursAction md).

End GoMergeData.

(* ===================================================================== *)
(** ** Vocabulary of the statements *)
(* ===================================================================== *)

(** A decoder [f] reads bit [i] of the code when flipping that bit alone
    can change what [f] returns. *)
Definition reads (f : Z -> Z) (i : Z) : Prop :=
  exists c, f (Z.lxor c (Z.shiftl 1 i)) <> f c.

(** A field of [w] bits starting at bit [k]. *)
Definition field (k w : Z) (c : Z) : Z := Z.land (Z.shiftr c k) (Z.ones w).


(** *** The handler contract in the words of the specification

    What an output call offers to the handler, what the handler answers,
    and the unit that is stored when the answer is REPORT. *)
Definition offered (ev : Event) : Callback :=
  match ev with
  | EvOutputText data => CbText data
  | EvOutputBinary data => CbBinary data
  | EvOutputStat values => CbStat (ClientUser.plain_dict values)
  | EvMessage e => CbMessage e
  | EvHandleError e => CbMessage e
  end.

Definition answer (h : P4GoHandler) (hist : list Callback) (cb : Callback) : Z :=
  match cb with
  | CbBinary data => cbHandleBin h hist data
  | CbMessage e => cbHandleMsg h hist e
  | CbStat d => cbHandleStat h hist d
  | CbText data => cbHandleText h hist data
  | CbResolve _ => REPORT
  end.

Definition text_unit (data : string) : Results.P4GoResult :=
  {| Results.type := Results.STRING; Results.taken := 0;
     Results.str := Some data; Results.dict := None; Results.err := None;
     Results.spec := None |}.

Definition binary_unit (data : string) : Results.P4GoResult :=
  {| Results.type := Results.BINARY; Results.taken := 0;
     Results.str := Some data; Results.dict := None; Results.err := None;
     Results.spec := None |}.

Definition track_unit (line : string) : Results.P4GoResult :=
  {| Results.type := Results.TRACK; Results.taken := 0;
     Results.str := Some line; Results.dict := None; Results.err := None;
     Results.spec := None |}.

Definition record_unit (d : StrDict.t) : Results.P4GoResult :=
  {| Results.type := Results.DICT; Results.taken := 0;
     Results.str := None; Results.dict := Some d; Results.err := None;
     Results.spec := None |}.

Definition message_unit (e : Msg.Error) : Results.P4GoResult :=
  {| Results.type := Results.ERROR; Results.taken := 0;
     Results.str := None; Results.dict := None; Results.err := Some e;
     Results.spec := None |}.

Definition spec_unit (s : option P4GoSpecData) : Results.P4GoResult :=
  {| Results.type := Results.SPEC; Results.taken := 0;
     Results.str := None; Results.dict := None; Results.err := None;
     Results.spec := Some s |}.

(** The units stored for a reported call: one, except that a message of
    Empty severity is never stored. *)
Definition stored (cb : Callback) : list Results.P4GoResult :=
  match cb with
  | CbBinary data => [binary_unit data]
  | CbText data => [text_unit data]
  | CbStat d => [record_unit d]
  | CbMessage e =>
      if Msg.severity e =? Msg.E_EMPTY then [] else [message_unit e]
  | CbResolve _ => []
  end.

(** The output calls under the contract: binary output, messages, text
    that track mode does not claim, and records that are not marked as a
    spec. *)
Definition in_contract (u : ClientUser.P4GoClientUser) (ev : Event) : bool :=
  match ev with
  | EvOutputText data => negb (ClientUser.is_track_text u data)
  | EvOutputStat values => negb (ClientUser.isspec values)
  | _ => true
  end.

(** One step of the contract on (units, alive, calls shown to the
    handler): REPORT (0) stores and goes on, CANCEL (2) clears alive,
    anything else only goes on; without a handler the unit is stored. *)
Definition contract_step (h : option P4GoHandler)
           (st : list Results.P4GoResult * Z * list Callback) (ev : Event)
  : list Results.P4GoResult * Z * list Callback :=
  let '(units, alive, calls) := st in
  match h with
  | None => (units ++ stored (offered ev), alive, calls)
  | Some hd =>
      let ret := answer hd calls (offered ev) in
      (if ret =? REPORT then units ++ stored (offered ev) else units,
       if ret =? CANCEL then 0 else alive,
       calls ++ [offered ev])
  end.

Definition contract_run (h : option P4GoHandler) (evs : list Event)
           (st : list Results.P4GoResult * Z * list Callback) :=
  fold_left (contract_step h) evs st.

Definition observe (u : ClientUser.P4GoClientUser)
  : list Results.P4GoResult * Z * list Callback :=
  (Results.items (ClientUser.results u), ClientUser.alive u,
   ClientUser.callbacks u).

(** The Record (DICT) units of a collection. *)
Definition records (r : Results.P4GoResults) : list Results.P4GoResult :=
  List.filter (Results.is_kind Results.DICT) (Results.items r).

(** What an output call never changes: the handlers and the track mode. *)
Definition same_setup (u u' : ClientUser.P4GoClientUser) : Prop :=
  ClientUser.handler u' = ClientUser.handler u
  /\ ClientUser.track u' = ClientUser.track u
  /\ ClientUser.resolveHandler u' = ClientUser.resolveHandler u.

(** *** Concrete inputs

    A one-field stand-in for P4API's [Spec] class, used only to run the
    code on concrete inputs (every general statement is about an arbitrary
    engine).  A spec definition is the tag of its single field; the form
    of a record is the line [Tag:<TAB>value<NL>], and the empty form when
    the record lacks the field. *)
Definition tab : string := String "009"%char "".
Definition nl : string := String "010"%char "".

Definition one_field_engine : SpecEngine :=
  {| Spec_init := fun def =>
       if String.eqb def ""
       then Some (Msg.Set_ Msg.E_FAILED "Empty spec definition." Msg.empty)
       else None;
     Spec_Format := fun def d =>
       match StrDict.GetVar def d with
       | Some v => def +:+ ":" +:+ tab +:+ v +:+ nl
       | None => ""
       end;
     Spec_ParseNoValid := fun def form =>
       let head := def +:+ ":" +:+ tab in
       if String.eqb form "" then inr []
       else if String.prefix head form
       then inr [(def,
                  String.substring
                    (String.length head)
                    (String.length form - String.length head - 1) form)]
       else inl (Msg.Set_ Msg.E_FAILED "Syntax error in form." Msg.empty) |}.

(** A fresh client user and a connected session with no built-in specs. *)
Definition user0 : ClientUser.P4GoClientUser :=
  ClientUser.new {| SpecMgr.specs := [] |}.

Definition session0 : ClientApi.P4GoClientApi :=
  ClientApi.SetConnected (ClientApi.new []).

(** Handlers that give one fixed answer per kind of call. *)
Definition handler_of (bin msg stat text : Z) : P4GoHandler :=
  {| cbHandleBin := fun _ _ => bin;
     cbHandleMsg := fun _ _ => msg;
     cbHandleStat := fun _ _ => stat;
     cbHandleText := fun _ _ => text;
     cbHandleTrack := fun _ _ => REPORT;
     cbHandleSpec := fun _ _ => REPORT |}.

Definition record1 : StrDict.t := [("depotFile", "//depot/foo"); ("rev", "1")].
Definition record2 : StrDict.t := [("depotFile", "//depot/bar"); ("rev", "2")].

Definition info_message : Msg.Error :=
  Msg.Set_ Msg.E_INFO "//depot/foo#1 - added" Msg.empty.

Definition failed_message : Msg.Error :=
  Msg.Set_ Msg.E_FAILED "//depot/baz - no such file(s)." Msg.empty.

(** The event sequence [Record, Message(Info), Record, Message(Failed)]. *)
Definition four_events : list Event :=
  [EvOutputStat record1; EvMessage info_message;
   EvOutputStat record2; EvMessage failed_message].

Definition engine_run (evs : list Event) : EngineRun :=
  {| run_events := evs; run_dropped := false;
     run_final_errors := []; run_init_errors := [] |}.

(** A stream spec as a 2005.2+ server sends it: ready-parsed, flagged by
    [specFormatted], with the field [firmerThanParent] announced by
    [extraTag0] because the spec definition does not have it. *)
Definition stream_record : StrDict.t :=
  [("Stream", "//Stream/MAIN");
   ("extraTag0", "firmerThanParent");
   ("firmerThanParent", "n/a");
   ("specdef", "Stream");
   ("specFormatted", "");
   ("func", "client-SpecData")].


Definition is_failed (e : Msg.Error) : bool :=
  (Msg.severity e =? Msg.E_FAILED) || (Msg.severity e =? Msg.E_FATAL).



(** A dictionary whose keys hold no NUL. *)
Definition c_keys (d : StrDict.t) : bool :=
  forallb (fun kv => negb (Cgo.has_nul (fst kv))) d.

(** A content merge and an action resolve whose engine-side resolve
    answers with its hint, accept-theirs; a resolve handler that answers
    with the hint of the case it is shown. *)
Definition merge0 : MergeData.ClientMerge :=
  {| MergeData.cm_AutoResolve := MergeData.CMS_THEIRS;
     MergeData.cm_Resolve := MergeData.CMS_THEIRS;
     MergeData.cm_YourFile := Some "/ws/test_resolve/foo";
     MergeData.cm_TheirFile := Some "/tmp/theirs";
     MergeData.cm_BaseFile := Some "/tmp/base";
     MergeData.cm_ResultFile := Some "/tmp/result" |}.

(** A content merge with the same hint whose engine-side resolve,
    asked, answers skip. *)
Definition merge_skip : MergeData.ClientMerge :=
  {| MergeData.cm_AutoResolve := MergeData.CMS_THEIRS;
     MergeData.cm_Resolve := MergeData.CMS_SKIP;
     MergeData.cm_YourFile := Some "/ws/test_resolve/foo";
     MergeData.cm_TheirFile := Some "/tmp/theirs";
     MergeData.cm_BaseFile := Some "/tmp/base";
     MergeData.cm_ResultFile := Some "/tmp/result" |}.

Definition action0 : MergeData.ClientResolveA :=
  {| MergeData.cra_AutoResolve := MergeData.CMS_THEIRS;
     MergeData.cra_Resolve := MergeData.CMS_THEIRS;
     MergeData.cra_MergeAction := Msg.empty;
     MergeData.cra_YoursAction := Msg.Set_ Msg.E_INFO "ignore" Msg.empty;
     MergeData.cra_TheirAction := Msg.Set_ Msg.E_INFO "branch" Msg.empty;
     MergeData.cra_Type := Msg.Set_ Msg.E_INFO "Branch resolve" Msg.empty |}.

Definition hint_resolver : P4GoResolveHandler :=
  {| cbResolve := fun _ md => MergeData.GetMergeHint md |}.

(** A session that still holds the output of an earlier, cancelled
    command. *)
Definition used_user : ClientUser.P4GoClientUser :=
  ClientUser.set_alive 0
    (ClientUser.deliver_all one_field_engine four_events user0).

Definition used_session : ClientApi.P4GoClientApi :=
  ClientApi.set_ui used_user session0.

(** Two records around a text, and a handler that keeps records to
    itself and lets everything else be reported. *)
Definition mixed_events : list Event :=
  [EvOutputStat record1; EvOutputText "hello"; EvOutputStat record2].

Definition stat_keeper : ClientUser.P4GoClientUser :=
  ClientUser.SetHandler (Some (handler_of REPORT REPORT HANDLED REPORT)) user0.

(** Case analysis on a handler's answer in the dispatch proofs. *)
Ltac by_answer :=
  unfold ClientUser.after_call, observe, contract_step, REPORT, CANCEL;
  cbn [offered answer];
  match goal with
  | |- context [?r =? 2] => destruct (r =? 0), (r =? 2)
  end; reflexivity.


(* ===================================================================== *)
(** ** Sequences of calls on the result collection (p4goresult.cpp) *)
(* ===================================================================== *)

Module ResultCalls.

Import Results.

(** One call of a method of [P4GoResults] that changes the collection. *)
Inductive Call :=
| AddError (e : Msg.Error)
| AddStr (o : string) (binary : bool)
| AddDict (d : StrDict.t)
| AddSpec (s : option P4GoSpecData)
| AddTrackLine (t : string)
| DelTrack
| ResetAll.

Definition call (c : Call) (r : P4GoResults) : P4GoResults :=
  match c with
  | AddError e => AddOutput_Error e r
  | AddStr o binary => AddOutput_Str o binary r
  | AddDict d => AddOutput_Dict d r
  | AddSpec s => AddOutput_Spec s r
  | AddTrackLine t => AddTrack t r
  | DelTrack => DeleteTrack r
  | ResetAll => Reset r
  end.

Definition calls (cs : list Call) (r : P4GoResults) : P4GoResults :=
  fold_left (fun acc c => call c acc) cs r.

Definition is_DelTrack (c : Call) : bool :=
  match c with DelTrack => true | _ => false end.

(** The number of units of kind [k] in the collection. *)
Definition units_of (k : P4GoResultType) (r : P4GoResults) : Z :=
  Z.of_nat (length (List.filter (is_kind k) (items r))).

(** The number of message units whose severity satisfies [p]. *)
Definition is_message_with (p : Z -> bool) (x : P4GoResult) : bool :=
  is_kind ERROR x
  && match err x with
     | Some e => p (Msg.GetSeverity e)
     | None => false
     end.

Definition messages_with (p : Z -> bool) (r : P4GoResults) : Z :=
  Z.of_nat (length (List.filter (is_message_with p) (items r))).

Definition is_info (s : Z) : bool := s =? Msg.E_INFO.
Definition is_warn (s : Z) : bool := s =? Msg.E_WARN.
Definition is_worse (s : Z) : bool :=
  negb (s =? Msg.E_INFO) && negb (s =? Msg.E_WARN).

(** The agreement of the running counts with the units held. *)
Definition counts_agree (r : P4GoResults) : Prop :=
  stringCount r = units_of STRING r + units_of BINARY r
  /\ dictCount r = units_of DICT r
  /\ specCount r = units_of SPEC r
  /\ infoCount r = messages_with is_info r
  /\ warnCount r = messages_with is_warn r
  /\ errorCount r = messages_with is_worse r.

End ResultCalls.

(* ===================================================================== *)
(** ** Keys of indexed fields (p4gospecmgr.cpp) *)
(* ===================================================================== *)

Module SpecKeys.

(** [isdigit] of the C library on one [char] of a key. *)
Definition isdigit (c : ascii) : bool :=
  (48 <=? nat_of_ascii c)%nat && (nat_of_ascii c <=? 57)%nat.

(** The loop [for( i = key->Length(); i; i-- )] of [SplitKey]: at the
    first character from the end that is neither a digit nor a comma,
    [base] is set to the first [i] characters and [index] to the rest;
    if the loop runs out, [base] and [index] keep their initial values,
    the whole key and the empty string.  [( *key )[i - 1]] is always
    inside the key. *)
Fixpoint SplitKey_loop (key : string) (i : nat) : string * string :=
  match i with
  | O => (key, "")
  | S j =>
      match String.get j key with
      | Some prev =>
          if negb (isdigit prev) && negb (Ascii.eqb prev ","%char)
          then (String.substring 0 i key,
                String.substring i (String.length key - i) key)
          else SplitKey_loop key j
      | None => SplitKey_loop key j
      end
  end.

(** [P4GoSpecMgr::SplitKey( key, base, index )]: the pair
    [(base, index)]. *)
Definition SplitKey (key : string) : string * string :=
  SplitKey_loop key (String.length key).

(** The characters an index is made of. *)
Definition is_index_char (c : ascii) : bool :=
  isdigit c || Ascii.eqb c ","%char.

Definition all_index (s : string) : bool :=
  forallb is_index_char (list_ascii_of_string s).

End SpecKeys.

(* ===================================================================== *)
(** ** Input for the engine (p4goclientuser.cpp) *)
(* ===================================================================== *)

Module UserInput.

Import ClientUser.

Definition set_input (l : list string) (u : P4GoClientUser) :=
  {| cmd := cmd u; specMgr := specMgr u; results := results u; input := l;
     resolveHandler := resolveHandler u; handler := handler u;
     progress := progress u; ssoHandler := ssoHandler u; alive := alive u;
     track := track u; varList := varList u; callbacks := callbacks u |}.

(** [P4GoClientUser::ResetInput()]: [input->Clear()]. *)
Definition ResetInput (u : P4GoClientUser) : P4GoClientUser := set_input [] u.

(** [P4GoClientUser::AppendInput( i )]: [input->Put()->Set( i )]. *)
Definition AppendInput (i : string) (u : P4GoClientUser) : P4GoClientUser :=
  set_input (input u ++ [i]) u.

(** [P4GoClientUser::InputData( strbuf, e )]: what is left in [strbuf]
    and the client user afterwards. *)
Definition InputData (u : P4GoClientUser) : string * P4GoClientUser :=
  match input u with
  | x :: rest => (x, set_input rest u)
  | [] => ("", u)
  end.

(** [P4GoClientUser::Prompt( msg, rsp, noEcho, e )]. *)
Definition Prompt (msg : string) (noEcho : Z) (u : P4GoClientUser)
  : string * P4GoClientUser :=
  InputData u.

(** [P4GoClientUser::Finished()]. *)
Definition Finished (u : P4GoClientUser) : P4GoClientUser := set_input [] u.

(** The questions of the engine during one command: a request for input
    data, or a prompt. *)
Inductive Question :=
| AskInput
| AskPrompt (msg : string) (noEcho : Z).

Definition ask (q : Question) (u : P4GoClientUser) : string * P4GoClientUser :=
  match q with
  | AskInput => InputData u
  | AskPrompt msg noEcho => Prompt msg noEcho u
  end.

(** The answers to a sequence of questions, in order. *)
Fixpoint ask_all (qs : list Question) (u : P4GoClientUser)
  : list string * P4GoClientUser :=
  match qs with
  | [] => ([], u)
  | q :: qs' =>
      let '(a, u1) := ask q u in
      let '(l, u2) := ask_all qs' u1 in
      (a :: l, u2)
  end.

(** The calls [SetInput] of p4.go makes for its arguments:
    [ResetInput] and then [AppendInput] for each. *)
Definition supply (l : list string) (u : P4GoClientUser) : P4GoClientUser :=
  fold_left (fun acc i => AppendInput i acc) l (ResetInput u).

End UserInput.

(* ===================================================================== *)
(** ** Connecting and disconnecting (p4goclientapi.cpp, p4.go) *)
(* ===================================================================== *)

Module Connection.

Import ClientUser ClientApi.

(** [P4GoClientApi::Connect( e )]: the value returned, the session and
    the error.  [R] tells what the engine does when it is asked. *)
Definition Connect (R : EngineRun) (e : Msg.Error) (a : P4GoClientApi)
  : Z * P4GoClientApi * Msg.Error :=
  if IsConnected a
  then (1, a,
        Msg.Set_ Msg.E_WARN
                 "P4#connect - Perforce client already connected!" e)
  else ConnectOrReconnect R e a.

(** [P4GoClientApi::Connected()]; [run_dropped R] is what
    [client.Dropped()] answers.  The error of the disconnect is a local
    of the function and is thrown away. *)
Definition Connected (speclist : list (string * string)) (R : EngineRun)
           (a : P4GoClientApi) : Z * P4GoClientApi :=
  if IsConnected a && negb (run_dropped R) then (1, a)
  else if IsConnected a
       then let '(_, a1, _) := Disconnect speclist R Msg.empty a in (0, a1)
       else (0, a).

(** [func (p4 *P4) Connect() (bool, error)]: the C call under
    [handleCError]. *)
Definition P4_Connect (R : EngineRun) (a : P4GoClientApi)
  : P4GoClientApi * bool * option P4.P4Message :=
  let '(ret, a', e) := Connect R Msg.empty a in
  (a', negb (ret =? 0), P4.handleCError e).

(** [func (p4 *P4) Disconnect() (bool, error)]. *)
Definition P4_Disconnect (speclist : list (string * string)) (R : EngineRun)
           (a : P4GoClientApi)
  : P4GoClientApi * bool * option P4.P4Message :=
  let '(ret, a', e) := Disconnect speclist R Msg.empty a in
  (a', negb (ret =? 0), P4.handleCError e).

(** [func (p4 *P4) Connected() bool]. *)
Definition P4_Connected (speclist : list (string * string)) (R : EngineRun)
           (a : P4GoClientApi) : P4GoClientApi * bool :=
  let '(ret, a') := Connected speclist R a in
  (a', negb (ret =? 0)).

End Connection.

(* ===================================================================== *)
(** ** Fetching and deleting specs (p4.go) *)
(* ===================================================================== *)

Module GoRun.

Import P4.

Definition P4MESSAGE_INFO : Z := 1.
Definition P4MESSAGE_WARN : Z := 2.

(** The result loop of [RunFetch]: the first Failed or Fatal message
    ends it with an error, the first dictionary ends it with that
    dictionary. *)
Fixpoint fetch_scan (raw : list P4Result) (run_err : option P4Message)
  : option (gmap string string) * option GoError :=
  match raw with
  | [] => (None, ErrMessage <$> run_err)
  | Message v :: raw' =>
      if is_failure v
      then (None, errors_Join [run_err; Some v])
      else fetch_scan raw' run_err
  | Dictionary v :: _ => (Some v, ErrMessage <$> run_err)
  | _ :: raw' => fetch_scan raw' run_err
  end.

(** [func (p4 *P4) RunFetch(spec string, args ...string)]: the session
    afterwards and what is returned ([None] if reading the results
    fails). *)
Definition RunFetch (E : SpecEngine) (speclist : list (string * string))
           (R : EngineRun) (spec : string) (args : list string)
           (a : ClientApi.P4GoClientApi)
  : ClientApi.P4GoClientApi
    * option (option (gmap string string) * option GoError) :=
  let '(a', raw, run_err) := Run E speclist R spec ("-o" :: args) a in
  (a', (fun r => fetch_scan r run_err) <$> raw).

(** The result loop of [RunDelete] (and of [RunSave] and
    [RunPassword]): only messages count; Failed or Fatal ends the loop
    with an error, Info or Warn ends it with that message. *)
Fixpoint message_scan (raw : list P4Result) (run_err : option P4Message)
  : option P4Message * option GoError :=
  match raw with
  | [] => (None, ErrMessage <$> run_err)
  | Message msg :: raw' =>
      if is_failure msg
      then (None, errors_Join [run_err; Some msg])
      else if (msg_severity msg =? P4MESSAGE_INFO)
              || (msg_severity msg =? P4MESSAGE_WARN)
      then (Some msg, ErrMessage <$> run_err)
      else message_scan raw' run_err
  | _ :: raw' => message_scan raw' run_err
  end.

(** The arguments [RunDelete] builds: for a shelve, ["-c"] goes in front
    unless some argument is ["-c"]; then ["-d"] goes in front. *)
Definition delete_args (spec : string) (args : list string) : list string :=
  let args1 :=
    if String.eqb spec "shelve"
    then if existsb (fun arg => String.eqb arg "-c") args
         then args
         else "-c" :: args
    else args in
  "-d" :: args1.

(** [func (p4 *P4) RunDelete(spec string, args ...string)]. *)
Definition RunDelete (E : SpecEngine) (speclist : list (string * string))
           (R : EngineRun) (spec : string) (args : list string)
           (a : ClientApi.P4GoClientApi)
  : ClientApi.P4GoClientApi
    * option (option P4Message * option GoError) :=
  let '(a', raw, run_err) := Run E speclist R spec (delete_args spec args) a in
  (a', (fun r => message_scan r run_err) <$> raw).

End GoRun.

(* ===================================================================== *)
(** ** More vocabulary *)
(* ===================================================================== *)

(** An output call that brings no spec definition. *)
Definition no_specdef (ev : Event) : bool :=
  match ev with
  | EvOutputStat values => negb (StrDict.has "specdef" values)
  | _ => true
  end.

(** What an output call that brings no spec definition leaves alone:
    the command name and the cache of spec definitions. *)
Definition same_cache (u u' : ClientUser.P4GoClientUser) : Prop :=
  ClientUser.cmd u' = ClientUser.cmd u
  /\ ClientUser.specMgr u' = ClientUser.specMgr u.

(** Go results that [RunFetch] passes over: anything but a dictionary
    and a Failed or Fatal message. *)
Definition fetch_skips (r : P4.P4Result) : bool :=
  match r with
  | P4.Message v => negb (P4.is_failure v)
  | P4.Dictionary _ => false
  | _ => true
  end.

(** Go results that [RunDelete] passes over: anything but a message of
    severity Info, Warn, Failed or Fatal. *)
Definition delete_skips (r : P4.P4Result) : bool :=
  match r with
  | P4.Message v =>
      negb ((1 <=? P4.msg_severity v) && (P4.msg_severity v <=? 4))
  | _ => true
  end.


(** An engine run whose connection has dropped by the end. *)
Definition dropped_run (evs : list Event) : EngineRun :=
  {| run_events := evs; run_dropped := true;
     run_final_errors := []; run_init_errors := [] |}.

(** A client spec as a server sends it with [client -o]: the form
    text in [data], to be parsed with [specdef]. *)
Definition client_record : StrDict.t :=
  [("specdef", "Client"); ("data", "Client:" +:+ tab +:+ "ws" +:+ nl)].

(** Track output as the server sends it: each line behind the marker
    ["--- "] and ended by a newline, and possibly the beginning of a
    further line. *)
Definition no_newline (s : string) : bool :=
  forallb (fun c => negb (Ascii.eqb c ClientUser.newline))
          (list_ascii_of_string s).

Definition track_line (l : string) : bool :=
  negb (String.eqb l "") && no_newline l.

Definition track_text (lines : list string) (rest : string) : string :=
  fold_right (fun l acc => "--- " +:+ l +:+ nl +:+ acc) rest lines.

(** Whether the handler answers CANCEL to one of the calls [cbs], made
    one after the other behind the calls [hist]. *)
Fixpoint any_cancel (h : P4GoHandler) (hist cbs : list Callback) : bool :=
  match cbs with
  | [] => false
  | cb :: cbs' =>
      (answer h hist cb =? CANCEL) || any_cancel h (hist ++ [cb]) cbs'
  end.

(** What output calls do to the log of calls and to alive: the log
    grows by the calls made, and alive becomes 0 if the handler answers
    CANCEL to one of them and is left alone otherwise. *)
Definition alive_step (ho : option P4GoHandler)
           (u u' : ClientUser.P4GoClientUser) : Prop :=
  exists news,
    ClientUser.callbacks u' = ClientUser.callbacks u ++ news
    /\ ClientUser.alive u'
       = match ho with
         | Some h =>
             if any_cancel h (ClientUser.callbacks u) news then 0
             else ClientUser.alive u
         | None => ClientUser.alive u
         end
    /\ (ho = None -> news = []).

(* ===================================================================== *)
(** ** The registry of Go handlers (p4.go) *)
(* ===================================================================== *)

Module Registry.

(** The four kinds of object a [P4] registers with its session: the
    progress indicator, the output handler, the SSO handler and the
    resolve handler. *)
Inductive Kind := Progress | Output | SSO | Resolve.

Definition Kind_eqb (a b : Kind) : bool :=
  match a, b with
  | Progress, Progress | Output, Output | SSO, SSO | Resolve, Resolve => true
  | _, _ => false
  end.

(** Addresses of the C++ objects made by [C.NewProgress], [C.NewHandler],
    [C.NewSSOHandler] and [C.NewResolveHandler]. *)
Definition ptr : Type := positive.

Definition upd {A} (f : Kind -> A) (k : Kind) (x : A) : Kind -> A :=
  fun k' => if Kind_eqb k' k then x else f k'.

Section WithHandlers.

(** The Go values that are registered, and [operator new]: the address
    it returns when the objects at the given addresses are live. *)
Context {V : Type}.
Variable alloc : gset ptr -> ptr.

(** What the bookkeeping of p4.go reads and writes:
    - [go_handle]: the fields [progresshandle], [outputhandle],
      [ssohandle] and [resolvehandle] of [struct P4];
    - [pointer_map]: the globals [progress_pointer_map],
      [handler_pointer_map], [ssohandler_pointer_map] and
      [resolvehandler_pointer_map];
    - [c_handle]: the pointers the client user holds, which
      [C.GetProgress], [C.GetHandler], [C.GetSSOHandler] and
      [C.GetResolveHandler] return;
    - [live]: the addresses of the objects made and not yet deleted;
    - [bad_deletes]: the addresses handed to [delete] while no object
      was live there. *)
Record World := {
  go_handle : Kind -> option ptr;
  pointer_map : Kind -> gmap ptr V;
  c_handle : Kind -> option ptr;
  live : gset ptr;
  bad_deletes : list ptr
}.

(** [New()]: all four handles nil; the maps start empty. *)
Definition New : World :=
  {| go_handle := fun _ => None; pointer_map := fun _ => ∅;
     c_handle := fun _ => None; live := ∅; bad_deletes := [] |}.

(** [C.FreeProgress], [C.FreeHandler], [C.FreeSSOHandler],
    [C.FreeResolveHandler]: [delete] of the object at [p]. *)
Definition Free (p : ptr) (w : World) : World :=
  if bool_decide (p ∈ live w)
  then {| go_handle := go_handle w; pointer_map := pointer_map w;
          c_handle := c_handle w; live := live w ∖ {[p]};
          bad_deletes := bad_deletes w |}
  else {| go_handle := go_handle w; pointer_map := pointer_map w;
          c_handle := c_handle w; live := live w;
          bad_deletes := bad_deletes w ++ [p] |}.

(** [<kind>_pointer_map.Delete( p )]. *)
Definition map_Delete (k : Kind) (p : ptr) (w : World) : World :=
  {| go_handle := go_handle w;
     pointer_map := upd (pointer_map w) k (delete p (pointer_map w k));
     c_handle := c_handle w; live := live w; bad_deletes := bad_deletes w |}.

(** The field of [struct P4] that the setter of kind [k] sets to nil
    before it registers the new object: its own, except that
    [SetResolveHandler] writes [p4.outputhandle = nil]. *)
Definition nilled (k : Kind) : Kind :=
  match k with
  | Resolve => Output
  | _ => k
  end.

(** The common shape of [SetProgress], [SetHandler], [SetSSOHandler]
    and [SetResolveHandler]; [v] is the Go value, [None] for nil. *)
Definition set_handle (k : Kind) (v : option V) (w : World) : World :=
  (* p := C.Get...(p4.handle); if p != nil { map.Delete(p); C.Free...(p) } *)
  let w1 := match c_handle w k with
            | Some p => Free p (map_Delete k p w)
            | None => w
            end in
  (* p4....handle = nil *)
  let go1 := upd (go_handle w1) (nilled k) None in
  match v with
  | Some x =>
      (* p4....handle = C.New...(); map.Set(p4....handle, &v);
         C.Set...(p4.handle, p4....handle) *)
      let a := alloc (live w1) in
      {| go_handle := upd go1 k (Some a);
         pointer_map := upd (pointer_map w1) k (<[a := x]> (pointer_map w1 k));
         c_handle := upd (c_handle w1) k (Some a);
         live := {[a]} ∪ live w1;
         bad_deletes := bad_deletes w1 |}
  | None =>
      (* C.Set...(p4.handle, nil) *)
      {| go_handle := go1; pointer_map := pointer_map w1;
         c_handle := upd (c_handle w1) k None;
         live := live w1; bad_deletes := bad_deletes w1 |}
  end.

Definition SetProgress := set_handle Progress.
Definition SetHandler := set_handle Output.
Definition SetSSOHandler := set_handle SSO.
Definition SetResolveHandler := set_handle Resolve.

(** One [if p4....handle != nil { map.Delete(...); C.Free...(...) }] of
    [Close]. *)
Definition close_one (k : Kind) (w : World) : World :=
  match go_handle w k with
  | Some p => Free p (map_Delete k p w)
  | None => w
  end.

(** [func (p4 *P4) Close()]: progress, output, SSO, resolve, in this
    order.  ([C.FreeClientApi] deletes the session, which owns none of
    these objects.) *)
Definition Close (w : World) : World :=
  close_one Resolve (close_one SSO (close_one Output (close_one Progress w))).

(** What the callbacks [goCallHandle...], [goCallResolveFunction] and
    the like find for the C++ object at [ctx]: the Go value, or nil, in
    which case they answer with their default. *)
Definition lookup (k : Kind) (ctx : ptr) (w : World) : option V :=
  pointer_map w k !! ctx.

(** A sequence of setter calls. *)
Definition set_all (cs : list (Kind * option V)) (w : World) : World :=
  fold_left (fun acc c => set_handle (fst c) (snd c) acc) cs w.

Definition is_Resolve (k : Kind) : bool := Kind_eqb k Resolve.

(** The objects are accounted for: each map has exactly the entry of the
    object the session uses for its kind, the live objects are the ones
    in use, no object serves two kinds, and nothing was deleted
    twice. *)
Definition sound (w : World) : Prop :=
  (forall k p, is_Some (pointer_map w k !! p) <-> c_handle w k = Some p)
  /\ (forall p, p ∈ live w <-> exists k, c_handle w k = Some p)
  /\ (forall k k' p, c_handle w k = Some p -> c_handle w k' = Some p -> k = k')
  /\ bad_deletes w = [].

(** The bookkeeping is in order: the Go fields name the objects the
    session uses, and the objects are accounted for. *)
Definition tidy (w : World) : Prop :=
  (forall k, go_handle w k = c_handle w k) /\ sound w.

End WithHandlers.

End Registry.

(* ===================================================================== *)
(** ** The ticket file and the trust file (p4goclientapi.cpp) *)
(* ===================================================================== *)

Module Files.

(** What the functions below ask of P4API: [enviro->Get( var )], null
    when the variable is not set, and the defaults that
    [HostEnv::GetTicketFile] and [HostEnv::GetTrustFile] put into the
    buffer they are given. *)
Record Environment := {
  enviro_Get : string -> option string;
  host_ticket_file : string;
  host_trust_file : string
}.

(** The members [ticketFile] and [trustFile] of [P4GoClientApi]. *)
Record FileNames := {
  ticketFile : string;
  trustFile : string
}.

(** [P4GoClientApi::P4GoClientApi()] leaves both empty. *)
Definition new : FileNames := {| ticketFile := ""; trustFile := "" |}.

(** [P4GoClientApi::SetTicketFile( p )], [P4GoClientApi::SetTrustFile( p )]. *)
Definition SetTicketFile (p : string) (f : FileNames) : FileNames :=
  {| ticketFile := p; trustFile := trustFile f |}.

Definition SetTrustFile (p : string) (f : FileNames) : FileNames :=
  {| ticketFile := ticketFile f; trustFile := p |}.

(** [P4GoClientApi::GetTicketFile()]: the name returned and the members
    afterwards. *)
Definition GetTicketFile (env : Environment) (f : FileNames)
  : string * FileNames :=
  if negb (String.length (ticketFile f) =? 0)%nat
  then (ticketFile f, f)
  else
    (* Start with the default, and then override it if P4TICKETS is set. *)
    let t0 := host_ticket_file env in
    let t1 := match enviro_Get env "P4TICKETS" with
              | Some t => t
              | None => t0
              end in
    (t1, {| ticketFile := t1; trustFile := trustFile f |}).

(** [P4GoClientApi::GetTrustFile()]. *)
Definition GetTrustFile (env : Environment) (f : FileNames)
  : string * FileNames :=
  if negb (String.length (trustFile f) =? 0)%nat
  then (trustFile f, f)
  else
    let t0 := host_trust_file env in
    let t1 := match enviro_Get env "P4TICKETS" with
              | Some t => t
              | None => t0
              end in
    (t1, {| ticketFile := ticketFile f; trustFile := t1 |}).

End Files.

(** A host whose environment sets [P4TICKETS] and [P4TRUST]. *)
Definition host_env : Files.Environment :=
  {| Files.enviro_Get := fun var =>
       if String.eqb var "P4TICKETS" then Some "/home/u/tickets"
       else if String.eqb var "P4TRUST" then Some "/home/u/trust"
       else None;
     Files.host_ticket_file := "/home/u/.p4tickets";
     Files.host_trust_file := "/home/u/.p4trust" |}.

(* ===================================================================== *)
(** ** File histories (p4.go) *)
(* ===================================================================== *)

Module Filelog.

(** A value of a [map[string]interface{}], as far as the code tells
    values apart: by the type assertion [.(string)]. *)
Inductive GoValue :=
| GoString (s : string)
| GoOther.

(** [v, ok := h[key].(string)]. *)
Definition get_string (h : gmap string GoValue) (key : string)
  : option string :=
  match h !! key with
  | Some (GoString s) => Some s
  | _ => None
  end.

Record P4Integration := {
  How : string;
  File : string;
  SRev : Z;
  ERev : Z
}.

(** [Time] is [None] for the zero [time.Time], and the seconds given to
    [time.Unix] otherwise. *)
Record P4Revision := {
  Rev : Z;
  Change : Z;
  Action : string;
  Type_ : string;
  Time : option Z;
  User : string;
  Client : string;
  Desc : string;
  Digest : string;
  FileSize : string;
  Integrations : list P4Integration
}.

Record P4DepotFile := {
  Name : string;
  Revisions : list P4Revision
}.

(** The loop of [strconv.ParseUint] in base 10 over the characters of
    [s], with [n] read so far, for numbers up to [maxVal]: [None] at a
    character that is no digit (a syntax error), and [maxVal] as soon as
    a digit takes the number above [maxVal] (a range error; the rest of
    [s] is not looked at).  For a size of at most 64 bits the two
    overflow tests of the loop ([n >= cutoff] before the multiplication,
    [n1 < n || n1 > maxVal] after the addition) come to the one test
    here. *)
Fixpoint ParseUint_loop (s : string) (n maxVal : Z) : option Z :=
  match s with
  | EmptyString => Some n
  | String c s' =>
      if (48 <=? nat_of_ascii c)%nat && (nat_of_ascii c <=? 57)%nat
      then
        let n1 := 10 * n + (Z.of_nat (nat_of_ascii c) - 48) in
        if maxVal <? n1 then Some maxVal else ParseUint_loop s' n1 maxVal
      else None
  end.

(** The value [strconv.ParseUint( s, 10, bitSize )] returns with a nil
    or a range error; [None] on a syntax error, which the empty string
    is too.  [bitSize] is the size in bits, with 0 replaced by the size
    of [int] already. *)
Definition ParseUint (s : string) (bitSize : Z) : option Z :=
  match s with
  | EmptyString => None
  | _ => ParseUint_loop s 0 (2 ^ bitSize - 1)
  end.

(** The value [strconv.ParseInt( s, 10, bitSize )] returns beside its
    error: 0 on a syntax error, the largest magnitude of the sign when
    out of range. *)
Definition ParseInt (s : string) (bitSize : Z) : Z :=
  match s with
  | EmptyString => 0
  | String c r =>
      let neg := Ascii.eqb c "-" in
      let s1 := if Ascii.eqb c "+" || Ascii.eqb c "-" then r else s in
      match ParseUint s1 bitSize with
      | None => 0
      | Some un =>
          let cutoff := 2 ^ (bitSize - 1) in
          if negb neg && (cutoff <=? un) then cutoff - 1
          else if neg && (cutoff <? un) then - cutoff
          else if neg then - un else un
      end
  end.

(** [strings.TrimPrefix( s, prefix )]. *)
Definition TrimPrefix (s prefix : string) : string :=
  if String.prefix prefix s
  then String.substring (String.length prefix)
                        (String.length s - String.length prefix) s
  else s.

(** [fmt.Sprintf( name + "%d", n )] and [fmt.Sprintf( name + "%d,%d", n, m )]. *)
Definition key1 (name : string) (n : nat) : string := name +:+ pretty n.

Definition key2 (name : string) (n m : nat) : string :=
  name +:+ pretty n +:+ "," +:+ pretty m.

Section WithIntSize.

(** The size of [int] in bits on the platform. *)
Variable intSize : Z.

(** The value [strconv.Atoi( s )] returns beside its error: that of
    [ParseInt( s, 10, 0 )], where size 0 stands for the size of [int]
    (the fast path of [Atoi] for short strings gives the same
    values). *)
Definition Atoi (s : string) : Z := ParseInt s intSize.

(** [parseRevision( rev )]. *)
Definition parseRevision (rev : string) : Z :=
  if String.eqb rev "none" || String.eqb rev "#none" then 0
  else Atoi (TrimPrefix rev "#").

(** The loop [for key := range h] that counts the keys starting with
    ["rev"]. *)
Definition revisionCount (h : gmap string GoValue) : nat :=
  length (List.filter (fun key => String.prefix "rev" key)
                      (map fst (map_to_list h))).

(** One turn of the loop [for m := 0; ; m++] over the integration
    records of revision [n]: the record added, or [None] when one of the
    four keys holds no string and the loop breaks. *)
Definition integration_at (h : gmap string GoValue) (n m : nat)
  : option P4Integration :=
  match get_string h (key2 "how" n m), get_string h (key2 "file" n m),
        get_string h (key2 "srev" n m), get_string h (key2 "erev" n m)
  with
  | Some how, Some file, Some srev, Some erev =>
      Some {| How := how; File := file;
              SRev := parseRevision srev; ERev := parseRevision erev |}
  | _, _, _, _ => None
  end.

(** The loop from [m] on; [None] when it has not ended after [fuel]
    turns. *)
Fixpoint integrations (h : gmap string GoValue) (n m : nat) (fuel : nat)
  : option (list P4Integration) :=
  match fuel with
  | O => None
  | S fuel' =>
      match integration_at h n m with
      | Some i => cons i <$> integrations h n (S m) fuel'
      | None => Some []
      end
  end.

(** A field that is set when its key holds a string. *)
Definition field {A : Type} (h : gmap string GoValue) (key : string)
           (zero : A) (f : string -> A) : A :=
  match get_string h key with
  | Some s => f s
  | None => zero
  end.

(** One turn of the loop [for n := 0; n < revisionCount; n++]. *)
Definition revision (h : gmap string GoValue) (fuel : nat) (n : nat)
  : option P4Revision :=
  (fun ints =>
     {| Rev := field h (key1 "rev" n) 0 Atoi;
        Change := field h (key1 "change" n) 0 Atoi;
        Action := field h (key1 "action" n) "" id;
        Type_ := field h (key1 "type" n) "" id;
        Time := field h (key1 "time" n) None (fun t => Some (ParseInt t 64));
        User := field h (key1 "user" n) "" id;
        Client := field h (key1 "client" n) "" id;
        Desc := field h (key1 "desc" n) "" id;
        Digest := field h (key1 "digest" n) "" id;
        FileSize := field h (key1 "fileSize" n) "" id;
        Integrations := ints |})
  <$> integrations h n 0 fuel.

(** [ProcessFilelog( h )]: the depot file or the text of the error.
    Each integration loop is given one turn more than [h] has keys;
    [None] if one of them has not ended by then. *)
Definition ProcessFilelog (h : gmap string GoValue)
  : option (P4DepotFile + string) :=
  match get_string h "depotFile" with
  | None => Some (inr "not a filelog object: missing depotFile")
  | Some depotFile =>
      (fun revs => inl {| Name := depotFile; Revisions := revs |})
      <$> mapM (revision h (S (size h))) (seq 0 (revisionCount h))
  end.

(** The errors [RunFilelog] returns: the error of the run, or the
    [errors.Join] of the error of the run, if there is one, and an error
    made by [errors.New]. *)
Inductive FilelogError :=
| ErrRun (m : P4.P4Message)
| ErrJoin (errs : list (P4.P4Message + string)).

(** [errors.Join( run_err, errors.New( text ) )]. *)
Definition join (run_err : option P4.P4Message) (text : string)
  : option FilelogError :=
  Some (ErrJoin (match run_err with
                 | Some m => [inl m; inr text]
                 | None => [inr text]
                 end)).

(** The result loop of [RunFilelog]; [None] under the conditions of
    [ProcessFilelog]. *)
Fixpoint filelog_scan (raw : list P4.P4Result) (run_err : option P4.P4Message)
         (result : list P4DepotFile)
  : option (list P4DepotFile * option FilelogError) :=
  match raw with
  | [] => Some (result, ErrRun <$> run_err)
  | P4.Dictionary hDict :: raw' =>
      match ProcessFilelog (GoString <$> hDict) with
      | None => None
      | Some (inr err) => Some ([], join run_err err)
      | Some (inl df) => filelog_scan raw' run_err (result ++ [df])
      end
  | _ :: _ =>
      Some ([], join run_err "unexpected filelog data type")
  end.

(** [func (p4 *P4) RunFilelog(args ...string) ([]*P4DepotFile, error)]:
    the session afterwards and what is returned ([None] if reading the
    results fails). *)
Definition RunFilelog (E : SpecEngine) (speclist : list (string * string))
           (R : EngineRun) (args : list string)
           (a : ClientApi.P4GoClientApi)
  : ClientApi.P4GoClientApi
    * option (list P4DepotFile * option FilelogError) :=
  let '(a', raw, run_err) := P4.Run E speclist R "filelog" args a in
  (a', raw ≫= fun r => filelog_scan r run_err []).

End WithIntSize.

End Filelog.

(** The depot file that a result of [filelog] names: none unless the
    result is a dictionary that has [depotFile]. *)
Definition depot_name (r : P4.P4Result) : option string :=
  match r with
  | P4.Dictionary d => d !! "depotFile"
  | _ => None
  end.

(** The text of the error [RunFilelog] makes for a result that names no
    depot file. *)
Definition filelog_error_text (r : P4.P4Result) : string :=
  match r with
  | P4.Dictionary _ => "not a filelog object: missing depotFile"
  | _ => "unexpected filelog data type"
  end.

(** A record as [filelog] gives it for a file with two revisions, the
    later one integrated from another file. *)
Definition filelog_record : StrDict.t :=
  [("depotFile", "//depot/a");
   ("rev0", "2"); ("change0", "12"); ("action0", "integrate");
   ("type0", "text"); ("time0", "1700000000"); ("user0", "u");
   ("client0", "ws"); ("desc0", "merge");
   ("how0,0", "copy from"); ("file0,0", "//depot/b");
   ("srev0,0", "#none"); ("erev0,0", "#3");
   ("rev1", "1"); ("change1", "7"); ("action1", "add");
   ("type1", "text"); ("time1", "1600000000"); ("user1", "u");
   ("client1", "ws"); ("desc1", "first")].

Definition filelog_map : gmap string Filelog.GoValue :=
  Filelog.GoString <$> P4.dict_of_pairs filelog_record.

(** The depot file that [filelog_record] describes. *)
Definition filelog_revision0 : Filelog.P4Revision :=
  {| Filelog.Rev := 2; Filelog.Change := 12; Filelog.Action := "integrate";
     Filelog.Type_ := "text"; Filelog.Time := Some 1700000000;
     Filelog.User := "u"; Filelog.Client := "ws"; Filelog.Desc := "merge";
     Filelog.Digest := ""; Filelog.FileSize := "";
     Filelog.Integrations :=
       [{| Filelog.How := "copy from"; Filelog.File := "//depot/b";
           Filelog.SRev := 0; Filelog.ERev := 3 |}] |}.

Definition filelog_revision1 : Filelog.P4Revision :=
  {| Filelog.Rev := 1; Filelog.Change := 7; Filelog.Action := "add";
     Filelog.Type_ := "text"; Filelog.Time := Some 1600000000;
     Filelog.User := "u"; Filelog.Client := "ws"; Filelog.Desc := "first";
     Filelog.Digest := ""; Filelog.FileSize := "";
     Filelog.Integrations := [] |}.

Definition filelog_depot_file : Filelog.P4DepotFile :=
  {| Filelog.Name := "//depot/a";
     Filelog.Revisions := [filelog_revision0; filelog_revision1] |}.

(* ===================================================================== *)
(** ** Packed line codes *)
(* ===================================================================== *)

Section Decoders.

Import Msg.

Lemma testbit_one_high m : 0 < m -> Z.testbit 1 m = false.
Proof.
  intros Hm.
  assert (H : Z.testbit (Z.ones 1) m = false)
    by (apply Z.ones_spec_high; lia).
  exact H.
Qed.

Lemma testbit_one_shiftl i n :
  0 <= i -> 0 <= n -> Z.testbit (Z.shiftl 1 i) n = (n =? i).
Proof.
  intros Hi Hn. rewrite Z.shiftl_spec by lia.
  destruct (Z.eqb_spec n i) as [->|Hne].
  - rewrite Z.sub_diag. reflexivity.
  - destruct (Z.ltb_spec n i).
    + apply Z.testbit_neg_r. lia.
    + apply testbit_one_high. lia.
Qed.

Lemma field_testbit k w c n :
  0 <= k -> 0 <= w -> 0 <= n ->
  Z.testbit (field k w c) n = Z.testbit c (n + k) && (n <? w).
Proof.
  intros Hk Hw Hn. unfold field.
  rewrite Z.land_spec, Z.shiftr_spec by lia.
  destruct (Z.ltb_spec n w).
  - rewrite Z.ones_spec_low by lia. reflexivity.
  - rewrite Z.ones_spec_high by lia. reflexivity.
Qed.

(** A field reads exactly the bits of its range. *)
Lemma field_reads k w i :
  0 <= k -> 0 <= w -> (reads (field k w) i <-> k <= i < k + w).
Proof.
  intros Hk Hw. split.
  - intros [c Hc].
    destruct (Z_lt_dec i k) as [Hlt|Hge]; [exfalso|].
    + apply Hc. apply Z.bits_inj'. intros n Hn.
      rewrite !field_testbit by lia. f_equal.
      rewrite Z.lxor_spec.
      destruct (Z_lt_dec i 0).
      * rewrite (Z.shiftl_spec 1 i) by lia.
        rewrite testbit_one_high by lia. apply xorb_false_r.
      * rewrite testbit_one_shiftl by lia.
        destruct (Z.eqb_spec (n + k) i); [lia|apply xorb_false_r].
    + destruct (Z_lt_dec i (k + w)) as [|Hhi]; [lia|exfalso].
      apply Hc. apply Z.bits_inj'. intros n Hn.
      rewrite !field_testbit by lia.
      destruct (Z.ltb_spec n w); [|rewrite !andb_false_r; reflexivity].
      f_equal. rewrite Z.lxor_spec, testbit_one_shiftl by lia.
      destruct (Z.eqb_spec (n + k) i); [lia|apply xorb_false_r].
  - intros Hi. exists 0. intros Heq.
    assert (Hb : Z.testbit (field k w (Z.lxor 0 (Z.shiftl 1 i))) (i - k)
                 = Z.testbit (field k w 0) (i - k)) by (rewrite Heq; reflexivity).
    rewrite !field_testbit in Hb by lia.
    rewrite Z.lxor_0_l, testbit_one_shiftl, Z.bits_0 in Hb by lia.
    replace (i - k + k) with i in Hb by lia.
    rewrite Z.eqb_refl in Hb.
    destruct (Z.ltb_spec (i - k) w); [discriminate|lia].
Qed.

Lemma reads_ext f g i : (forall c, f c = g c) -> reads f i <-> reads g i.
Proof.
  intros H. unfold reads. split; intros [c Hc]; exists c.
  - rewrite <- !H. exact Hc.
  - rewrite !H. exact Hc.
Qed.

Lemma SubCode_field c : SubCode c = field 0 10 c.
Proof. reflexivity. Qed.
Lemma Subsystem_field c : Subsystem c = field 10 6 c.
Proof. reflexivity. Qed.
Lemma Generic_field c : Generic c = field 16 8 c.
Proof. reflexivity. Qed.
Lemma ArgCount_field c : ArgCount c = field 24 4 c.
Proof. reflexivity. Qed.
Lemma LineSeverity_field c : LineSeverity c = field 28 4 c.
Proof. reflexivity. Qed.
Lemma UniqueCode_field c : UniqueCode c = field 0 16 c.
Proof. unfold UniqueCode, field. rewrite Z.shiftr_0_r. reflexivity. Qed.

End Decoders.

Section DecoderClaims.

Import Msg.

Lemma field_shiftl_testbit k w c n :
  0 <= k -> 0 <= w -> 0 <= n ->
  Z.testbit (Z.shiftl (field k w c) k) n
  = Z.testbit c n && (k <=? n) && (n <? k + w).
Proof.
  intros Hk Hw Hn. rewrite Z.shiftl_spec by lia.
  destruct (Z.leb_spec k n).
  - rewrite field_testbit by lia. replace (n - k + k) with n by lia.
    rewrite andb_true_r.
    destruct (Z.ltb_spec (n - k) w), (Z.ltb_spec n (k + w)); try lia; reflexivity.
  - rewrite Z.testbit_neg_r by lia. rewrite andb_false_r. reflexivity.
Qed.

Lemma UniqueCode_split c :
  UniqueCode c = Z.lor (Z.shiftl (Subsystem c) 10) (SubCode c).
Proof.
  rewrite UniqueCode_field, Subsystem_field, SubCode_field.
  apply Z.bits_inj'. intros n Hn.
  rewrite Z.lor_spec, field_shiftl_testbit, !field_testbit by lia.
  rewrite Z.add_0_r.
  destruct (Z.testbit c n); cbn [andb orb]; [|reflexivity].
  destruct (Z.leb_spec 10 n), (Z.ltb_spec n (10 + 6)), (Z.ltb_spec n 16),
    (Z.ltb_spec n 10); try lia; reflexivity.
Qed.

Lemma code_partition c :
  Z.land c (Z.ones 32)
  = Z.lor (SubCode c)
      (Z.lor (Z.shiftl (Subsystem c) 10)
         (Z.lor (Z.shiftl (Generic c) 16)
            (Z.lor (Z.shiftl (ArgCount c) 24)
               (Z.shiftl (LineSeverity c) 28)))).
Proof.
  rewrite SubCode_field, Subsystem_field, Generic_field, ArgCount_field,
    LineSeverity_field.
  apply Z.bits_inj'. intros n Hn.
  rewrite Z.land_spec, !Z.lor_spec, !field_shiftl_testbit, field_testbit by lia.
  rewrite Z.add_0_r.
  destruct (Z.ltb_spec n 32) as [H32|H32];
    [rewrite Z.ones_spec_low by lia|rewrite Z.ones_spec_high by lia];
    destruct (Z.testbit c n); cbn [andb orb]; try reflexivity;
    repeat match goal with
           | |- context [?a <=? ?b] => destruct (Z.leb_spec a b)
           | |- context [?a <? ?b] => destruct (Z.ltb_spec a b)
           end; cbn [andb orb]; try reflexivity; lia.
Qed.

(** C10, as the code has it.  The five decoders are the stated masks and
    shifts.  SubCode, Subsystem, Generic and ArgCount read the disjoint
    bit ranges 0-9, 10-15, 16-23 and 24-27, which together with the
    line severity (bits 28-31) make up the 32 bits of the code.
    UniqueCode is not a further disjoint field: it reads bits 0-15,
    that is, Subsystem and SubCode taken together. *)
Theorem C10_code_fields :
  (forall c,
      SubCode c = Z.land c 1023
      /\ Subsystem c = Z.land (Z.shiftr c 10) 63
      /\ Generic c = Z.land (Z.shiftr c 16) 255
      /\ ArgCount c = Z.land (Z.shiftr c 24) 15
      /\ UniqueCode c = Z.land c 65535)
  /\ (forall i,
         (reads SubCode i <-> 0 <= i < 10)
         /\ (reads Subsystem i <-> 10 <= i < 16)
         /\ (reads Generic i <-> 16 <= i < 24)
         /\ (reads ArgCount i <-> 24 <= i < 28)
         /\ (reads LineSeverity i <-> 28 <= i < 32)
         /\ (reads UniqueCode i <-> 0 <= i < 16))
  /\ (forall c,
         UniqueCode c = Z.lor (Z.shiftl (Subsystem c) 10) (SubCode c))
  /\ (forall c,
         Z.land c (Z.ones 32)
         = Z.lor (SubCode c)
             (Z.lor (Z.shiftl (Subsystem c) 10)
                (Z.lor (Z.shiftl (Generic c) 16)
                   (Z.lor (Z.shiftl (ArgCount c) 24)
                      (Z.shiftl (LineSeverity c) 28))))).
Proof.
  split; [|split; [|split]].
  - intros c. unfold SubCode, Subsystem, Generic, ArgCount, UniqueCode.
    rewrite Z.shiftr_0_r. repeat split.
  - intros i.
    rewrite (reads_ext _ _ i SubCode_field), (reads_ext _ _ i Subsystem_field),
      (reads_ext _ _ i Generic_field), (reads_ext _ _ i ArgCount_field),
      (reads_ext _ _ i LineSeverity_field), (reads_ext _ _ i UniqueCode_field).
    rewrite !field_reads by lia. repeat split; lia.
  - apply UniqueCode_split.
  - apply code_partition.
Qed.

(** C10 as stated fails: the listed sub-fields do share bits.  Bit 0 of
    the code is read by both UniqueCode and SubCode, and bit 10 by both
    UniqueCode and Subsystem. *)
Lemma C10_unique_code_overlaps :
  (UniqueCode (Z.lxor 0 (Z.shiftl 1 0)) <> UniqueCode 0
   /\ SubCode (Z.lxor 0 (Z.shiftl 1 0)) <> SubCode 0)
  /\ (reads UniqueCode 0 /\ reads SubCode 0)
  /\ (reads UniqueCode 10 /\ reads Subsystem 10).
Proof.
  split; [split; vm_compute; discriminate|].
  split; split; exists 0; vm_compute; discriminate.
Qed.

End DecoderClaims.

(* ===================================================================== *)
(** ** The merge case and the resolve negotiation *)
(* ===================================================================== *)

Section ResolveClaims.

Import MergeData ClientUser.

(** C9.  A merge case is built by one of the two constructors.  Built
    for a content resolve it answers content = 1, action = 0, and every
    action diagnostic of [P4GoMergeData] is the null pointer; the Go
    accessors of the action diagnostics hand that pointer to
    [GetErrorSeverity] and do not return.  Built for an action resolve
    it answers content = 0, action = 1, and every name and path is the
    null pointer, which the Go accessors turn into the empty string;
    the Go accessors of the action diagnostics return their message. *)
Theorem C9_merge_case_accessors :
  (forall (varList : StrDict.t) (m : ClientMerge),
      let md := of_merge varList m in
      GetContentResolveStatus md = 1
      /\ GetActionResolveStatus md = 0
      /\ IsContentResolve md = true /\ IsActionResolve md = false
      /\ GetMergeAction md = None /\ GetYoursAction md = None
      /\ GetTheirAction md = None /\ GetType md = None
      /\ GoMergeData.MergeAction md = None
      /\ GoMergeData.YourAction md = None
      /\ GoMergeData.TheirAction md = None
      /\ GoMergeData.ActionType md = None)
  /\ (forall (m : ClientResolveA),
         let md := of_action m in
         GetContentResolveStatus md = 0
         /\ GetActionResolveStatus md = 1
         /\ IsContentResolve md = false /\ IsActionResolve md = true
         /\ GetYourName md = None /\ GetTheirName md = None
         /\ GetBaseName md = None
         /\ GetYourPath md = None /\ GetTheirPath md = None
         /\ GetBasePath md = None /\ GetResultPath md = None
         /\ YourName md = "" /\ TheirName md = "" /\ BaseName md = ""
         /\ YourPath md = "" /\ TheirPath md = "" /\ BasePath md = ""
         /\ ResultPath md = ""
         /\ is_Some (GoMergeData.MergeAction md)
         /\ is_Some (GoMergeData.YourAction md)
         /\ is_Some (GoMergeData.TheirAction md)
         /\ is_Some (GoMergeData.ActionType md)).
Proof.
  split; intros; cbv zeta; repeat split;
    unfold GoMergeData.MergeAction, GoMergeData.YourAction,
      GoMergeData.TheirAction, GoMergeData.ActionType; cbn; eauto.
Qed.

(** C6, as the code has it.  Without a resolve handler the answer is
    the one of the engine's own resolve, whatever the hint of the merge
    case is, and the session, with its log of calls into caller code, is
    left as it was.  With a handler, the handler is called once, on the
    merge case built for this negotiation, and its answer is passed back
    unchanged. *)
Theorem C6_resolve_negotiation
        (m : ClientMerge) (a : ClientResolveA) (u : P4GoClientUser) :
  (resolveHandler u = None ->
   Resolve m u = (cm_Resolve m, u)
   /\ ResolveA a 0 u = (cra_Resolve a, u)
   /\ (forall m', cm_Resolve m' = cm_Resolve m ->
                  fst (Resolve m' u) = fst (Resolve m u))
   /\ (forall a', cra_Resolve a' = cra_Resolve a ->
                  fst (ResolveA a' 0 u) = fst (ResolveA a 0 u)))
  /\ (forall h, resolveHandler u = Some h ->
        Resolve m u
        = (cbResolve h (callbacks u) (of_merge (varList u) m),
           set_callbacks
             (callbacks u ++ [CbResolve (of_merge (varList u) m)]) u)
        /\ ResolveA a 0 u
           = (cbResolve h (callbacks u) (of_action a),
              set_callbacks (callbacks u ++ [CbResolve (of_action a)]) u)).
Proof.
  split.
  - intros Hn. unfold Resolve, ResolveA. rewrite Hn.
    split; [reflexivity|]. split; [reflexivity|].
    split; intros x Hx; cbn [fst]; exact Hx.
  - intros h Hh. unfold Resolve, ResolveA. rewrite Hh. split; reflexivity.
Qed.

End ResolveClaims.

(* ===================================================================== *)
(** ** The result collection *)
(* ===================================================================== *)

Section ResultsLemmas.

Import Results.

Lemma nth_error_last {A} (l : list A) (x : A) :
  nth_error (l ++ [x]) (length l) = Some x.
Proof. induction l; cbn; auto. Qed.

Lemma remove_at_last {A} (l : list A) (x : A) :
  remove_at (length l) (l ++ [x]) = l.
Proof. induction l; cbn; [reflexivity|f_equal; assumption]. Qed.

(** The loop of [Reset] empties the array and hands every unit to
    [Destroy], last unit first. *)
Lemma Reset_loop_all (l : list P4GoResult) :
  Reset_loop (length l) l = ([], rev l).
Proof.
  induction l as [|x l IH] using rev_ind; [reflexivity|].
  rewrite length_app, Nat.add_comm. cbn [length Nat.add Reset_loop].
  rewrite nth_error_last, remove_at_last, IH, rev_app_distr. reflexivity.
Qed.

Lemma Reset_is_new (r : P4GoResults) : Reset r = Results.new.
Proof. unfold Reset. rewrite Reset_loop_all. reflexivity. Qed.

Lemma Reset_destroyed_all (r : P4GoResults) :
  Reset_destroyed r = rev (items r).
Proof. unfold Reset_destroyed. rewrite Reset_loop_all. reflexivity. Qed.

(** The loop of [DeleteTrack] stops at once below a last unit that is
    not a TRACK. *)
Lemma DeleteTrack_loop_stop (l : list P4GoResult) (x : P4GoResult) :
  type_eqb (type x) TRACK = false ->
  DeleteTrack_loop (length (l ++ [x])) (l ++ [x]) = l ++ [x].
Proof.
  intros Hx. rewrite length_app, Nat.add_comm. cbn [length Nat.add DeleteTrack_loop].
  rewrite nth_error_last, Hx. reflexivity.
Qed.

(** ... and removes a last unit that is a TRACK before going on. *)
Lemma DeleteTrack_loop_step (l : list P4GoResult) (x : P4GoResult) :
  type_eqb (type x) TRACK = true ->
  DeleteTrack_loop (length (l ++ [x])) (l ++ [x])
  = DeleteTrack_loop (length l) l.
Proof.
  intros Hx. rewrite length_app, Nat.add_comm. cbn [length Nat.add DeleteTrack_loop].
  rewrite nth_error_last, Hx, remove_at_last. reflexivity.
Qed.

End ResultsLemmas.

(* ===================================================================== *)
(** ** The session facade *)
(* ===================================================================== *)

Section SessionClaims.

Import ClientUser ClientApi.

Variable E : SpecEngine.
Variable speclist : list (string * string).

Lemma ClientUser_Reset_fresh (u : P4GoClientUser) :
  results (ClientUser.Reset u) = Results.new /\ alive (ClientUser.Reset u) = 1.
Proof. unfold ClientUser.Reset. cbn. rewrite Reset_is_new. split; reflexivity. Qed.

(** [Reset] forgets the collection and the alive flag it is given. *)
Lemma ClientUser_Reset_forgets (u : P4GoClientUser) r v :
  ClientUser.Reset (set_alive v (set_results r u)) = ClientUser.Reset u.
Proof. unfold ClientUser.Reset. cbn. rewrite !Reset_is_new. reflexivity. Qed.

(** What [C.GoString] makes of a buffer without NUL. *)
Lemma GoString_whole (s : string) :
  Cgo.has_nul s = false -> Cgo.GoString s = s.
Proof.
  unfold Cgo.has_nul. intros H. apply negb_false_iff in H.
  apply String.eqb_eq. exact H.
Qed.


(** On units none of which has its last pair freed, the loop gets
    through exactly when every unit has a value. *)
Lemma walk_whole (units : list Results.P4GoResult) :
  P4.walk (map (fun x => (x, false)) units)
  = (fun vs => (vs, map P4.last_pair units)) <$> mapM P4.goResult units.
Proof.
  induction units as [|x units IH]; [reflexivity|].
  cbn [map P4.walk mapM]. unfold P4.walk_unit.
  rewrite andb_false_r. cbn [orb]. rewrite IH.
  destruct (P4.goResult x) as [v|]; [|reflexivity].
  destruct (mapM P4.goResult units) as [vs|]; reflexivity.
Qed.


(** The loop does not get through a collection that holds a dictionary
    whose last pair is freed. *)
Lemma walk_stops (units : list (Results.P4GoResult * bool)) :
  existsb (fun p => P4.last_pair (fst p) && snd p) units = true ->
  P4.walk units = None.
Proof.
  induction units as [|[x f] units IH]; intros H; [discriminate|].
  cbn [existsb fst snd P4.walk] in *. unfold P4.walk_unit.
  destruct (P4.last_pair x && f); [reflexivity|].
  cbn [orb] in H. rewrite (IH H).
  destruct (P4.goResult x); reflexivity.
Qed.

(** Under a handler, a record in the collection stops the loop. *)
Lemma walk_reported_record (u : P4GoClientUser) (h : P4GoHandler)
      (x : Results.P4GoResult) :
  handler u = Some h ->
  In x (Results.items (results u)) ->
  Results.is_kind Results.DICT x = true ->
  P4.last_pair x = true ->
  P4.walk (P4.marked u) = None.
Proof.
  intros Hh Hin Hk Hl. apply walk_stops. apply existsb_exists.
  exists (x, P4.freed_by_callback u x). split.
  - unfold P4.marked. apply in_map_iff. exists x. split; [reflexivity|exact Hin].
  - cbn [fst snd]. unfold P4.freed_by_callback. rewrite Hh, Hk, Hl.
    reflexivity.
Qed.

Lemma marked_no_handler (u : P4GoClientUser) :
  handler u = None ->
  P4.marked u = map (fun x => (x, false)) (Results.items (results u)).
Proof.
  intros Hh. unfold P4.marked, P4.freed_by_callback. rewrite Hh. reflexivity.
Qed.



(** Without a handler [Run] of p4.go reads every unit. *)
Lemma walk_no_handler (u : P4GoClientUser) :
  handler u = None ->
  fst <$> P4.walk (P4.marked u)
  = mapM P4.goResult (Results.items (results u)).
Proof.
  intros Hh. rewrite (marked_no_handler u Hh), walk_whole.
  destruct (mapM P4.goResult (Results.items (results u))); reflexivity.
Qed.


(** C8.  A call of [Run] that is not refused as nested starts from a
    fresh command state: the client user is reset first, which empties
    the collection (every unit goes through [Destroy]), zeroes every
    count and sets alive, so that the outcome of [Run] does not depend
    on the collection and alive flag left by the previous command; on a
    connected session the command's output is delivered onto that fresh
    state.  Setting an output, progress or SSO handler sets alive. *)
Theorem C8_run_starts_fresh
        (R : EngineRun) (cmd : string) (argv : list string)
        (e : Msg.Error) (a : P4GoClientApi) :
  depth a = 0 ->
  (results (ClientUser.Reset (ui a)) = Results.new
   /\ Results.items (results (ClientUser.Reset (ui a))) = []
   /\ alive (ClientUser.Reset (ui a)) = 1
   /\ Results.Reset_destroyed (results (ui a))
      = rev (Results.items (results (ui a))))
  /\ (forall r v,
         ClientApi.Run E speclist R cmd argv e
                       (set_ui (set_alive v (set_results r (ui a))) a)
         = ClientApi.Run E speclist R cmd argv e a)
  /\ (connected a = true ->
      run_dropped R = false ->
      ui (fst (fst (ClientApi.Run E speclist R cmd argv e a)))
      = deliver_all E (run_events R)
                    (SetCommand cmd (ClientUser.Reset (ui a))))
  /\ (forall h u, alive (ClientUser.SetHandler h u) = 1)
  /\ (forall p u, alive (ClientUser.SetProgress p u) = 1)
  /\ (forall h u, alive (ClientUser.SetSSOHandler h u) = 1).
Proof.
  intros Hd. split; [|split; [|split; [|repeat split]]].
  - destruct (ClientUser_Reset_fresh (ui a)) as [Hr Ha].
    rewrite Hr, Ha, Reset_destroyed_all. repeat split.
  - intros r v. unfold ClientApi.Run. cbn [depth set_ui ui].
    rewrite Hd. cbn [Z.eqb negb].
    rewrite ClientUser_Reset_forgets. reflexivity.
  - intros Hc Hdrop. unfold ClientApi.Run. rewrite Hd. cbn [Z.eqb negb].
    unfold IsConnected. cbn [connected set_ui]. rewrite Hc. cbn [negb andb].
    rewrite Hdrop. cbn [andb].
    unfold RunCmd, GetHandler. cbn.
    destruct (handler _); reflexivity.
Qed.

End SessionClaims.

(* ===================================================================== *)
(** ** The output dispatcher *)
(* ===================================================================== *)

Section DispatchLemmas.

Import Results ClientUser.

Variable E : SpecEngine.

Lemma items_AddOutput_Str data binary r :
  items (AddOutput_Str data binary r)
  = items r ++ [if binary then binary_unit data else text_unit data].
Proof. destruct binary; reflexivity. Qed.

Lemma items_AddOutput_Dict d r :
  items (AddOutput_Dict d r) = items r ++ [record_unit d].
Proof. reflexivity. Qed.

Lemma items_AddOutput_Spec s r :
  items (AddOutput_Spec s r) = items r ++ [spec_unit s].
Proof. reflexivity. Qed.

Lemma items_AddTrack line r :
  items (AddTrack line r) = items r ++ [track_unit line].
Proof. reflexivity. Qed.

Lemma items_AddOutput_Error e r :
  items (AddOutput_Error e r) = items r ++ stored (CbMessage e).
Proof.
  unfold AddOutput_Error, stored, Msg.GetSeverity.
  destruct (Msg.severity e =? Msg.E_EMPTY).
  - symmetry. apply app_nil_r.
  - reflexivity.
Qed.

Lemma same_setup_refl u : same_setup u u.
Proof. repeat split. Qed.

Lemma same_setup_trans u v w :
  same_setup u v -> same_setup v w -> same_setup u w.
Proof. unfold same_setup. intuition congruence. Qed.

Lemma after_call_setup cb ret u : same_setup u (snd (after_call cb ret u)).
Proof.
  unfold after_call. destruct cb, (ret =? 2); repeat split.
Qed.

Lemma ProcessOutput_Str_setup data binary u :
  same_setup u (ProcessOutput_Str data binary u).
Proof.
  unfold ProcessOutput_Str, CallOutputMethod_Str, after_call.
  destruct (handler u); [|repeat split].
  destruct binary;
    repeat match goal with |- context [if ?b then _ else _] => destruct b end;
    repeat split.
Qed.

Lemma ProcessOutput_Dict_setup d u : same_setup u (ProcessOutput_Dict d u).
Proof.
  unfold ProcessOutput_Dict, CallOutputMethod_Dict, after_call.
  destruct (handler u); [|repeat split].
  repeat match goal with |- context [if ?b then _ else _] => destruct b end;
    repeat split.
Qed.

Lemma ProcessOutput_Spec_setup s u : same_setup u (ProcessOutput_Spec s u).
Proof.
  unfold ProcessOutput_Spec. destruct (handler u); repeat split.
Qed.

Lemma ProcessMessage_setup e u : same_setup u (ProcessMessage e u).
Proof.
  unfold ProcessMessage, CallOutputMethod_Error, after_call.
  destruct (handler u); [|repeat split].
  repeat match goal with |- context [if ?b then _ else _] => destruct b end;
    repeat split.
Qed.

Lemma OutputText_loop_setup data n : forall i p u,
  same_setup u (OutputText_loop data n i p u).
Proof.
  induction n as [|n IH]; intros i p u; cbn [OutputText_loop].
  - apply same_setup_refl.
  - destruct (is_char newline (char_at data i)); [|apply IH].
    destruct (p <? i)%nat.
    + eapply same_setup_trans; [|apply IH]. repeat split.
    + eapply same_setup_trans; [apply (ProcessOutput_Str_setup data false u)|].
      repeat split.
Qed.

Lemma deliver_setup ev u : same_setup u (deliver E ev u).
Proof.
  destruct ev as [data|data|values|e|e]; cbn [deliver].
  - unfold OutputText. destruct (is_track_text u data).
    + apply OutputText_loop_setup.
    + apply ProcessOutput_Str_setup.
  - apply ProcessOutput_Str_setup.
  - unfold OutputStat.
    set (u1 := match StrDict.GetVar "specdef" values with
               | Some sp => set_specMgr _ u | None => u end).
    assert (H1 : same_setup u u1)
      by (subst u1; destruct (StrDict.GetVar "specdef" values); repeat split).
    eapply same_setup_trans; [exact H1|].
    destruct (StrDict.GetVar "specdef" values) as [sp|];
      [|apply ProcessOutput_Dict_setup].
    destruct (StrDict.GetVar "data" values) as [form|].
    + destruct (Spec_init E sp); [apply ProcessMessage_setup|].
      destruct (Spec_ParseNoValid E sp form);
        [apply ProcessMessage_setup|apply ProcessOutput_Spec_setup].
    + destruct (isspec values);
        [apply ProcessOutput_Spec_setup|apply ProcessOutput_Dict_setup].
  - apply ProcessMessage_setup.
  - apply ProcessMessage_setup.
Qed.

Lemma deliver_all_setup evs : forall u, same_setup u (deliver_all E evs u).
Proof.
  induction evs as [|ev evs IH]; intros u; cbn.
  - apply same_setup_refl.
  - eapply same_setup_trans; [apply deliver_setup|apply IH].
Qed.

Lemma is_track_text_setup u u' data :
  same_setup u u' -> is_track_text u' data = is_track_text u data.
Proof. intros (_ & Ht & _). unfold is_track_text. rewrite Ht. reflexivity. Qed.

Lemma in_contract_setup u u' ev :
  same_setup u u' -> in_contract u' ev = in_contract u ev.
Proof.
  intros H. destruct ev; cbn; try reflexivity.
  rewrite (is_track_text_setup u u') by assumption. reflexivity.
Qed.

End DispatchLemmas.

Section DispatchContract.

Import Results ClientUser.

Variable E : SpecEngine.

Lemma ProcessOutput_Str_observe data binary u :
  observe (ProcessOutput_Str data binary u)
  = contract_step (handler u) (observe u)
      (if binary then EvOutputBinary data else EvOutputText data).
Proof.
  unfold ProcessOutput_Str, CallOutputMethod_Str.
  destruct (handler u) as [h|].
  - destruct binary; by_answer.
  - destruct binary; reflexivity.
Qed.

Lemma ProcessOutput_Dict_observe d u :
  observe (ProcessOutput_Dict (plain_dict d) u)
  = contract_step (handler u) (observe u) (EvOutputStat d).
Proof.
  unfold ProcessOutput_Dict, CallOutputMethod_Dict.
  destruct (handler u) as [h|].
  - by_answer.
  - reflexivity.
Qed.

Lemma ProcessMessage_observe e u :
  observe (ProcessMessage e u)
  = contract_step (handler u) (observe u) (EvMessage e).
Proof.
  unfold ProcessMessage, CallOutputMethod_Error.
  destruct (handler u) as [h|].
  - unfold after_call, observe, contract_step, REPORT, CANCEL.
    cbn [offered answer].
    destruct (cbHandleMsg h (callbacks u) e =? 0),
      (cbHandleMsg h (callbacks u) e =? 2);
      cbn [fst snd results alive callbacks set_results set_alive
           set_callbacks];
      rewrite ?items_AddOutput_Error; reflexivity.
  - unfold observe, contract_step. cbn [offered results set_results alive
                                        callbacks].
    rewrite items_AddOutput_Error. reflexivity.
Qed.

(** One output call under the contract does what the contract says. *)
Lemma deliver_observe ev u :
  in_contract u ev = true ->
  observe (deliver E ev u) = contract_step (handler u) (observe u) ev.
Proof.
  intros Hc. destruct ev as [data|data|values|e|e]; cbn [deliver].
  - cbn in Hc. unfold OutputText.
    destruct (is_track_text u data); [discriminate|].
    apply (ProcessOutput_Str_observe data false).
  - apply (ProcessOutput_Str_observe data true).
  - cbn [in_contract] in Hc. apply negb_true_iff in Hc.
    unfold OutputStat. rewrite Hc.
    unfold isspec, StrDict.has in Hc.
    destruct (StrDict.GetVar "specdef" values) as [sp|];
      [|apply ProcessOutput_Dict_observe].
    destruct (StrDict.GetVar "data" values) as [form|].
    + cbn in Hc. rewrite orb_true_r in Hc. discriminate.
    + apply (ProcessOutput_Dict_observe values
               (set_specMgr (SpecMgr.AddSpecDef (cmd u) sp (specMgr u)) u)).
  - apply ProcessMessage_observe.
  - apply ProcessMessage_observe.
Qed.

Lemma forallb_same {A} (f g : A -> bool) (l : list A) :
  (forall x, f x = g x) -> forallb f l = forallb g l.
Proof.
  intros H. induction l as [|x l IH]; cbn; [reflexivity|].
  rewrite H, IH. reflexivity.
Qed.

(** ... and so does a whole sequence of them. *)
Lemma deliver_all_observe evs : forall u,
  forallb (in_contract u) evs = true ->
  observe (deliver_all E evs u)
  = contract_run (handler u) evs (observe u).
Proof.
  induction evs as [|ev evs IH]; intros u Hc; [reflexivity|].
  cbn in Hc. apply andb_true_iff in Hc as [Hev Hevs].
  cbn [deliver_all contract_run fold_left].
  change (fold_left (fun acc ev0 => deliver E ev0 acc) evs (deliver E ev u))
    with (deliver_all E evs (deliver E ev u)).
  pose proof (deliver_setup E ev u) as Hs.
  rewrite IH.
  - destruct Hs as (Hh & _). rewrite Hh, deliver_observe by assumption.
    reflexivity.
  - rewrite <- Hevs. apply forallb_same. intros x.
    apply in_contract_setup. assumption.
Qed.

End DispatchContract.

Section RecordUnits.

Import Results ClientUser.

Variable E : SpecEngine.

Lemma filter_snoc_out {A} (f : A -> bool) (l : list A) (x : A) :
  f x = false -> List.filter f (l ++ [x]) = List.filter f l.
Proof.
  intros Hx. rewrite List.filter_app. cbn. rewrite Hx. apply app_nil_r.
Qed.

Lemma filter_remove_at_out {A} (f : A -> bool) (l : list A) : forall i x,
  nth_error l i = Some x -> f x = false ->
  List.filter f (remove_at i l) = List.filter f l.
Proof.
  induction l as [|y l IH]; intros [|i] x Hn Hx; cbn in *; try discriminate.
  - injection Hn as ->. rewrite Hx. reflexivity.
  - rewrite (IH i x) by assumption. reflexivity.
Qed.

Lemma track_is_no_record x :
  type_eqb (type x) TRACK = true -> is_kind DICT x = false.
Proof. unfold is_kind. destruct (type x); cbn; congruence. Qed.

(** [DeleteTrack] removes TRACK units only. *)
Lemma DeleteTrack_loop_keeps (k : P4GoResultType) n : forall l,
  type_eqb TRACK k = false ->
  List.filter (is_kind k) (DeleteTrack_loop n l) = List.filter (is_kind k) l.
Proof.
  induction n as [|n IH]; intros l Hk; cbn [DeleteTrack_loop]; [reflexivity|].
  destruct (nth_error l n) as [res|] eqn:Hn; [|reflexivity].
  destruct (type_eqb (type res) TRACK) eqn:Ht; [|reflexivity].
  rewrite IH by assumption.
  apply (filter_remove_at_out _ _ _ res); [assumption|].
  unfold is_kind. destruct (type res), k; cbn in *; congruence.
Qed.

Lemma records_DeleteTrack r : records (DeleteTrack r) = records r.
Proof.
  unfold records, DeleteTrack. cbn. apply DeleteTrack_loop_keeps. reflexivity.
Qed.

Lemma records_AddOutput_Str data b r :
  records (AddOutput_Str data b r) = records r.
Proof.
  unfold records. rewrite items_AddOutput_Str.
  apply filter_snoc_out. destruct b; reflexivity.
Qed.

Lemma records_AddOutput_Spec s r : records (AddOutput_Spec s r) = records r.
Proof.
  unfold records. rewrite items_AddOutput_Spec. apply filter_snoc_out.
  reflexivity.
Qed.

Lemma records_AddTrack line r : records (AddTrack line r) = records r.
Proof.
  unfold records. rewrite items_AddTrack. apply filter_snoc_out. reflexivity.
Qed.

Lemma records_AddOutput_Error e r : records (AddOutput_Error e r) = records r.
Proof.
  unfold records. rewrite items_AddOutput_Error. unfold stored.
  destruct (Msg.severity e =? Msg.E_EMPTY).
  - rewrite app_nil_r. reflexivity.
  - apply filter_snoc_out. reflexivity.
Qed.

Lemma records_ProcessOutput_Str data b u :
  records (results (ProcessOutput_Str data b u)) = records (results u).
Proof.
  unfold ProcessOutput_Str, CallOutputMethod_Str, after_call.
  destruct (handler u); [|apply records_AddOutput_Str].
  destruct b;
    repeat match goal with |- context [if ?c then _ else _] => destruct c end;
    cbn [results set_results set_alive set_callbacks fst snd];
    rewrite ?records_AddOutput_Str; reflexivity.
Qed.

Lemma records_ProcessOutput_Spec s u :
  records (results (ProcessOutput_Spec s u)) = records (results u).
Proof.
  unfold ProcessOutput_Spec. destruct (handler u); cbn;
    apply records_AddOutput_Spec.
Qed.

Lemma records_ProcessMessage e u :
  records (results (ProcessMessage e u)) = records (results u).
Proof.
  unfold ProcessMessage, CallOutputMethod_Error, after_call.
  destruct (handler u); [|apply records_AddOutput_Error].
  repeat match goal with |- context [if ?c then _ else _] => destruct c end;
    cbn [results set_results set_alive set_callbacks fst snd];
    rewrite ?records_AddOutput_Error; reflexivity.
Qed.

Lemma records_OutputText_loop data n : forall i p u,
  records (results (OutputText_loop data n i p u)) = records (results u).
Proof.
  induction n as [|n IH]; intros i p u; cbn [OutputText_loop]; [reflexivity|].
  destruct (is_char newline (char_at data i)); [|apply IH].
  destruct (p <? i)%nat.
  - rewrite IH. cbn [results set_results]. apply records_AddTrack.
  - cbv zeta. cbn [results set_results].
    rewrite records_DeleteTrack. apply records_ProcessOutput_Str.
Qed.

(** A record that the handler does not answer with REPORT is not stored. *)
Lemma records_ProcessOutput_Dict h d u :
  handler u = Some h ->
  (forall hist x, cbHandleStat h hist x = HANDLED) ->
  records (results (ProcessOutput_Dict d u)) = records (results u).
Proof.
  intros Hh Hs. unfold ProcessOutput_Dict, CallOutputMethod_Dict, after_call.
  rewrite Hh, Hs. reflexivity.
Qed.

Lemma records_deliver h ev u :
  handler u = Some h ->
  (forall hist x, cbHandleStat h hist x = HANDLED) ->
  records (results (deliver E ev u)) = records (results u).
Proof.
  intros Hh Hs. destruct ev as [data|data|values|e|e]; cbn [deliver].
  - unfold OutputText. destruct (is_track_text u data).
    + apply records_OutputText_loop.
    + apply records_ProcessOutput_Str.
  - apply records_ProcessOutput_Str.
  - unfold OutputStat.
    destruct (StrDict.GetVar "specdef" values) as [sp|].
    + set (u1 := set_specMgr _ u).
      change (records (results u)) with (records (results u1)).
      assert (Hh1 : handler u1 = Some h) by exact Hh.
      destruct (StrDict.GetVar "data" values) as [form|].
      * destruct (Spec_init E sp); [apply records_ProcessMessage|].
        destruct (Spec_ParseNoValid E sp form);
          [apply records_ProcessMessage|apply records_ProcessOutput_Spec].
      * destruct (isspec values); [apply records_ProcessOutput_Spec|].
        apply (records_ProcessOutput_Dict h); assumption.
    + apply (records_ProcessOutput_Dict h); assumption.
  - apply records_ProcessMessage.
  - apply records_ProcessMessage.
Qed.

Lemma records_deliver_all h evs : forall u,
  handler u = Some h ->
  (forall hist x, cbHandleStat h hist x = HANDLED) ->
  records (results (deliver_all E evs u)) = records (results u).
Proof.
  induction evs as [|ev evs IH]; intros u Hh Hs; [reflexivity|].
  cbn [deliver_all fold_left].
  change (fold_left (fun acc ev0 => deliver E ev0 acc) evs (deliver E ev u))
    with (deliver_all E evs (deliver E ev u)).
  rewrite IH; [apply (records_deliver h); assumption| |assumption].
  destruct (deliver_setup E ev u) as (-> & _). assumption.
Qed.

End RecordUnits.

Section HandlerContract.

Import Results ClientUser.

Variable E : SpecEngine.

Lemma Run_no_records speclist R cmd argv e a h :
  ClientApi.depth a = 0 ->
  handler (ClientApi.ui a) = Some h ->
  (forall hist d, cbHandleStat h hist d = HANDLED) ->
  records (ClientApi.GetResults
             (fst (fst (ClientApi.Run E speclist R cmd argv e a)))) = [].
Proof.
  intros Hd Hh Hs. unfold ClientApi.Run, ClientApi.GetResults, GetResults.
  rewrite Hd. cbn [Z.eqb negb].
  unfold ClientApi.IsConnected. cbn [ClientApi.connected ClientApi.set_ui].
  destruct (ClientApi.connected a) eqn:Hc; cbn [negb andb].
  2:{ destruct (negb _); cbn [fst snd ClientApi.ui ClientApi.set_ui];
      rewrite (proj1 (ClientUser_Reset_fresh _)); reflexivity. }
  unfold ClientApi.RunCmd.
  cbn [ClientApi.ui ClientApi.set_ui ClientApi.set_depth ClientApi.SetCmdRun
       ClientApi.depth ClientApi.exceptionLevel ClientApi.connected
       ClientApi.cmdRun].
  set (u0 := SetCommand cmd (ClientUser.Reset (ClientApi.ui a))).
  assert (Hh0 : handler u0 = Some h) by exact Hh.
  assert (Hr0 : records (results u0) = []).
  { subst u0. unfold SetCommand. cbn [results].
    rewrite (proj1 (ClientUser_Reset_fresh _)). reflexivity. }
  pose proof (deliver_all_setup E (run_events R) u0) as (Hh1 & _).
  unfold GetHandler. rewrite Hh1, Hh0.
  destruct (run_dropped R && (IsAlive (deliver_all E (run_events R) u0) =? 0)).
  - unfold ClientApi.Disconnect, ClientApi.IsConnected.
    cbn -[deliver_all ClientUser.Reset records add_errors
          ClientApi.ConnectOrReconnect].
    rewrite Hc. cbn [negb].
    unfold ClientApi.ConnectOrReconnect.
    match goal with |- context [if Msg.Test ?x then _ else _] =>
      destruct (Msg.Test x) end;
      cbn -[deliver_all ClientUser.Reset records];
      rewrite (proj1 (ClientUser_Reset_fresh _)); reflexivity.
  - cbn -[deliver_all records]. rewrite (records_deliver_all E h); assumption.
Qed.

(** C2, as the code has it.  For binary output, messages, text that
    track mode does not claim and records without a spec definition:
    with a handler, the call is offered to the matching callback and the
    answer decides, REPORT (0) storing the unit, HANDLED (1) storing
    nothing, CANCEL (2) storing nothing and clearing alive; without a
    handler the unit is stored.  The unit stored for a message of Empty
    severity is none.  A whole sequence of such calls follows the
    contract step by step.  With a stat callback that always answers
    HANDLED no output call adds a Record unit, and the collection
    [Run] leaves holds none. *)
Theorem C2_output_handler_contract (evs : list Event) (u : P4GoClientUser) :
  (forallb (in_contract u) evs = true ->
   observe (deliver_all E evs u) = contract_run (handler u) evs (observe u))
  /\ (forall ev h,
         in_contract u ev = true ->
         handler u = Some h ->
         callbacks (deliver E ev u) = callbacks u ++ [offered ev]
         /\ (answer h (callbacks u) (offered ev) = REPORT ->
             items (results (deliver E ev u))
             = items (results u) ++ stored (offered ev)
             /\ alive (deliver E ev u) = alive u)
         /\ (answer h (callbacks u) (offered ev) = HANDLED ->
             items (results (deliver E ev u)) = items (results u)
             /\ alive (deliver E ev u) = alive u)
         /\ (answer h (callbacks u) (offered ev) = CANCEL ->
             items (results (deliver E ev u)) = items (results u)
             /\ alive (deliver E ev u) = 0))
  /\ (forall ev,
         in_contract u ev = true ->
         handler u = None ->
         callbacks (deliver E ev u) = callbacks u
         /\ items (results (deliver E ev u))
            = items (results u) ++ stored (offered ev)
         /\ alive (deliver E ev u) = alive u)
  /\ (forall e, stored (CbMessage e)
                = if Msg.severity e =? Msg.E_EMPTY then []
                  else [message_unit e])
  /\ (forall h,
         handler u = Some h ->
         (forall hist d, cbHandleStat h hist d = HANDLED) ->
         records (results (deliver_all E evs u)) = records (results u))
  /\ (forall speclist R cmd argv e a h,
         ClientApi.ui a = u ->
         ClientApi.depth a = 0 ->
         handler u = Some h ->
         (forall hist d, cbHandleStat h hist d = HANDLED) ->
         records (ClientApi.GetResults
                    (fst (fst (ClientApi.Run E speclist R cmd argv e a))))
         = []).
Proof.
  split; [apply deliver_all_observe|].
  split.
  { intros ev h Hc Hh. pose proof (deliver_observe E ev u Hc) as Ho.
    rewrite Hh in Ho. unfold observe, contract_step in Ho.
    injection Ho as Hi Ha Hcb.
    split; [exact Hcb|].
    split; [|split]; intros Hr; rewrite Hr in Hi, Ha; cbn in Hi, Ha;
      split; assumption. }
  split.
  { intros ev Hc Hh. pose proof (deliver_observe E ev u Hc) as Ho.
    rewrite Hh in Ho. unfold observe, contract_step in Ho.
    injection Ho as Hi Ha Hcb. repeat split; assumption. }
  split; [reflexivity|].
  split; [intros h; apply records_deliver_all|].
  intros speclist R cmd argv e a h <-. apply Run_no_records.
Qed.

End HandlerContract.

(* ===================================================================== *)
(** ** Messages of Failed and Fatal severity *)
(* ===================================================================== *)

Section FailedMessages.

Import Results ClientUser.

Variable E : SpecEngine.
Variable speclist : list (string * string).

(** Without a handler an output call only appends. *)
Lemma ProcessOutput_Str_appends data b u :
  handler u = None ->
  items (results (ProcessOutput_Str data b u))
  = items (results u) ++ [if b then binary_unit data else text_unit data].
Proof.
  intros Hh. unfold ProcessOutput_Str. rewrite Hh. cbn [results set_results].
  apply items_AddOutput_Str.
Qed.




Lemma deliver_all_app evs1 evs2 u :
  deliver_all E (evs1 ++ evs2) u = deliver_all E evs2 (deliver_all E evs1 u).
Proof. unfold deliver_all. apply fold_left_app. Qed.


End FailedMessages.

Section RunErrors.

Import Results ClientUser.

Variable E : SpecEngine.
Variable speclist : list (string * string).

(** On a connected session with no command outstanding, unless a handler
    is set and the connection was dropped, [Run] resets the client user,
    delivers the command's output and leaves the caller's error as it
    was. *)
Lemma Run_plain R cmd argv e a :
  ClientApi.depth a = 0 ->
  ClientApi.connected a = true ->
  handler (ClientApi.ui a) = None \/ run_dropped R = false ->
  exists a',
    ClientApi.Run E speclist R cmd argv e a
    = (a', Some (results (ClientApi.ui a')), e)
    /\ ClientApi.ui a'
       = deliver_all E (run_events R)
                     (SetCommand cmd (ClientUser.Reset (ClientApi.ui a))).
Proof.
  intros Hd Hc Hh. unfold ClientApi.Run. rewrite Hd. cbn [Z.eqb negb].
  unfold ClientApi.IsConnected. cbn [ClientApi.connected ClientApi.set_ui].
  rewrite Hc. cbn [negb andb].
  unfold ClientApi.RunCmd, GetHandler.
  set (u0 := SetCommand cmd (ClientUser.Reset (ClientApi.ui a))).
  assert (Hh0 : handler u0 = handler (ClientApi.ui a)) by reflexivity.
  pose proof (deliver_all_setup E (run_events R) u0) as (Hh1 & _).
  cbn -[deliver_all ClientUser.Reset u0].
  fold u0. rewrite Hh1, Hh0.
  destruct Hh as [Hnone|Hdrop].
  - rewrite Hnone. eexists. split; reflexivity.
  - rewrite Hdrop. cbn [andb].
    destruct (handler (ClientApi.ui a)); eexists; split; reflexivity.
Qed.




Lemma is_failure_goMessage e : P4.is_failure (P4.goMessage e) = is_failed e.
Proof. reflexivity. Qed.


End RunErrors.

Section FailedMessageClaim.

Import Results ClientUser.

Variable E : SpecEngine.
Variable speclist : list (string * string).


Lemma P4_Run_walk R cmd argv a :
  ClientApi.depth a = 0 ->
  ClientApi.connected a = true ->
  handler (ClientApi.ui a) = None \/ run_dropped R = false ->
  exists a',
    P4.Run E speclist R cmd argv a
    = (a', fst <$> P4.walk (P4.marked (ClientApi.ui a')), None)
    /\ ClientApi.Run E speclist R cmd argv Msg.empty a
       = (a', Some (results (ClientApi.ui a')), Msg.empty)
    /\ ClientApi.ui a'
       = deliver_all E (run_events R)
                     (SetCommand cmd (ClientUser.Reset (ClientApi.ui a))).
Proof.
  intros Hd Hc Hh.
  destruct (Run_plain E speclist R cmd argv Msg.empty a Hd Hc Hh)
    as (a' & Hrun & Hui).
  exists a'. unfold P4.Run. rewrite Hrun.
  split; [reflexivity|]. split; [reflexivity|exact Hui].
Qed.

Lemma P4_Run_plain R cmd argv a :
  ClientApi.depth a = 0 ->
  ClientApi.connected a = true ->
  handler (ClientApi.ui a) = None ->
  exists a',
    P4.Run E speclist R cmd argv a
    = (a', mapM P4.goResult (items (results (ClientApi.ui a'))), None)
    /\ ClientApi.ui a'
       = deliver_all E (run_events R)
                     (SetCommand cmd (ClientUser.Reset (ClientApi.ui a))).
Proof.
  intros Hd Hc Hh.
  destruct (P4_Run_walk R cmd argv a Hd Hc (or_introl Hh))
    as (a' & Hrun & _ & Hui).
  exists a'. split; [|exact Hui]. rewrite Hrun. f_equal. f_equal.
  apply walk_no_handler. rewrite Hui.
  destruct (deliver_all_setup E (run_events R)
              (SetCommand cmd (ClientUser.Reset (ClientApi.ui a))))
    as (-> & _).
  exact Hh.
Qed.




End FailedMessageClaim.

(* ===================================================================== *)
(** ** Track lines *)
(* ===================================================================== *)

Section TrackFallback.

Import Results ClientUser.

(** When the text is reported (no handler, or the handler answers
    REPORT), the rollback that follows removes nothing: the last unit is
    the text, and [DeleteTrack] stops at it. *)
Lemma rollback_after_report data u :
  handler u = None ->
  DeleteTrack (results (ProcessOutput_Str data false u))
  = results (ProcessOutput_Str data false u).
Proof.
  intros Hh. unfold DeleteTrack.
  pose proof (ProcessOutput_Str_appends data false u Hh) as Hi.
  destruct (results (ProcessOutput_Str data false u)) as [l ? ? ? ? ? ? ?].
  cbn [items] in *. unfold with_items. cbn. f_equal.
  rewrite Hi. apply DeleteTrack_loop_stop. reflexivity.
Qed.

(** C4, on the code.  Whenever the text of the fallback is reported
    without a handler, the rollback that follows is a no-op.  So, with
    track mode on and no handler: the text ["--- abc<NL>--- <NL>"] holds
    one good track line and then an empty one; the code stores the track
    line, falls back, stores the whole text and then rolls nothing back,
    and the Track unit stays in front of the Text unit (and stays
    counted).  The text ["--- abc"], which lacks the closing newline, is
    not dispatched at all, and of ["--- abc<NL>--- def"] only the first
    line is kept. *)
Theorem C4_fallback_keeps_track_units :
  (forall data u,
      match handler u with
      | None =>
          DeleteTrack (results (ProcessOutput_Str data false u))
          = results (ProcessOutput_Str data false u)
      | Some _ => True
      end)
  /\ items (results (OutputText ("--- abc" +:+ nl +:+ "--- " +:+ nl)
                                (SetTrack true user0)))
     = [track_unit "abc"; text_unit ("--- abc" +:+ nl +:+ "--- " +:+ nl)]
  /\ trackCount (results (OutputText ("--- abc" +:+ nl +:+ "--- " +:+ nl)
                                     (SetTrack true user0))) = 1
  /\ observe (OutputText "--- abc" (SetTrack true user0)) = ([], 1, [])
  /\ observe (OutputText ("--- abc" +:+ nl +:+ "--- def")
                         (SetTrack true user0))
     = ([track_unit "abc"], 1, []).
Proof.
  split; [|repeat split].
  intros data u. destruct (handler u) eqn:Hh; [exact I|].
  apply rollback_after_report. exact Hh.
Qed.

End TrackFallback.

(* ===================================================================== *)
(** ** Extra tags *)
(* ===================================================================== *)

Section ExtraTags.

Import SpecMgr.

Lemma GetVar_SetVar_same k v d : StrDict.GetVar k (StrDict.SetVar k v d) = Some v.
Proof.
  induction d as [|[k' v'] d IH]; cbn.
  - rewrite String.eqb_refl. reflexivity.
  - destruct (String.eqb_spec k' k) as [->|Hne]; cbn.
    + rewrite String.eqb_refl. reflexivity.
    + destruct (String.eqb_spec k' k); [contradiction|exact IH].
Qed.

Lemma GetVar_SetVar_other k k' v d :
  k <> k' -> StrDict.GetVar k' (StrDict.SetVar k v d) = StrDict.GetVar k' d.
Proof.
  intros Hne. induction d as [|[k0 v0] d IH]; cbn.
  - destruct (String.eqb_spec k k'); [contradiction|reflexivity].
  - destruct (String.eqb_spec k0 k) as [->|H0]; cbn.
    + destruct (String.eqb_spec k k'); [contradiction|reflexivity].
    + destruct (String.eqb_spec k0 k'); [reflexivity|exact IH].
Qed.

Lemma GetVar_nth_error d : forall i k v,
  nth_error d i = Some (k, v) -> StrDict.GetVar k d <> None.
Proof.
  induction d as [|[k0 v0] d IH]; intros [|i] k v Hn; cbn in *;
    try discriminate.
  - injection Hn as -> ->. rewrite String.eqb_refl. discriminate.
  - destruct (String.eqb k0 k); [discriminate|]. eapply IH. exact Hn.
Qed.

Lemma dict_of_pairs_absent k l : forall (m : gmap string string),
  c_keys l = true ->
  StrDict.GetVar k l = None -> m !! k = None ->
  fold_left
    (fun d kv => <[Cgo.GoString (fst kv) := Cgo.GoString (snd kv)]> d) l m
  !! k = None.
Proof.
  induction l as [|[k0 v0] l IH]; intros m Hc Hg Hm; [exact Hm|].
  cbn [c_keys forallb fst] in Hc. apply andb_true_iff in Hc as [Hk0 Hc].
  apply negb_true_iff in Hk0. cbn [StrDict.GetVar] in Hg.
  cbn [fold_left fst snd]. rewrite (GoString_whole _ Hk0).
  destruct (String.eqb_spec k0 k) as [->|Hne]; [discriminate|].
  apply IH; [exact Hc|exact Hg|].
  rewrite lookup_insert_ne by exact Hne. exact Hm.
Qed.

(** Once captured, an extra field stays in [extras] with the value the
    record gives it. *)
Lemma extraTag_loop_keeps dict var val fuel : forall i extras,
  StrDict.GetVar var dict = Some val ->
  StrDict.GetVar var extras = Some val ->
  StrDict.GetVar var (extraTag_loop fuel i dict extras) = Some val.
Proof.
  induction fuel as [|fuel IH]; intros i extras Hd He; cbn [extraTag_loop];
    [exact He|].
  destruct (StrDict.GetVar (extraTag i) dict) as [var'|];
    [|exact He].
  destruct (StrDict.GetVar var' dict) as [val'|] eqn:Hv'; [|apply IH; assumption].
  apply IH; [assumption|].
  destruct (String.eqb_spec var' var) as [->|Hne].
  - rewrite GetVar_SetVar_same. congruence.
  - rewrite GetVar_SetVar_other by exact Hne. exact He.
Qed.

Lemma extraTag_inj i j : extraTag i = extraTag j -> i = j.
Proof.
  unfold extraTag. intros H. cbn in H. injection H as H.
  apply (inj pretty). exact H.
Qed.

Lemma GetVar_In k d : StrDict.GetVar k d <> None -> List.In k (map fst d).
Proof.
  induction d as [|[k0 v0] d IH]; cbn; [congruence|].
  destruct (String.eqb_spec k0 k); [left; assumption|right; auto].
Qed.

(** The tags are distinct keys, and the record has [length dict] keys:
    one of the first [length dict + 1] tags is absent. *)
Lemma some_tag_absent (d : StrDict.t) :
  exists k, (k <= length d)%nat /\ StrDict.GetVar (extraTag k) d = None.
Proof.
  assert (Hsearch : forall n,
    (exists k, (k < n)%nat /\ StrDict.GetVar (extraTag k) d = None)
    \/ (forall k, (k < n)%nat -> StrDict.GetVar (extraTag k) d <> None)).
  { induction n as [|n [(k & Hk & Hn)|Hall]].
    - right. intros k Hk. lia.
    - left. exists k. split; [lia|assumption].
    - destruct (StrDict.GetVar (extraTag n) d) eqn:Hg.
      + right. intros k Hk. destruct (Nat.eq_dec k n) as [->|]; [congruence|].
        apply Hall. lia.
      + left. exists n. split; [lia|assumption]. }
  destruct (Hsearch (S (length d))) as [(k & Hk & Hn)|Hall].
  - exists k. split; [lia|assumption].
  - exfalso.
    assert (Hnd : List.NoDup (map extraTag (seq 0 (S (length d))))).
    { apply Finite.Injective_map_NoDup; [|apply seq_NoDup].
      intros i j. apply extraTag_inj. }
    assert (Hin : incl (map extraTag (seq 0 (S (length d)))) (map fst d)).
    { intros t Ht. apply in_map_iff in Ht as (k & <- & Hk).
      apply in_seq in Hk. apply GetVar_In. apply Hall. lia. }
    pose proof (NoDup_incl_length Hnd Hin) as Hlen.
    rewrite !length_map, length_seq in Hlen. lia.
Qed.

(** Two runs of the scan agree once both have fuel to reach an absent
    tag. *)
Lemma extraTag_loop_enough dict k : forall fuel fuel' i extras,
  StrDict.GetVar (extraTag (i + k)) dict = None ->
  (k < fuel)%nat -> (k < fuel')%nat ->
  extraTag_loop fuel i dict extras = extraTag_loop fuel' i dict extras.
Proof.
  induction k as [|k IH]; intros [|fuel] [|fuel'] i extras Habs Hf Hf';
    try lia; cbn [extraTag_loop].
  - rewrite Nat.add_0_r in Habs. rewrite Habs. reflexivity.
  - destruct (StrDict.GetVar (extraTag i) dict) as [var|]; [|reflexivity].
    replace (i + S k)%nat with (S i + k)%nat in Habs by lia.
    destruct (StrDict.GetVar var dict);
      apply IH; try assumption; lia.
Qed.

(** The fuel [StrDictToSpec] gives the scan is enough: more changes
    nothing, so the bounded scan is the unbounded loop of the source. *)
Lemma extraTag_loop_fuel dict extras fuel :
  (length dict < fuel)%nat ->
  extraTag_loop fuel 0 dict extras
  = extraTag_loop (S (length dict)) 0 dict extras.
Proof.
  intros Hf. destruct (some_tag_absent dict) as (k & Hk & Habs).
  apply (extraTag_loop_enough dict k); [exact Habs|lia|lia].
Qed.

(** C7, on the code.  Take any engine and any record that announces the
    field [var] by [extraTag0] and gives it the value [val], while the
    form the engine makes of the record, parsed back, does not have
    [var] (the form holds the fields of the spec definition only).
    [StrDictToSpec] does capture the pair in [extras].  But the spec it
    returns is read through [Dict()] alone: no step of the key/value
    iteration yields [var], and the dictionary the Go side builds for
    the unit, from keys that are C strings, has no entry for [var].
    The field is dropped. *)
Theorem C7_extra_tags_not_exposed
        (E : SpecEngine) (dict : StrDict.t) (specDef : string)
        (table : StrDict.t) (var val : string) :
  Spec_init E specDef = None ->
  Spec_ParseNoValid E specDef (Spec_Format E specDef dict) = inr table ->
  StrDict.GetVar "extraTag0" dict = Some var ->
  StrDict.GetVar var dict = Some val ->
  StrDict.GetVar var table = None ->
  exists spec,
    StrDictToSpec E dict specDef = Some spec
    /\ StrDict.GetVar var (extras spec) = Some val
    /\ (forall i kv, SpecDataGetKeyPair spec i = Some kv -> fst kv <> var)
    /\ (exists d, P4.goResult (spec_unit (Some spec)) = Some (P4.Dictionary d)
                  /\ (c_keys table = true -> d !! var = None)).
Proof.
  intros Hinit Hparse Htag Hvar Habs.
  unfold StrDictToSpec. rewrite Hinit, Hparse. eexists. split; [reflexivity|].
  cbn [extras Dict]. split; [|split].
  - cbn [extraTag_loop].
    change (extraTag 0) with "extraTag0".
    rewrite Htag, Hvar. apply extraTag_loop_keeps; [exact Hvar|].
    apply GetVar_SetVar_same.
  - intros i [k v] Hkv Heq. cbn in Heq. subst k.
    unfold SpecDataGetKeyPair, StrDict.GetVarI in Hkv. cbn [Dict] in Hkv.
    apply (GetVar_nth_error _ _ _ _ Hkv). exact Habs.
  - eexists. split; [reflexivity|].
    intros Hkeys. cbn [Dict]. unfold P4.dict_of_pairs.
    apply dict_of_pairs_absent; [exact Hkeys|exact Habs|apply lookup_empty].
Qed.

End ExtraTags.

(* ===================================================================== *)
(** ** Spec translation *)
(* ===================================================================== *)

Section SpecTranslation.

Import ClientUser ClientApi.

Variable E : SpecEngine.

(** For a type whose definition the engine accepts, [ParseSpec] and
    [FormatSpec] are the engine's parser and formatter for that
    definition, and nothing else: what a parse, render, parse round trip
    over them yields is decided inside P4API. *)
Lemma ParseSpec_FormatSpec_are_the_engine (a : P4GoClientApi)
      (type specDef : string) :
  StrDict.GetVar type (SpecMgr.specs (specMgr (ui a))) = Some specDef ->
  Spec_init E specDef = None ->
  (forall form,
      fst (ParseSpec E type form a)
      = match Spec_ParseNoValid E specDef form with
        | inr table => Some {| Dict := table; extras := StrDict.empty |}
        | inl _ => None
        end)
  /\ (forall dict,
         FormatSpec E type dict a
         = (Some (Spec_Format E specDef dict), Msg.empty)).
Proof.
  intros Hdef Hinit. split.
  - intros form. unfold ParseSpec, SpecMgr.HaveSpecDef, StrDict.has,
      SpecMgr.StringToSpec.
    rewrite Hdef, Hinit. cbn [negb].
    destruct (Spec_ParseNoValid E specDef form); reflexivity.
  - intros dict. unfold FormatSpec, SpecMgr.HaveSpecDef, StrDict.has,
      SpecMgr.SpecToString.
    rewrite Hdef, Hinit. reflexivity.
Qed.

End SpecTranslation.

(* ===================================================================== *)
(** ** Concrete runs *)
(* ===================================================================== *)

(** C2 as stated fails on three kinds of output call.  (1) In track mode
    a text that starts with the marker is not offered to the handler, and
    a Track unit is stored although every callback answers HANDLED.
    (2) Without a handler a message of Empty severity is not stored.
    (3) A record that carries a spec is not offered to the handler either,
    and a Spec unit is stored although every callback answers HANDLED. *)
Lemma C2_counterexample :
  observe (ClientUser.deliver one_field_engine
             (EvOutputText ("--- abc" +:+ nl))
             (ClientUser.SetHandler
                (Some (handler_of HANDLED HANDLED HANDLED HANDLED))
                (ClientUser.SetTrack true user0)))
  = ([track_unit "abc"], 1, [])
  /\ observe (ClientUser.deliver one_field_engine (EvMessage Msg.empty) user0)
     = ([], 1, [])
  /\ observe (ClientUser.deliver one_field_engine
                (EvOutputStat stream_record)
                (ClientUser.SetHandler
                   (Some (handler_of HANDLED HANDLED HANDLED HANDLED)) user0))
     = ([spec_unit (Some {| Dict := [("Stream", "//Stream/MAIN")];
                            extras := [("firmerThanParent", "n/a")] |})],
        1, []).
Proof. repeat split. Qed.



(** C6 as stated fails: without a handler, a merge case with hint
    accept-theirs whose engine-side resolve answers skip yields skip. *)
Lemma C6_counterexample :
  ClientUser.resolveHandler user0 = None
  /\ MergeData.GetMergeHint (MergeData.of_merge [] merge_skip)
     = MergeData.CMS_THEIRS
  /\ fst (ClientUser.Resolve merge_skip user0) = MergeData.CMS_SKIP
  /\ MergeData.CMS_SKIP <> MergeData.CMS_THEIRS.
Proof.
  split; [reflexivity|]. split; [reflexivity|]. split; [reflexivity|].
  discriminate.
Qed.

(** C6 at a content merge with hint accept-theirs: without a handler the
    answer is the one of the engine's resolve; with a handler that
    returns the hint it is shown, the handler is called once and its
    answer is the result. *)
Lemma C6_witness :
  ClientUser.resolveHandler user0 = None
  /\ ClientUser.Resolve merge0 user0 = (MergeData.cm_Resolve merge0, user0)
  /\ ClientUser.Resolve merge0
       (ClientUser.SetResolveHandler (Some hint_resolver) user0)
     = (MergeData.CMS_THEIRS,
        ClientUser.set_callbacks
          [CbResolve (MergeData.of_merge [] merge0)]
          (ClientUser.SetResolveHandler (Some hint_resolver) user0)).
Proof.
  split; [reflexivity|]. split.
  - apply (proj1 (C6_resolve_negotiation merge0 action0 user0)).
    reflexivity.
  - apply (proj2 (C6_resolve_negotiation merge0 action0
                    (ClientUser.SetResolveHandler (Some hint_resolver) user0))
             hint_resolver).
    reflexivity.
Defined.

(** C7 at a stream spec record with the extra field [firmerThanParent]. *)
Lemma C7_witness :
  Spec_init one_field_engine "Stream" = None
  /\ StrDict.GetVar "extraTag0" stream_record = Some "firmerThanParent"
  /\ StrDict.GetVar "firmerThanParent" stream_record = Some "n/a"
  /\ exists spec,
      SpecMgr.StrDictToSpec one_field_engine stream_record "Stream" = Some spec
      /\ StrDict.GetVar "firmerThanParent" (extras spec) = Some "n/a"
      /\ (forall i kv, SpecMgr.SpecDataGetKeyPair spec i = Some kv ->
                       fst kv <> "firmerThanParent")
      /\ (exists d, P4.goResult (spec_unit (Some spec)) = Some (P4.Dictionary d)
                    /\ d !! "firmerThanParent" = None).
Proof.
  split; [reflexivity|]. split; [reflexivity|]. split; [reflexivity|].
  destruct (C7_extra_tags_not_exposed one_field_engine stream_record "Stream"
              [("Stream", "//Stream/MAIN")] "firmerThanParent" "n/a"
              eq_refl eq_refl eq_refl eq_refl eq_refl)
    as (spec & Hspec & Hextra & Hiter & d & Hgo & Hd).
  exists spec. split; [exact Hspec|]. split; [exact Hextra|].
  split; [exact Hiter|]. exists d. split; [exact Hgo|].
  apply Hd. reflexivity.
Defined.

(** C8 at a session that holds four units and a cleared alive flag from a
    cancelled command: the next [Run] behaves as on a new session. *)
Lemma C8_witness :
  ClientApi.depth used_session = 0
  /\ ClientUser.alive (ClientApi.ui used_session) = 0
  /\ length (Results.items (ClientUser.results (ClientApi.ui used_session)))
     = 4%nat
  /\ ClientUser.results (ClientUser.Reset (ClientApi.ui used_session))
     = Results.new
  /\ ClientUser.alive (ClientUser.Reset (ClientApi.ui used_session)) = 1
  /\ ClientApi.Run one_field_engine [] (engine_run [EvOutputStat record1])
                   "fstat" [] Msg.empty used_session
     = ClientApi.Run one_field_engine [] (engine_run [EvOutputStat record1])
                     "fstat" [] Msg.empty session0
  /\ ClientApi.ui
       (fst (fst (ClientApi.Run one_field_engine []
                    (engine_run [EvOutputStat record1])
                    "fstat" [] Msg.empty used_session)))
     = ClientUser.deliver_all one_field_engine [EvOutputStat record1]
         (ClientUser.SetCommand "fstat"
            (ClientUser.Reset (ClientApi.ui used_session))).
Proof.
  split; [reflexivity|]. split; [reflexivity|]. split; [reflexivity|].
  pose proof (C8_run_starts_fresh one_field_engine []
                (engine_run [EvOutputStat record1]) "fstat" [] Msg.empty
                used_session eq_refl)
    as ((Hnew & _ & Halive & _) & Hforget & Hstart & _).
  split; [exact Hnew|]. split; [exact Halive|]. split.
  - exact (eq_sym (Hforget (ClientUser.results user0) 1)).
  - apply Hstart; reflexivity.
Defined.

(** C2 at two records around a text, for a handler that answers HANDLED
    to records and REPORT to the rest; at one record without a handler;
    and at a text answered with CANCEL. *)
Lemma C2_witness :
  forallb (in_contract stat_keeper) mixed_events = true
  /\ observe (ClientUser.deliver_all one_field_engine mixed_events stat_keeper)
     = ([text_unit "hello"], 1,
        [CbStat record1; CbText "hello"; CbStat record2])
  /\ records (ClientUser.results
                (ClientUser.deliver_all one_field_engine mixed_events
                                        stat_keeper)) = []
  /\ records (ClientApi.GetResults
                (fst (fst (ClientApi.Run one_field_engine []
                             (engine_run mixed_events) "fstat" [] Msg.empty
                             (ClientApi.set_ui stat_keeper session0))))) = []
  /\ Results.items
       (ClientUser.results
          (ClientUser.deliver one_field_engine (EvOutputStat record1) user0))
     = [record_unit record1]
  /\ ClientUser.alive
       (ClientUser.deliver one_field_engine (EvOutputText "stop")
          (ClientUser.SetHandler
             (Some (handler_of REPORT REPORT REPORT CANCEL)) user0)) = 0.
Proof.
  split; [reflexivity|].
  pose proof (C2_output_handler_contract one_field_engine mixed_events
                stat_keeper)
    as (Hseq & _ & _ & _ & Hrec & Hrun).
  split; [exact (Hseq eq_refl)|].
  split.
  { exact (Hrec (handler_of REPORT REPORT HANDLED REPORT) eq_refl
                (fun _ _ => eq_refl)). }
  split.
  { exact (Hrun [] (engine_run mixed_events) "fstat" [] Msg.empty
                (ClientApi.set_ui stat_keeper session0)
                (handler_of REPORT REPORT HANDLED REPORT)
                eq_refl eq_refl eq_refl (fun _ _ => eq_refl)). }
  split.
  { pose proof (C2_output_handler_contract one_field_engine [] user0)
      as (_ & _ & Hnone & _).
    exact (proj1 (proj2 (Hnone (EvOutputStat record1) eq_refl eq_refl))). }
  pose proof (C2_output_handler_contract one_field_engine []
                (ClientUser.SetHandler
                   (Some (handler_of REPORT REPORT REPORT CANCEL)) user0))
    as (_ & Hone & _).
  destruct (Hone (EvOutputText "stop") (handler_of REPORT REPORT REPORT CANCEL)
                 eq_refl eq_refl) as (_ & _ & _ & Hcancel).
  exact (proj2 (Hcancel eq_refl)).
Defined.


(* ===================================================================== *)
(** ** The running counts of the result collection *)
(* ===================================================================== *)

Section CallSequences.

Import Results ResultCalls.

Lemma DeleteTrack_loop_filter (f : P4GoResult -> bool) n : forall l,
  (forall x, type_eqb (type x) TRACK = true -> f x = false) ->
  List.filter f (DeleteTrack_loop n l) = List.filter f l.
Proof.
  induction n as [|n IH]; intros l Hf; cbn; [reflexivity|].
  destruct (nth_error l n) as [x|] eqn:Hn; [|reflexivity].
  destruct (type_eqb (type x) TRACK) eqn:Ht; [|reflexivity].
  rewrite IH by exact Hf.
  apply (filter_remove_at_out f l n x Hn). apply Hf, Ht.
Qed.

Lemma filter_remove_at_le {A} (f : A -> bool) (l : list A) : forall i,
  (length (List.filter f (remove_at i l)) <= length (List.filter f l))%nat.
Proof.
  induction l as [|a l IH]; intros [|i]; cbn; try lia.
  - destruct (f a); cbn; lia.
  - specialize (IH i). destruct (f a); cbn; lia.
Qed.

Lemma DeleteTrack_loop_le (f : P4GoResult -> bool) n : forall l,
  (length (List.filter f (DeleteTrack_loop n l)) <= length (List.filter f l))%nat.
Proof.
  induction n as [|n IH]; intros l; cbn; [lia|].
  destruct (nth_error l n) as [x|] eqn:Hn; [|lia].
  destruct (type_eqb (type x) TRACK); [|lia].
  specialize (IH (remove_at n l)).
  pose proof (filter_remove_at_le f l n). lia.
Qed.

Lemma is_message_with_track p x :
  type_eqb (type x) TRACK = true -> is_message_with p x = false.
Proof.
  unfold is_message_with, is_kind. destruct (type x); cbn; congruence.
Qed.

Lemma is_kind_track k x :
  type_eqb TRACK k = false ->
  type_eqb (type x) TRACK = true -> is_kind k x = false.
Proof.
  unfold is_kind. destruct (type x), k; cbn; congruence.
Qed.

Lemma units_of_snoc k x r r' :
  items r' = items r ++ [x] ->
  units_of k r' = units_of k r + (if is_kind k x then 1 else 0).
Proof.
  intros H. unfold units_of. rewrite H, List.filter_app, length_app. cbn.
  destruct (is_kind k x); cbn; lia.
Qed.

Lemma messages_with_snoc p x r r' :
  items r' = items r ++ [x] ->
  messages_with p r' = messages_with p r + (if is_message_with p x then 1 else 0).
Proof.
  intros H. unfold messages_with. rewrite H, List.filter_app, length_app. cbn.
  destruct (is_message_with p x); cbn; lia.
Qed.

Lemma counts_agree_new : counts_agree Results.new /\ trackCount Results.new = 0.
Proof. repeat split. Qed.

Lemma counts_agree_AddOutput_Error e r :
  counts_agree r ->
  counts_agree (AddOutput_Error e r)
  /\ trackCount (AddOutput_Error e r) = trackCount r
  /\ units_of TRACK (AddOutput_Error e r) = units_of TRACK r.
Proof.
  intros Hr.
  unfold AddOutput_Error, Msg.E_EMPTY.
  destruct (Z.eqb_spec (Msg.GetSeverity e) 0) as [H0|H0].
  { repeat split; apply Hr. }
  destruct Hr as (Hs & Hd & Hp & Hi & Hw & He).
  set (x := {| type := ERROR; taken := 0; str := None; dict := None;
               err := Some e; spec := None |}).
  unfold counts_agree in *.
  repeat match goal with
         | |- context [units_of ?k ?r'] =>
             rewrite (units_of_snoc k x r r') by reflexivity
         | |- context [messages_with ?p ?r'] =>
             rewrite (messages_with_snoc p x r r') by reflexivity
         end.
  cbv [is_kind is_message_with type err type_eqb andb x
       is_info is_warn is_worse Msg.E_INFO Msg.E_WARN] in *.
  unfold AddOutput_Str, AddOutput_Dict, AddOutput_Spec, AddTrack.
  cbn [stringCount dictCount specCount infoCount warnCount errorCount
       trackCount Put].
   destruct (Z.eqb_spec (Msg.GetSeverity e) 1) as [H1|H1];
    destruct (Z.eqb_spec (Msg.GetSeverity e) 2) as [H2|H2];
    cbn [negb andb]; repeat split; lia.
Qed.

Lemma counts_agree_AddOutput_Str o b r :
  counts_agree r ->
  counts_agree (AddOutput_Str o b r)
  /\ trackCount (AddOutput_Str o b r) = trackCount r
  /\ units_of TRACK (AddOutput_Str o b r) = units_of TRACK r.
Proof.
  intros (Hs & Hd & Hp & Hi & Hw & He).
  set (x := {| type := if b then BINARY else STRING; taken := 0;
               str := Some o; dict := None; err := None; spec := None |}).
  unfold counts_agree in *.
  repeat match goal with
         | |- context [units_of ?k ?r'] =>
             rewrite (units_of_snoc k x r r') by reflexivity
         | |- context [messages_with ?p ?r'] =>
             rewrite (messages_with_snoc p x r r') by reflexivity
         end.
  cbv [is_kind is_message_with type err type_eqb andb x
       is_info is_warn is_worse Msg.E_INFO Msg.E_WARN] in *.
  unfold AddOutput_Str, AddOutput_Dict, AddOutput_Spec, AddTrack.
  cbn [stringCount dictCount specCount infoCount warnCount errorCount
       trackCount Put].
  destruct b; repeat split; lia.
Qed.

Lemma counts_agree_AddOutput_Dict d r :
  counts_agree r ->
  counts_agree (AddOutput_Dict d r)
  /\ trackCount (AddOutput_Dict d r) = trackCount r
  /\ units_of TRACK (AddOutput_Dict d r) = units_of TRACK r.
Proof.
  intros (Hs & Hd & Hp & Hi & Hw & He).
  set (x := {| type := DICT; taken := 0; str := None; dict := Some d;
               err := None; spec := None |}).
  unfold counts_agree in *.
  repeat match goal with
         | |- context [units_of ?k ?r'] =>
             rewrite (units_of_snoc k x r r') by reflexivity
         | |- context [messages_with ?p ?r'] =>
             rewrite (messages_with_snoc p x r r') by reflexivity
         end.
  cbv [is_kind is_message_with type err type_eqb andb x
       is_info is_warn is_worse Msg.E_INFO Msg.E_WARN] in *.
  unfold AddOutput_Str, AddOutput_Dict, AddOutput_Spec, AddTrack.
  cbn [stringCount dictCount specCount infoCount warnCount errorCount
       trackCount Put].
  repeat split; lia.
Qed.

Lemma counts_agree_AddOutput_Spec s r :
  counts_agree r ->
  counts_agree (AddOutput_Spec s r)
  /\ trackCount (AddOutput_Spec s r) = trackCount r
  /\ units_of TRACK (AddOutput_Spec s r) = units_of TRACK r.
Proof.
  intros (Hs & Hd & Hp & Hi & Hw & He).
  set (x := {| type := SPEC; taken := 0; str := None; dict := None;
               err := None; spec := Some s |}).
  unfold counts_agree in *.
  repeat match goal with
         | |- context [units_of ?k ?r'] =>
             rewrite (units_of_snoc k x r r') by reflexivity
         | |- context [messages_with ?p ?r'] =>
             rewrite (messages_with_snoc p x r r') by reflexivity
         end.
  cbv [is_kind is_message_with type err type_eqb andb x
       is_info is_warn is_worse Msg.E_INFO Msg.E_WARN] in *.
  unfold AddOutput_Str, AddOutput_Dict, AddOutput_Spec, AddTrack.
  cbn [stringCount dictCount specCount infoCount warnCount errorCount
       trackCount Put].
  repeat split; lia.
Qed.

Lemma counts_agree_AddTrack t r :
  counts_agree r ->
  counts_agree (AddTrack t r)
  /\ trackCount (AddTrack t r) = trackCount r + 1
  /\ units_of TRACK (AddTrack t r) = units_of TRACK r + 1.
Proof.
  intros (Hs & Hd & Hp & Hi & Hw & He).
  set (x := {| type := TRACK; taken := 0; str := Some t; dict := None;
               err := None; spec := None |}).
  unfold counts_agree in *.
  repeat match goal with
         | |- context [units_of ?k ?r'] =>
             rewrite (units_of_snoc k x r r') by reflexivity
         | |- context [messages_with ?p ?r'] =>
             rewrite (messages_with_snoc p x r r') by reflexivity
         end.
  cbv [is_kind is_message_with type err type_eqb andb x
       is_info is_warn is_worse Msg.E_INFO Msg.E_WARN] in *.
  unfold AddOutput_Str, AddOutput_Dict, AddOutput_Spec, AddTrack.
  cbn [stringCount dictCount specCount infoCount warnCount errorCount
       trackCount Put].
  repeat split; lia.
Qed.

Lemma counts_agree_DeleteTrack r :
  counts_agree r ->
  counts_agree (DeleteTrack r)
  /\ trackCount (DeleteTrack r) = trackCount r
  /\ units_of TRACK (DeleteTrack r) <= units_of TRACK r.
Proof.
  intros (Hs & Hd & Hp & Hi & Hw & He).
  unfold counts_agree, units_of, messages_with, DeleteTrack in *.
  cbn [items with_items stringCount dictCount specCount infoCount warnCount
       errorCount trackCount].
  rewrite !(DeleteTrack_loop_filter (is_kind _))
    by (intros x; apply is_kind_track; reflexivity).
  rewrite !(DeleteTrack_loop_filter (is_message_with _))
    by (intros x; apply is_message_with_track).
  repeat split; try assumption.
  pose proof (DeleteTrack_loop_le (is_kind TRACK) (length (items r)) (items r)).
  lia.
Qed.

(** The invariant of every sequence of calls: the six counts that
    [DeleteTrack] cannot disturb agree with the units; [trackCount] is at
    least the number of Track units, and equal to it as long as
    [DeleteTrack] has not been called. *)
Lemma calls_invariant (cs : list Call) : forall r,
  counts_agree r ->
  units_of TRACK r <= trackCount r ->
  counts_agree (calls cs r)
  /\ units_of TRACK (calls cs r) <= trackCount (calls cs r)
  /\ (existsb is_DelTrack cs = false ->
      trackCount r = units_of TRACK r ->
      trackCount (calls cs r) = units_of TRACK (calls cs r)).
Proof.
  induction cs as [|c cs IH]; intros r Hr Ht.
  { cbn. split; [exact Hr|split; [exact Ht|auto]]. }
  assert (Hstep : counts_agree (call c r)
                  /\ units_of TRACK (call c r) <= trackCount (call c r)
                  /\ (is_DelTrack c = false ->
                      trackCount r = units_of TRACK r ->
                      trackCount (call c r) = units_of TRACK (call c r))).
  { destruct c; cbn [call is_DelTrack].
    - destruct (counts_agree_AddOutput_Error e r Hr) as (H1 & H2 & H3).
      split; [exact H1|split; [lia|intros; lia]].
    - destruct (counts_agree_AddOutput_Str o binary r Hr) as (H1 & H2 & H3).
      split; [exact H1|split; [lia|intros; lia]].
    - destruct (counts_agree_AddOutput_Dict d r Hr) as (H1 & H2 & H3).
      split; [exact H1|split; [lia|intros; lia]].
    - destruct (counts_agree_AddOutput_Spec s r Hr) as (H1 & H2 & H3).
      split; [exact H1|split; [lia|intros; lia]].
    - destruct (counts_agree_AddTrack t r Hr) as (H1 & H2 & H3).
      split; [exact H1|split; [lia|intros; lia]].
    - destruct (counts_agree_DeleteTrack r Hr) as (H1 & H2 & H3).
      split; [exact H1|split; [lia|discriminate]].
    - rewrite Reset_is_new. destruct counts_agree_new as [H1 H2].
      split; [exact H1|split; [unfold units_of; cbn; lia|intros; reflexivity]]. }
  destruct Hstep as (H1 & H2 & H3).
  destruct (IH (call c r) H1 H2) as (I1 & I2 & I3).
  cbn [calls fold_left existsb]. fold (calls cs (call c r)).
  split; [exact I1|split; [exact I2|]].
  intros Hno Heq. apply orb_false_iff in Hno as [Hc Hcs].
  apply I3; [exact Hcs|]. apply H3; assumption.
Qed.

(** X1.  Whatever sequence of [AddOutput], [AddTrack], [DeleteTrack] and
    [Reset] calls a fresh collection has seen, its running counts tell
    what it holds: [stringCount] is the number of Text and Binary units,
    [dictCount] of Record units, [specCount] of Spec units, and
    [infoCount], [warnCount] and [errorCount] are the numbers of stored
    messages of severity Info, of severity Warn, and of any other
    severity.  [trackCount] is never below the number of Track units and
    equals it when [DeleteTrack] was not among the calls. *)
Theorem counts_tell_the_units (cs : list Call) :
  counts_agree (calls cs Results.new)
  /\ units_of TRACK (calls cs Results.new) <= trackCount (calls cs Results.new)
  /\ (existsb is_DelTrack cs = false ->
      trackCount (calls cs Results.new) = units_of TRACK (calls cs Results.new)).
Proof.
  destruct (calls_invariant cs Results.new (proj1 counts_agree_new))
    as (H1 & H2 & H3); [unfold units_of; cbn; lia|].
  split; [exact H1|split; [exact H2|]].
  intros Hno. apply H3; [exact Hno|reflexivity].
Qed.

(** X1 at a text, a track line and an Info message added to a fresh
    collection. *)
Lemma counts_tell_the_units_witness :
  existsb is_DelTrack
    [AddStr "text" false; AddTrackLine "rpc msgs 2"; AddError info_message]
  = false
  /\ trackCount
       (calls [AddStr "text" false; AddTrackLine "rpc msgs 2";
               AddError info_message] Results.new)
     = units_of TRACK
         (calls [AddStr "text" false; AddTrackLine "rpc msgs 2";
                 AddError info_message] Results.new).
Proof.
  split; [reflexivity|].
  apply (proj2 (proj2 (counts_tell_the_units
           [AddStr "text" false; AddTrackLine "rpc msgs 2";
            AddError info_message]))).
  reflexivity.
Defined.

Lemma DeleteTrack_loop_tracks (ts : list P4GoResult) : forall l,
  forallb (is_kind TRACK) ts = true ->
  DeleteTrack_loop (length (l ++ ts)) (l ++ ts)
  = DeleteTrack_loop (length l) l.
Proof.
  induction ts as [|t ts IH] using rev_ind; intros l Hts.
  { rewrite app_nil_r. reflexivity. }
  rewrite forallb_app in Hts. apply andb_true_iff in Hts as [Hts Ht].
  cbn in Ht. rewrite andb_true_r in Ht.
  rewrite app_assoc, DeleteTrack_loop_step by exact Ht.
  apply IH, Hts.
Qed.

(** X2.  [DeleteTrack] removes exactly the run of Track units at the
    end of the collection: with the units [l ++ ts], where every unit of
    [ts] is a Track unit and [l] is empty or ends in a unit of another
    kind, it leaves the units [l].  No count changes, so [trackCount]
    still includes the units removed. *)
Theorem DeleteTrack_strips_the_tail
        (r : P4GoResults) (l ts : list P4GoResult) :
  items r = l ++ ts ->
  forallb (is_kind TRACK) ts = true ->
  (l = [] \/ exists l' x, l = l' ++ [x] /\ is_kind TRACK x = false) ->
  items (DeleteTrack r) = l
  /\ trackCount (DeleteTrack r) = trackCount r
  /\ Count (DeleteTrack r) = Count r - Z.of_nat (length ts).
Proof.
  intros Hr Hts Hl.
  assert (Hitems : items (DeleteTrack r) = l).
  { unfold DeleteTrack. cbn [items with_items]. rewrite Hr.
    rewrite DeleteTrack_loop_tracks by exact Hts.
    destruct Hl as [->|(l' & x & -> & Hx)]; [reflexivity|].
    apply DeleteTrack_loop_stop. exact Hx. }
  split; [exact Hitems|]. split; [reflexivity|].
  unfold Count. rewrite Hitems, Hr, length_app. lia.
Qed.

(** X2 at a text followed by two track lines. *)
Lemma DeleteTrack_strips_the_tail_witness :
  items (calls [AddStr "text" false; AddTrackLine "t1"; AddTrackLine "t2"]
               Results.new)
  = [text_unit "text"] ++ [track_unit "t1"; track_unit "t2"]
  /\ items (DeleteTrack
              (calls [AddStr "text" false; AddTrackLine "t1";
                      AddTrackLine "t2"] Results.new))
     = [text_unit "text"]
  /\ trackCount (DeleteTrack
                   (calls [AddStr "text" false; AddTrackLine "t1";
                           AddTrackLine "t2"] Results.new))
     = 2.
Proof.
  split; [reflexivity|].
  destruct (DeleteTrack_strips_the_tail
              (calls [AddStr "text" false; AddTrackLine "t1";
                      AddTrackLine "t2"] Results.new)
              [text_unit "text"] [track_unit "t1"; track_unit "t2"]
              eq_refl eq_refl
              (or_intror (ex_intro _ []
                 (ex_intro _ (text_unit "text") (conj eq_refl eq_refl)))))
    as (Hitems & Htrack & _).
  split; [exact Hitems|]. rewrite Htrack. reflexivity.
Defined.

End CallSequences.

(* ===================================================================== *)
(** ** Keys of indexed fields *)
(* ===================================================================== *)

Section IndexedKeys.

Import SpecKeys.

Lemma append_cons (c : ascii) (a b : string) :
  String c a +:+ b = String c (a +:+ b).
Proof. reflexivity. Qed.

Lemma append_empty_r (a : string) : a +:+ "" = a.
Proof.
  induction a as [|c a IH]; [reflexivity|].
  rewrite append_cons. f_equal. exact IH.
Qed.

Lemma append_assoc (a b c : string) : (a +:+ b) +:+ c = a +:+ (b +:+ c).
Proof.
  induction a as [|x a IH]; [reflexivity|].
  rewrite !append_cons. f_equal. exact IH.
Qed.

Lemma substring_prefix (a b : string) :
  String.substring 0 (String.length a) (a +:+ b) = a.
Proof.
  induction a as [|c a IH].
  - destruct b; reflexivity.
  - rewrite append_cons. cbn. f_equal. exact IH.
Qed.

Lemma substring_whole (b : string) :
  String.substring 0 (String.length b) b = b.
Proof. induction b as [|c b IH]; cbn; [reflexivity|f_equal; exact IH]. Qed.

Lemma substring_suffix (a b : string) :
  String.substring (String.length a) (String.length b) (a +:+ b) = b.
Proof.
  induction a as [|c a IH].
  - apply substring_whole.
  - rewrite append_cons. cbn. exact IH.
Qed.

Lemma length_append (a b : string) :
  String.length (a +:+ b) = (String.length a + String.length b)%nat.
Proof.
  induction a as [|c a IH]; [reflexivity|].
  rewrite append_cons. cbn. f_equal. exact IH.
Qed.

Lemma get_append_right (a b : string) (n : nat) :
  String.get (String.length a + n) (a +:+ b) = String.get n b.
Proof.
  induction a as [|c a IH]; [reflexivity|].
  rewrite append_cons. cbn. exact IH.
Qed.

Lemma all_index_get (s : string) : forall n c,
  all_index s = true -> String.get n s = Some c -> is_index_char c = true.
Proof.
  unfold all_index.
  induction s as [|a s IH]; intros n c Hall Hget; cbn in *; [discriminate|].
  apply andb_true_iff in Hall as [Ha Hs].
  destruct n as [|n]; [congruence|]. exact (IH n c Hs Hget).
Qed.

(** The loop walks over an all-index suffix without stopping. *)
Lemma SplitKey_loop_skips (pre index : string) : forall k,
  all_index index = true ->
  (k <= String.length index)%nat ->
  SplitKey_loop (pre +:+ index) (String.length pre + k)
  = SplitKey_loop (pre +:+ index) (String.length pre).
Proof.
  intros k Hall. induction k as [|k IH]; intros Hk.
  { rewrite Nat.add_0_r. reflexivity. }
  rewrite Nat.add_succ_r. cbn [SplitKey_loop].
  rewrite get_append_right.
  destruct (String.get k index) as [c|] eqn:Hget.
  - pose proof (all_index_get index k c Hall Hget) as Hc.
    unfold is_index_char in Hc. apply orb_true_iff in Hc.
    destruct (isdigit c); cbn [negb andb]; [apply IH; lia|].
    destruct Hc as [Hc|Hc]; [discriminate|]. rewrite Hc. cbn.
    apply IH; lia.
  - apply IH; lia.
Qed.

(** At the last character that is not an index character the loop
    stops and cuts the key there. *)
Lemma SplitKey_loop_stops (base : string) (c : ascii) (index : string) :
  is_index_char c = false ->
  SplitKey_loop ((base +:+ String c "") +:+ index)
                (String.length (base +:+ String c ""))
  = (base +:+ String c "", index).
Proof.
  intros Hc.
  set (pre := base +:+ String c "").
  assert (Hpre : String.length pre = S (String.length base)).
  { unfold pre. rewrite length_append. cbn. lia. }
  assert (Hget : String.get (String.length base) (pre +:+ index) = Some c).
  { unfold pre. rewrite <- (Nat.add_0_r (String.length base)).
    rewrite append_assoc, get_append_right. reflexivity. }
  rewrite Hpre. cbn [SplitKey_loop]. rewrite Hget.
  unfold is_index_char in Hc. apply orb_false_iff in Hc as [Hd Hcomma].
  rewrite Hd, Hcomma. cbn [negb andb].
  rewrite <- Hpre, length_append.
  replace (String.length pre + String.length index - String.length pre)%nat
    with (String.length index) by lia.
  rewrite substring_prefix, substring_suffix. reflexivity.
Qed.

Lemma SplitKey_all_index (key : string) :
  all_index key = true -> SplitKey key = (key, "").
Proof.
  intros Hall. unfold SplitKey.
  exact (SplitKey_loop_skips "" key (String.length key) Hall (Nat.le_refl _)).
Qed.

(** Every key is all index, or has a last character that is not an
    index character. *)
Lemma key_parts (key : string) :
  all_index key = true
  \/ exists base c index,
       key = (base +:+ String c "") +:+ index
       /\ is_index_char c = false /\ all_index index = true.
Proof.
  induction key as [|a key IH]; [left; reflexivity|].
  destruct IH as [Hall|(base & c & index & -> & Hc & Hall)].
  - destruct (is_index_char a) eqn:Ha.
    + left. unfold all_index in *. cbn. rewrite Ha. exact Hall.
    + right. exists "", a, key.
      split; [reflexivity|]. split; assumption.
  - right. exists (String a base), c, index.
    split; [reflexivity|]. split; assumption.
Qed.

(** X3.  Splitting a key that is a base name ending in a character that
    is neither a digit nor a comma, followed by an index of digits and
    commas, gives back that base and that index: for ["how1,0"] the
    base is ["how"] and the index ["1,0"]. *)
Theorem SplitKey_of_base_and_index
        (base : string) (c : ascii) (index : string) :
  is_index_char c = false ->
  all_index index = true ->
  SplitKey ((base +:+ String c "") +:+ index) = (base +:+ String c "", index).
Proof.
  intros Hc Hall. unfold SplitKey.
  (* from the end of the key down to the end of the base: no stop *)
  rewrite length_append.
  rewrite SplitKey_loop_skips by (auto; lia).
  (* the last character of the base stops the loop *)
  apply SplitKey_loop_stops. exact Hc.
Qed.

(** X3 at the key [how1,0]. *)
Lemma SplitKey_of_base_and_index_witness :
  is_index_char "w" = false
  /\ all_index "1,0" = true
  /\ SplitKey "how1,0" = ("how", "1,0").
Proof.
  split; [reflexivity|]. split; [reflexivity|].
  exact (SplitKey_of_base_and_index "ho" "w" "1,0" eq_refl eq_refl).
Defined.

(** X4.  [SplitKey] loses nothing and never puts a foreign character
    into the index: for every key, base followed by index is the key
    and the index holds digits and commas only.  A key made of digits
    and commas alone (the empty key included) is not split: it comes
    back whole as the base, with an empty index. *)
Theorem SplitKey_keeps_the_key (key : string) :
  fst (SplitKey key) +:+ snd (SplitKey key) = key
  /\ all_index (snd (SplitKey key)) = true
  /\ (all_index key = true -> SplitKey key = (key, "")).
Proof.
  assert (H : fst (SplitKey key) +:+ snd (SplitKey key) = key
              /\ all_index (snd (SplitKey key)) = true).
  { destruct (key_parts key) as [Hall|(base & c & index & -> & Hc & Hall)].
    - rewrite SplitKey_all_index by exact Hall. cbn [fst snd].
      split; [apply append_empty_r|reflexivity].
    - unfold SplitKey.
      rewrite length_append, SplitKey_loop_skips by (auto; lia).
      rewrite SplitKey_loop_stops by exact Hc. cbn [fst snd].
      split; [reflexivity|exact Hall]. }
  destruct H as [H1 H2].
  split; [exact H1|]. split; [exact H2|]. apply SplitKey_all_index.
Qed.

(** X4 at the key [123]. *)
Lemma SplitKey_keeps_the_key_witness :
  all_index "123" = true /\ SplitKey "123" = ("123", "").
Proof.
  split; [reflexivity|].
  exact (proj2 (proj2 (SplitKey_keeps_the_key "123")) eq_refl).
Defined.

End IndexedKeys.

(* ===================================================================== *)
(** ** Input for the engine *)
(* ===================================================================== *)

Section InputQueue.

Import ClientUser UserInput.

Lemma input_fold_AppendInput (l : list string) : forall u,
  fold_left (fun acc i => AppendInput i acc) l u = set_input (input u ++ l) u.
Proof.
  induction l as [|x l IH]; intros u; cbn [fold_left].
  - rewrite app_nil_r. destruct u; reflexivity.
  - rewrite IH. unfold AppendInput. cbn. rewrite <- app_assoc. reflexivity.
Qed.

(** X5.  The input supplied for a command is a queue.  After
    [ResetInput] and one [AppendInput] per string of [l], whatever input
    was there before, the k-th question of the engine ([InputData] or
    [Prompt]) is answered with the k-th string of [l], and with the empty
    string once [l] is used up; each answer is removed from the queue
    and nothing else of the client user changes. *)
Theorem input_is_a_queue
        (l : list string) (qs : list Question) (u : P4GoClientUser) :
  ask_all qs (supply l u)
  = (map (fun k => nth k l "") (seq 0 (length qs)),
     set_input (skipn (length qs) l) u).
Proof.
  unfold supply, ResetInput. rewrite input_fold_AppendInput.
  cbn [input set_input app].
  change (set_input l (set_input [] u)) with (set_input l u).
  revert l. induction qs as [|q qs IH]; intros l; [reflexivity|].
  cbn [ask_all length seq map].
  assert (Hask : ask q (set_input l u)
                 = (nth 0 l "", set_input (skipn 1 l) u)).
  { destruct q; destruct l; reflexivity. }
  rewrite Hask, IH. f_equal.
  - f_equal. rewrite <- seq_shift, map_map.
    apply map_ext. intros k. destruct l; [destruct k|]; reflexivity.
  - f_equal. destruct l; [rewrite !skipn_nil|]; reflexivity.
Qed.

End InputQueue.

(* ===================================================================== *)
(** ** The cache of spec definitions *)
(* ===================================================================== *)

Section SpecCache.

Import Results ClientUser ClientApi.

Variable E : SpecEngine.

Lemma GetVar_RemoveVar_other k k' d :
  k <> k' -> StrDict.GetVar k' (StrDict.RemoveVar k d) = StrDict.GetVar k' d.
Proof.
  intros Hk. induction d as [|[x v] d IH]; cbn; [reflexivity|].
  destruct (String.eqb_spec x k) as [->|Hx].
  - destruct (String.eqb_spec k k'); [contradiction|reflexivity].
  - cbn. destruct (String.eqb x k'); [reflexivity|exact IH].
Qed.

Lemma GetVar_app k (d1 d2 : StrDict.t) :
  StrDict.GetVar k (d1 ++ d2)
  = match StrDict.GetVar k d1 with
    | Some v => Some v
    | None => StrDict.GetVar k d2
    end.
Proof.
  induction d1 as [|[x v] d1 IH]; cbn; [reflexivity|].
  destruct (String.eqb x k); [reflexivity|exact IH].
Qed.

Lemma AddSpecDef_same type specDef m :
  StrDict.GetVar type (SpecMgr.specs (SpecMgr.AddSpecDef type specDef m))
  = Some specDef.
Proof. unfold SpecMgr.AddSpecDef. cbn. apply GetVar_SetVar_same. Qed.

Lemma AddSpecDef_other type specDef m t :
  type <> t ->
  StrDict.GetVar t (SpecMgr.specs (SpecMgr.AddSpecDef type specDef m))
  = StrDict.GetVar t (SpecMgr.specs m).
Proof.
  intros Ht. unfold SpecMgr.AddSpecDef. cbn.
  rewrite GetVar_SetVar_other by exact Ht.
  destruct (StrDict.has type (SpecMgr.specs m)); [|reflexivity].
  apply GetVar_RemoveVar_other, Ht.
Qed.

Lemma fold_AddSpecDef_lookup (t : string) (l : list (string * string)) :
  forall m,
    StrDict.GetVar t
      (SpecMgr.specs
         (fold_left (fun m sp => SpecMgr.AddSpecDef (fst sp) (snd sp) m) l m))
    = match StrDict.GetVar t (rev l) with
      | Some d => Some d
      | None => StrDict.GetVar t (SpecMgr.specs m)
      end.
Proof.
  induction l as [|[k v] l IH]; intros m; [reflexivity|].
  cbn [fold_left rev fst snd]. rewrite IH, GetVar_app.
  destruct (StrDict.GetVar t (rev l)); [reflexivity|].
  cbn [StrDict.GetVar].
  destruct (String.eqb_spec k t) as [->|Hk].
  - apply AddSpecDef_same.
  - apply AddSpecDef_other, Hk.
Qed.

(** A type has a last entry in a list exactly when it has a first one. *)
Lemma has_rev (t : string) (l : StrDict.t) :
  StrDict.has t (rev l) = StrDict.has t l.
Proof.
  unfold StrDict.has. induction l as [|[k v] l IH]; [reflexivity|].
  cbn [rev StrDict.GetVar]. rewrite GetVar_app. cbn [StrDict.GetVar].
  destruct (String.eqb k t).
  - destruct (StrDict.GetVar t (rev l)); reflexivity.
  - destruct (StrDict.GetVar t (rev l)), (StrDict.GetVar t l);
      cbn in IH |- *; congruence.
Qed.

(** X6.  The cache keeps the latest definition of each type.  After
    [AddSpecDef] for each entry of a list, in order, the definition found
    for a type is the one of its last entry in the list, and what the
    cache held before if the list has no entry for it.  So [Reset], which
    starts from the empty cache and adds the table of built-in
    definitions, knows exactly the types of the table. *)
Theorem cache_keeps_the_latest_definition
        (l : list (string * string)) (m : SpecMgr.P4GoSpecMgr) (t : string) :
  StrDict.GetVar t
    (SpecMgr.specs
       (fold_left (fun m sp => SpecMgr.AddSpecDef (fst sp) (snd sp) m) l m))
  = match StrDict.GetVar t (rev l) with
    | Some d => Some d
    | None => StrDict.GetVar t (SpecMgr.specs m)
    end
  /\ SpecMgr.HaveSpecDef t (SpecMgr.Reset l) = StrDict.has t l.
Proof.
  split; [apply fold_AddSpecDef_lookup|].
  rewrite <- has_rev.
  unfold SpecMgr.HaveSpecDef, SpecMgr.Reset, StrDict.has.
  rewrite fold_AddSpecDef_lookup.
  cbn [SpecMgr.specs StrDict.empty StrDict.GetVar].
  destruct (StrDict.GetVar t (rev l)); reflexivity.
Qed.

Lemma same_cache_refl u : same_cache u u.
Proof. split; reflexivity. Qed.

Lemma same_cache_trans u v w :
  same_cache u v -> same_cache v w -> same_cache u w.
Proof. unfold same_cache. intuition congruence. Qed.

Lemma ProcessOutput_Str_cache data binary u :
  same_cache u (ProcessOutput_Str data binary u).
Proof.
  unfold ProcessOutput_Str, CallOutputMethod_Str, after_call.
  destruct (handler u); [|split; reflexivity].
  destruct binary;
    repeat match goal with |- context [if ?b then _ else _] => destruct b end;
    split; reflexivity.
Qed.

Lemma ProcessOutput_Dict_cache d u : same_cache u (ProcessOutput_Dict d u).
Proof.
  unfold ProcessOutput_Dict, CallOutputMethod_Dict, after_call.
  destruct (handler u); [|split; reflexivity].
  repeat match goal with |- context [if ?b then _ else _] => destruct b end;
    split; reflexivity.
Qed.

Lemma ProcessOutput_Spec_cache s u : same_cache u (ProcessOutput_Spec s u).
Proof.
  unfold ProcessOutput_Spec. destruct (handler u); split; reflexivity.
Qed.

Lemma ProcessMessage_cache e u : same_cache u (ProcessMessage e u).
Proof.
  unfold ProcessMessage, CallOutputMethod_Error, after_call.
  destruct (handler u); [|split; reflexivity].
  repeat match goal with |- context [if ?b then _ else _] => destruct b end;
    split; reflexivity.
Qed.

Lemma OutputText_loop_cache data n : forall i p u,
  same_cache u (OutputText_loop data n i p u).
Proof.
  induction n as [|n IH]; intros i p u; cbn [OutputText_loop].
  - apply same_cache_refl.
  - destruct (is_char newline (char_at data i)); [|apply IH].
    destruct (p <? i)%nat.
    + eapply same_cache_trans; [|apply IH]. split; reflexivity.
    + eapply same_cache_trans; [apply (ProcessOutput_Str_cache data false u)|].
      split; reflexivity.
Qed.

(** What [OutputStat] does to the cache: nothing without a [specdef],
    and [AddSpecDef] under the name of the running command with one. *)
Lemma OutputStat_cache values u :
  cmd (OutputStat E values u) = cmd u
  /\ specMgr (OutputStat E values u)
     = match StrDict.GetVar "specdef" values with
       | Some sp => SpecMgr.AddSpecDef (cmd u) sp (specMgr u)
       | None => specMgr u
       end.
Proof.
  unfold OutputStat.
  set (u1 := match StrDict.GetVar "specdef" values with
             | Some sp => set_specMgr _ u | None => u end).
  assert (H1 : cmd u1 = cmd u
               /\ specMgr u1
                  = match StrDict.GetVar "specdef" values with
                    | Some sp => SpecMgr.AddSpecDef (cmd u) sp (specMgr u)
                    | None => specMgr u
                    end)
    by (subst u1; destruct (StrDict.GetVar "specdef" values); split;
        reflexivity).
  destruct H1 as [Hc Hm].
  match goal with
  | |- cmd ?b = _ /\ _ =>
      enough (Hs : same_cache u1 b)
        by (destruct Hs as [Hs1 Hs2]; rewrite Hs1, Hs2; split; assumption)
  end.
  destruct (StrDict.GetVar "specdef" values) as [sp|];
    [|apply ProcessOutput_Dict_cache].
  destruct (StrDict.GetVar "data" values) as [form|].
  - destruct (Spec_init E sp); [apply ProcessMessage_cache|].
    destruct (Spec_ParseNoValid E sp form);
      [apply ProcessMessage_cache|apply ProcessOutput_Spec_cache].
  - destruct (isspec values);
      [apply ProcessOutput_Spec_cache|apply ProcessOutput_Dict_cache].
Qed.

Lemma deliver_cache ev u :
  no_specdef ev = true -> same_cache u (deliver E ev u).
Proof.
  destruct ev as [data|data|values|e|e]; cbn [deliver no_specdef]; intros Hn.
  - unfold OutputText. destruct (is_track_text u data).
    + apply OutputText_loop_cache.
    + apply ProcessOutput_Str_cache.
  - apply ProcessOutput_Str_cache.
  - destruct (OutputStat_cache values u) as [Hc Hm].
    unfold StrDict.has in Hn.
    destruct (StrDict.GetVar "specdef" values); [discriminate|].
    split; assumption.
  - apply ProcessMessage_cache.
  - apply ProcessMessage_cache.
Qed.

Lemma deliver_all_cache evs : forall u,
  forallb no_specdef evs = true -> same_cache u (deliver_all E evs u).
Proof.
  induction evs as [|ev evs IH]; intros u Hn; cbn.
  - apply same_cache_refl.
  - cbn in Hn. apply andb_true_iff in Hn as [H1 H2].
    eapply same_cache_trans; [apply deliver_cache, H1|apply IH, H2].
Qed.

Lemma deliver_all_cmd evs : forall u, cmd (deliver_all E evs u) = cmd u.
Proof.
  induction evs as [|ev evs IH]; intros u; cbn; [reflexivity|].
  fold (deliver_all E evs (deliver E ev u)). rewrite IH.
  destruct ev as [data|data|values|e|e]; cbn [deliver].
  - unfold OutputText. destruct (is_track_text u data).
    + apply OutputText_loop_cache.
    + apply ProcessOutput_Str_cache.
  - apply ProcessOutput_Str_cache.
  - apply OutputStat_cache.
  - apply ProcessMessage_cache.
  - apply ProcessMessage_cache.
Qed.

(** X7.  A command teaches the session the spec of its type.  When the
    output of a command holds a record with a [specdef], and no later
    record of that output brings another, then after [Run] the cache
    holds that definition under the name of the command, and
    [FormatSpec] and [ParseSpec] for that name format and parse with
    it. *)
Theorem Run_learns_the_spec
        (speclist : list (string * string)) (R : EngineRun)
        (cmd : string) (argv : list string) (e : Msg.Error)
        (a : P4GoClientApi) (evs1 evs2 : list Event)
        (values : StrDict.t) (sp : string) :
  depth a = 0 ->
  connected a = true ->
  handler (ui a) = None \/ run_dropped R = false ->
  run_events R = evs1 ++ EvOutputStat values :: evs2 ->
  StrDict.GetVar "specdef" values = Some sp ->
  forallb no_specdef evs2 = true ->
  StrDict.GetVar cmd
    (SpecMgr.specs
       (specMgr (ui (fst (fst (ClientApi.Run E speclist R cmd argv e a))))))
  = Some sp
  /\ (Spec_init E sp = None ->
      (forall dict,
          ClientApi.FormatSpec E cmd dict
            (fst (fst (ClientApi.Run E speclist R cmd argv e a)))
          = (Some (Spec_Format E sp dict), Msg.empty))
      /\ (forall form,
             fst (ClientApi.ParseSpec E cmd form
                    (fst (fst (ClientApi.Run E speclist R cmd argv e a))))
             = match Spec_ParseNoValid E sp form with
               | inr table => Some {| Dict := table; extras := StrDict.empty |}
               | inl _ => None
               end)).
Proof.
  intros Hd Hc Hh Hev Hsp Hno.
  destruct (Run_plain E speclist R cmd argv e a Hd Hc Hh) as (a' & Hrun & Hui).
  rewrite Hrun. cbn [fst].
  assert (Hcache : StrDict.GetVar cmd (SpecMgr.specs (specMgr (ui a')))
                   = Some sp).
  { rewrite Hui, Hev, deliver_all_app.
    set (u1 := deliver_all E evs1 (SetCommand cmd (ClientUser.Reset (ui a)))).
    assert (Hcmd : ClientUser.cmd u1 = cmd)
      by (subst u1; rewrite deliver_all_cmd; reflexivity).
    change (deliver_all E (EvOutputStat values :: evs2) u1)
      with (deliver_all E evs2 (OutputStat E values u1)).
    destruct (deliver_all_cache evs2 (OutputStat E values u1) Hno) as [_ Hm].
    rewrite Hm.
    destruct (OutputStat_cache values u1) as [_ Hs].
    rewrite Hs, Hsp, Hcmd. apply AddSpecDef_same. }
  split; [exact Hcache|].
  intros Hinit.
  destruct (ParseSpec_FormatSpec_are_the_engine E a' cmd sp Hcache Hinit)
    as [Hparse Hformat].
  split; [exact Hformat|exact Hparse].
Qed.

End SpecCache.

(** X7 at a [client -o] whose record brings the spec definition and the
    form text. *)
Lemma Run_learns_the_spec_witness :
  StrDict.GetVar "specdef" client_record = Some "Client"
  /\ forallb no_specdef [EvMessage info_message] = true
  /\ ClientApi.FormatSpec one_field_engine "client" [("Client", "other")]
       (fst (fst (ClientApi.Run one_field_engine []
                    (engine_run [EvOutputStat client_record;
                                 EvMessage info_message])
                    "client" ["-o"] Msg.empty session0)))
     = (Some ("Client:" +:+ tab +:+ "other" +:+ nl), Msg.empty).
Proof.
  split; [reflexivity|]. split; [reflexivity|].
  destruct (Run_learns_the_spec one_field_engine []
              (engine_run [EvOutputStat client_record; EvMessage info_message])
              "client" ["-o"] Msg.empty session0
              [] [EvMessage info_message] client_record "Client"
              eq_refl eq_refl (or_introl eq_refl) eq_refl eq_refl eq_refl)
    as [_ H].
  destruct (H eq_refl) as [Hformat _].
  exact (Hformat [("Client", "other")]).
Defined.

(* ===================================================================== *)
(** ** Connecting, disconnecting and a dropped connection *)
(* ===================================================================== *)

Section Sessions.

Import Results ClientUser ClientApi.

Variable E : SpecEngine.
Variable speclist : list (string * string).

Lemma ClientUser_Reset_twice (u : P4GoClientUser) :
  ClientUser.Reset (ClientUser.Reset u) = ClientUser.Reset u.
Proof. unfold ClientUser.Reset. cbn. rewrite !Reset_is_new. reflexivity. Qed.

Lemma Disconnect_connected (R : EngineRun) (e : Msg.Error) (a : P4GoClientApi) :
  connected a = true ->
  Disconnect speclist R e a
  = (1,
     set_ui (ClientUser.Reset
               (set_specMgr (SpecMgr.Reset speclist) (ui (ResetFlags a))))
            (ResetFlags a),
     add_errors (run_final_errors R) e).
Proof.
  intros Hc. unfold Disconnect, IsConnected. rewrite Hc. reflexivity.
Qed.

Lemma HaveSpecDef_Reset (t : string) :
  SpecMgr.HaveSpecDef t (SpecMgr.Reset speclist) = StrDict.has t speclist.
Proof.
  rewrite <- has_rev.
  unfold SpecMgr.HaveSpecDef, SpecMgr.Reset, StrDict.has.
  rewrite fold_AddSpecDef_lookup.
  cbn [SpecMgr.specs StrDict.empty StrDict.GetVar].
  destruct (StrDict.GetVar t (rev speclist)); reflexivity.
Qed.

(** X8.  [Disconnect] on a connected session closes it for good: it
    returns 1, the session is not connected, holds no results and knows
    the built-in spec definitions only, so that [ParseSpec] for a type
    learnt from the server returns null.  A second [Disconnect] changes
    nothing and adds the warning that the session is not connected, and
    a [Run] is refused with the Failed line "Not connected" (when the
    exception level is not 0) without changing the session. *)
Theorem Disconnect_closes_the_session
        (R R' : EngineRun) (e e' : Msg.Error) (a : P4GoClientApi)
        (cmd : string) (argv : list string) (type form : string) :
  connected a = true ->
  depth a = 0 ->
  exists a1,
    Disconnect speclist R e a = (1, a1, add_errors (run_final_errors R) e)
    /\ connected a1 = false
    /\ results (ui a1) = Results.new
    /\ specMgr (ui a1) = SpecMgr.Reset speclist
    /\ (StrDict.has type speclist = false ->
        fst (ParseSpec E type form a1) = None)
    /\ Disconnect speclist R' e' a1
       = (1, a1, Msg.Set_ Msg.E_WARN "P4#disconnect - not connected" e')
    /\ (exceptionLevel a <> 0 ->
        ClientApi.Run E speclist R' cmd argv e' a1
        = (a1, None,
           Msg.Set_ Msg.E_FAILED
                    "P4#run - Not connected to a Perforce Server." e')).
Proof.
  intros Hc Hd.
  eexists. split; [apply Disconnect_connected, Hc|].
  split; [reflexivity|].
  split; [cbn; apply Reset_is_new|].
  split; [reflexivity|].
  split; [|split].
  - intros Hno. unfold ParseSpec.
    cbn [ui set_ui ClientUser.Reset set_alive set_results specMgr set_specMgr].
    rewrite HaveSpecDef_Reset, Hno. reflexivity.
  - reflexivity.
  - intros Hx. unfold ClientApi.Run.
    cbn [depth set_ui ResetFlags]. rewrite Hd. cbn [Z.eqb negb].
    unfold IsConnected.
    cbn [connected set_ui ResetFlags exceptionLevel negb andb ui].
    rewrite ClientUser_Reset_twice.
    destruct (Z.eqb_spec (exceptionLevel a) 0); [contradiction|].
    reflexivity.
Qed.


(** X10.  Connecting twice.  Once [Connect] has returned true the
    session is connected, and every further [Connect] returns true
    again together with a non-nil error: the warning that the client
    is already connected.  The session is left as it is. *)
Theorem Connect_again_only_warns (R R' : EngineRun) (a : P4GoClientApi) :
  snd (fst (Connection.P4_Connect R a)) = true ->
  connected (fst (fst (Connection.P4_Connect R a))) = true
  /\ exists err,
      Connection.P4_Connect R' (fst (fst (Connection.P4_Connect R a)))
      = (fst (fst (Connection.P4_Connect R a)), true, Some err)
      /\ P4.msg_severity err = Msg.E_WARN
      /\ map P4.line_fmt (P4.lines err)
         = ["P4#connect - Perforce client already connected!"].
Proof.
  intros Hok.
  assert (Hconn : connected (fst (fst (Connection.P4_Connect R a))) = true).
  { revert Hok. unfold Connection.P4_Connect, Connection.Connect, IsConnected.
    destruct (connected a) eqn:Hc; [intros _; exact Hc|].
    unfold ConnectOrReconnect.
    match goal with |- context [if Msg.Test ?x then _ else _] =>
      destruct (Msg.Test x) end; cbn; [discriminate|reflexivity]. }
  split; [exact Hconn|].
  set (a1 := fst (fst (Connection.P4_Connect R a))) in *.
  unfold Connection.P4_Connect at 1, Connection.Connect, IsConnected.
  rewrite Hconn. eexists. split; [reflexivity|]. split; reflexivity.
Qed.

(** X11.  [Connected] answers 1 exactly when the session is connected
    and the connection has not dropped.  Whenever it answers 0 the
    session is not connected afterwards: a dropped connection is closed
    on the spot.  Asking again gives the same answer and changes nothing
    more. *)
Theorem Connected_settles_the_session (R : EngineRun) (a : P4GoClientApi) :
  fst (Connection.Connected speclist R a)
  = (if connected a && negb (run_dropped R) then 1 else 0)
  /\ (fst (Connection.Connected speclist R a) = 0 ->
      connected (snd (Connection.Connected speclist R a)) = false)
  /\ Connection.Connected speclist R (snd (Connection.Connected speclist R a))
     = Connection.Connected speclist R a.
Proof.
  unfold Connection.Connected, IsConnected.
  destruct (connected a) eqn:Hc; cbn [andb].
  - destruct (run_dropped R) eqn:Hdrop; cbn [negb].
    + rewrite (Disconnect_connected R Msg.empty a Hc). cbn [fst snd].
      split; [reflexivity|]. split; [reflexivity|]. reflexivity.
    + cbn [fst snd]. rewrite Hc. cbn [andb].
      split; [reflexivity|]. split; [discriminate|reflexivity].
  - cbn [fst snd]. rewrite Hc. cbn [andb].
    split; [reflexivity|]. split; [reflexivity|reflexivity].
Qed.

End Sessions.

(** X8 at a connected session without built-in definitions. *)
Lemma Disconnect_closes_the_session_witness :
  ClientApi.connected session0 = true
  /\ ClientApi.depth session0 = 0
  /\ StrDict.has "client" [] = false
  /\ exists a1,
      ClientApi.Disconnect [] (engine_run []) Msg.empty session0
      = (1, a1, Msg.empty)
      /\ fst (ClientApi.ParseSpec one_field_engine "client" "" a1) = None.
Proof.
  split; [reflexivity|]. split; [reflexivity|]. split; [reflexivity|].
  destruct (Disconnect_closes_the_session one_field_engine []
              (engine_run []) (engine_run []) Msg.empty Msg.empty session0
              "info" [] "client" "" eq_refl eq_refl)
    as (a1 & H1 & _ & _ & _ & H5 & _).
  exists a1. split; [exact H1|exact (H5 eq_refl)].
Defined.


(** X10 at a new session whose engine connects without error. *)
Lemma Connect_again_only_warns_witness :
  snd (fst (Connection.P4_Connect (engine_run []) (ClientApi.new []))) = true
  /\ exists err,
      Connection.P4_Connect (engine_run [])
        (fst (fst (Connection.P4_Connect (engine_run []) (ClientApi.new []))))
      = (fst (fst (Connection.P4_Connect (engine_run []) (ClientApi.new []))),
         true, Some err)
      /\ P4.msg_severity err = Msg.E_WARN.
Proof.
  split; [reflexivity|].
  destruct (Connect_again_only_warns (engine_run []) (engine_run [])
              (ClientApi.new []) eq_refl)
    as (_ & err & H1 & H2 & _).
  exists err. split; [exact H1|exact H2].
Defined.

(** X11 at a connected session whose connection has dropped. *)
Lemma Connected_settles_the_session_witness :
  fst (Connection.Connected [] (dropped_run []) session0) = 0
  /\ ClientApi.connected
       (snd (Connection.Connected [] (dropped_run []) session0)) = false.
Proof.
  split; [reflexivity|].
  exact (proj1 (proj2 (Connected_settles_the_session [] (dropped_run [])
                         session0)) eq_refl).
Defined.

(* ===================================================================== *)
(** ** Fetching and deleting specs *)
(* ===================================================================== *)

Section GoWrappers.

Import P4 GoRun.

Variable E : SpecEngine.
Variable speclist : list (string * string).

Lemma fetch_scan_skips (pre : list P4Result) : forall rest run_err,
  forallb fetch_skips pre = true ->
  fetch_scan (pre ++ rest) run_err = fetch_scan rest run_err.
Proof.
  induction pre as [|r pre IH]; intros rest run_err Hpre; [reflexivity|].
  cbn in Hpre. apply andb_true_iff in Hpre as [Hr Hpre].
  destruct r as [s|s|d|v]; cbn in Hr |- *; try (apply IH, Hpre).
  - discriminate.
  - apply negb_true_iff in Hr. rewrite Hr. apply IH, Hpre.
Qed.

Lemma message_scan_skips (pre : list P4Result) : forall rest run_err,
  forallb delete_skips pre = true ->
  message_scan (pre ++ rest) run_err = message_scan rest run_err.
Proof.
  induction pre as [|r pre IH]; intros rest run_err Hpre; [reflexivity|].
  cbn in Hpre. apply andb_true_iff in Hpre as [Hr Hpre].
  destruct r as [s|s|d|v]; cbn in Hr |- *; try (apply IH, Hpre).
  apply negb_true_iff in Hr.
  unfold is_failure, P4MESSAGE_FAILED, P4MESSAGE_FATAL, P4MESSAGE_INFO,
    P4MESSAGE_WARN.
  destruct (Z.eqb_spec (msg_severity v) 3);
    [rewrite (proj2 (andb_true_iff _ _)) in Hr; [discriminate|split; lia]|].
  destruct (Z.eqb_spec (msg_severity v) 4);
    [rewrite (proj2 (andb_true_iff _ _)) in Hr; [discriminate|split; lia]|].
  destruct (Z.eqb_spec (msg_severity v) 1);
    [rewrite (proj2 (andb_true_iff _ _)) in Hr; [discriminate|split; lia]|].
  destruct (Z.eqb_spec (msg_severity v) 2);
    [rewrite (proj2 (andb_true_iff _ _)) in Hr; [discriminate|split; lia]|].
  cbn [orb]. apply IH, Hpre.
Qed.

(** X12.  Of the results of its run, the first decisive one decides
    what [RunFetch] returns.  Passing over texts, track lines and
    messages that are not Failed or Fatal, it returns the first
    dictionary together with the error of the run, and looks no
    further: a failure reported after that dictionary is not
    returned.  If a Failed or Fatal message comes
    first, it returns no dictionary and an error that joins the error of
    the run and that message.  If neither comes, it returns no
    dictionary and the error of the run. *)
Theorem RunFetch_first_decisive_result
        (R : EngineRun) (spec : string) (args : list string)
        (a : ClientApi.P4GoClientApi) (raw pre : list P4Result) :
  snd (fst (Run E speclist R spec ("-o" :: args) a)) = Some raw ->
  forallb fetch_skips pre = true ->
  (forall d post,
      raw = pre ++ Dictionary d :: post ->
      snd (RunFetch E speclist R spec args a)
      = Some (Some d,
              ErrMessage <$> snd (Run E speclist R spec ("-o" :: args) a)))
  /\ (forall m post,
         raw = pre ++ Message m :: post ->
         is_failure m = true ->
         snd (RunFetch E speclist R spec args a)
         = Some (None,
                 errors_Join
                   [snd (Run E speclist R spec ("-o" :: args) a); Some m]))
  /\ (raw = pre ->
      snd (RunFetch E speclist R spec args a)
      = Some (None,
              ErrMessage <$> snd (Run E speclist R spec ("-o" :: args) a)))
  /\ fst (RunFetch E speclist R spec args a)
     = fst (fst (Run E speclist R spec ("-o" :: args) a)).
Proof.
  intros Hraw Hpre. unfold RunFetch.
  destruct (Run E speclist R spec ("-o" :: args) a) as [[a' raw'] run_err].
  cbn [fst snd] in *. subst raw'. cbn [fmap option_fmap option_map].
  split; [|split; [|split]].
  - intros d post ->. rewrite fetch_scan_skips by exact Hpre. reflexivity.
  - intros m post -> Hm. rewrite fetch_scan_skips by exact Hpre.
    cbn [fetch_scan]. rewrite Hm. reflexivity.
  - intros ->. rewrite <- (app_nil_r pre), fetch_scan_skips by exact Hpre.
    reflexivity.
  - reflexivity.
Qed.

(** X13.  Of the results of its run, only messages decide what
    [RunDelete] returns: passing over everything that is not a message
    of severity Info, Warn, Failed or Fatal, it returns the first Info
    or Warn message together with the error of the run, or, if a Failed
    or Fatal message comes first, no message and an error that joins
    the error of the run and that message.  Without such a message it
    returns no message and the error of the run. *)
Theorem RunDelete_first_message_decides
        (R : EngineRun) (spec : string) (args : list string)
        (a : ClientApi.P4GoClientApi) (raw pre : list P4Result) :
  snd (fst (Run E speclist R spec (delete_args spec args) a)) = Some raw ->
  forallb delete_skips pre = true ->
  (forall m post,
      raw = pre ++ Message m :: post ->
      msg_severity m = P4MESSAGE_INFO \/ msg_severity m = P4MESSAGE_WARN ->
      snd (RunDelete E speclist R spec args a)
      = Some (Some m,
              ErrMessage
                <$> snd (Run E speclist R spec (delete_args spec args) a)))
  /\ (forall m post,
         raw = pre ++ Message m :: post ->
         is_failure m = true ->
         snd (RunDelete E speclist R spec args a)
         = Some (None,
                 errors_Join
                   [snd (Run E speclist R spec (delete_args spec args) a);
                    Some m]))
  /\ (raw = pre ->
      snd (RunDelete E speclist R spec args a)
      = Some (None,
              ErrMessage
                <$> snd (Run E speclist R spec (delete_args spec args) a)))
  /\ fst (RunDelete E speclist R spec args a)
     = fst (fst (Run E speclist R spec (delete_args spec args) a)).
Proof.
  intros Hraw Hpre. unfold RunDelete.
  destruct (Run E speclist R spec (delete_args spec args) a)
    as [[a' raw'] run_err].
  cbn [fst snd] in *. subst raw'. cbn [fmap option_fmap option_map].
  split; [|split; [|split]].
  - intros m post -> Hm. rewrite message_scan_skips by exact Hpre.
    cbn [message_scan].
    unfold is_failure, P4MESSAGE_FAILED, P4MESSAGE_FATAL, P4MESSAGE_INFO,
      P4MESSAGE_WARN in *.
    destruct Hm as [-> | ->]; reflexivity.
  - intros m post -> Hm. rewrite message_scan_skips by exact Hpre.
    cbn [message_scan]. rewrite Hm. reflexivity.
  - intros ->. rewrite <- (app_nil_r pre), message_scan_skips by exact Hpre.
    reflexivity.
  - reflexivity.
Qed.

End GoWrappers.

(** X12 at a fetch whose output is an Info message, the spec and then a
    Failed message. *)
Lemma RunFetch_first_decisive_result_witness :
  snd (fst (P4.Run one_field_engine []
              (engine_run [EvMessage info_message; EvOutputStat record1;
                           EvMessage failed_message])
              "client" ("-o" :: []) session0))
  = Some ([P4.Message (P4.goMessage info_message)]
            ++ P4.Dictionary (P4.dict_of_pairs record1)
            :: [P4.Message (P4.goMessage failed_message)])
  /\ forallb fetch_skips [P4.Message (P4.goMessage info_message)] = true
  /\ snd (GoRun.RunFetch one_field_engine []
            (engine_run [EvMessage info_message; EvOutputStat record1;
                         EvMessage failed_message])
            "client" [] session0)
     = Some (Some (P4.dict_of_pairs record1), None).
Proof.
  split; [reflexivity|]. split; [reflexivity|].
  exact (proj1 (RunFetch_first_decisive_result one_field_engine []
                  (engine_run [EvMessage info_message; EvOutputStat record1;
                               EvMessage failed_message])
                  "client" [] session0 _
                  [P4.Message (P4.goMessage info_message)]
                  eq_refl eq_refl)
               (P4.dict_of_pairs record1)
               [P4.Message (P4.goMessage failed_message)] eq_refl).
Defined.

(** X13 at the deletion of a shelf that the server refuses. *)
Lemma RunDelete_first_message_decides_witness :
  snd (fst (P4.Run one_field_engine []
              (engine_run [EvOutputText "note"; EvMessage failed_message])
              "shelve" (GoRun.delete_args "shelve" ["42"]) session0))
  = Some ([P4.P4Data "note"]
            ++ P4.Message (P4.goMessage failed_message) :: [])
  /\ forallb delete_skips [P4.P4Data "note"] = true
  /\ P4.is_failure (P4.goMessage failed_message) = true
  /\ snd (GoRun.RunDelete one_field_engine []
            (engine_run [EvOutputText "note"; EvMessage failed_message])
            "shelve" ["42"] session0)
     = Some (None, P4.errors_Join [None; Some (P4.goMessage failed_message)]).
Proof.
  split; [reflexivity|]. split; [reflexivity|]. split; [reflexivity|].
  exact (proj1 (proj2 (RunDelete_first_message_decides one_field_engine []
                  (engine_run [EvOutputText "note"; EvMessage failed_message])
                  "shelve" ["42"] session0 _
                  [P4.P4Data "note"] eq_refl eq_refl))
               (P4.goMessage failed_message) [] eq_refl eq_refl).
Defined.

(* ===================================================================== *)
(** ** The Go values of records and messages *)
(* ===================================================================== *)

Section GoValues.

Import Results ClientUser.

Variable E : SpecEngine.





Lemma SetVar_keys_NoDup k v (d : StrDict.t) :
  List.NoDup (map fst d) -> List.NoDup (map fst (StrDict.SetVar k v d)).
Proof.
  induction d as [|[x w] d IH]; intros Hd; cbn.
  - constructor; [intros []|constructor].
  - inversion Hd as [|? ? Hx Hd']; subst.
    destruct (String.eqb_spec x k) as [->|Hne]; cbn; [exact Hd|].
    constructor; [|apply IH, Hd'].
    intros Hin. apply Hx. clear -Hin Hne.
    induction d as [|[y z] d IH]; cbn in *.
    + destruct Hin as [Heq|[]]. congruence.
    + destruct (String.eqb_spec y k) as [->|Hy]; cbn in Hin.
      * exact Hin.
      * destruct Hin as [Heq|Hin]; [left; exact Heq|right; apply IH, Hin].
Qed.

Lemma plain_dict_fold (k : string) (d : StrDict.t) : forall nd,
  List.NoDup (map fst d) ->
  List.NoDup (map fst nd) ->
  let r := fold_left
             (fun ndict kv =>
                if is_housekeeping (fst kv) then ndict
                else StrDict.SetVar (fst kv) (snd kv) ndict) d nd in
  List.NoDup (map fst r)
  /\ StrDict.GetVar k r
     = match (if is_housekeeping k then None else StrDict.GetVar k d) with
       | Some v => Some v
       | None => StrDict.GetVar k nd
       end.
Proof.
  induction d as [|[x v] d IH]; intros nd Hd Hnd.
  { cbn. split; [exact Hnd|]. destruct (is_housekeeping k); reflexivity. }
  inversion Hd as [|? ? Hx Hd']; subst.
  cbn [fold_left fst snd].
  destruct (is_housekeeping x) eqn:Hhx.
  - destruct (IH nd Hd' Hnd) as [Hn Hg]. split; [exact Hn|].
    cbn zeta in Hg. rewrite Hg. cbn [StrDict.GetVar].
    destruct (String.eqb_spec x k) as [->|Hne]; [|reflexivity].
    rewrite Hhx. reflexivity.
  - destruct (IH (StrDict.SetVar x v nd) Hd' (SetVar_keys_NoDup x v nd Hnd))
      as [Hn Hg].
    split; [exact Hn|]. cbn zeta in Hg. rewrite Hg. cbn [StrDict.GetVar].
    destruct (String.eqb_spec x k) as [->|Hne].
    + rewrite Hhx.
      destruct (StrDict.GetVar k d) eqn:Hkd.
      * exfalso. apply Hx. apply GetVar_In. congruence.
      * apply GetVar_SetVar_same.
    + rewrite GetVar_SetVar_other by exact Hne. reflexivity.
Qed.

Lemma c_keys_SetVar (k v : string) (d : StrDict.t) :
  Cgo.has_nul k = false -> c_keys d = true ->
  c_keys (StrDict.SetVar k v d) = true.
Proof.
  intros Hk. unfold c_keys.
  induction d as [|[x w] d IH]; intros Hd; cbn [StrDict.SetVar forallb fst].
  - rewrite Hk. reflexivity.
  - cbn [forallb fst] in Hd. apply andb_true_iff in Hd as [Hx Hd].
    destruct (String.eqb x k); cbn [forallb fst]; rewrite Hx; cbn [andb];
      [exact Hd|apply IH, Hd].
Qed.

Lemma c_keys_plain_dict (d : StrDict.t) :
  c_keys d = true -> c_keys (plain_dict d) = true.
Proof.
  unfold plain_dict.
  assert (H : forall nd, c_keys d = true -> c_keys nd = true ->
                c_keys (fold_left
                          (fun ndict kv =>
                             if is_housekeeping (fst kv) then ndict
                             else StrDict.SetVar (fst kv) (snd kv) ndict)
                          d nd) = true).
  { induction d as [|[x v] d IH]; intros nd Hd Hnd; [exact Hnd|].
    cbn [c_keys forallb fst] in Hd. apply andb_true_iff in Hd as [Hx Hd].
    apply negb_true_iff in Hx. cbn [fold_left fst snd].
    destruct (is_housekeeping x); apply IH; try assumption.
    apply c_keys_SetVar; assumption. }
  intros Hd. apply H; [exact Hd|reflexivity].
Qed.

Lemma dict_of_pairs_lookup (k : string) (l : StrDict.t) :
  forall (m : gmap string string),
    List.NoDup (map fst l) ->
    c_keys l = true ->
    fold_left
      (fun d kv => <[Cgo.GoString (fst kv) := Cgo.GoString (snd kv)]> d) l m
    !! k
    = match StrDict.GetVar k l with
      | Some v => Some (Cgo.GoString v)
      | None => m !! k
      end.
Proof.
  induction l as [|[x v] l IH]; intros m Hl Hc; [reflexivity|].
  inversion Hl as [|? ? Hx Hl']; subst.
  cbn [c_keys forallb fst] in Hc. apply andb_true_iff in Hc as [Hxc Hc].
  apply negb_true_iff in Hxc.
  cbn [fold_left fst snd StrDict.GetVar]. rewrite (GoString_whole _ Hxc).
  rewrite IH by assumption.
  destruct (String.eqb_spec x k) as [->|Hne].
  - destruct (StrDict.GetVar k l) eqn:Hkl.
    + exfalso. apply Hx. apply GetVar_In. congruence.
    + apply lookup_insert_eq.
  - destruct (StrDict.GetVar k l); [reflexivity|].
    apply lookup_insert_ne, Hne.
Qed.

(** X15.  A record without spec definition, arriving at a client user
    without handler, is stored as one Record unit, and the dictionary
    that [Run] of p4.go builds from that unit holds every variable of
    the record, except [specdef], [func] and [specFormatted], which it
    does not hold; the value it holds is the value of the record up to
    its first NUL.  (The variables of an engine record are distinct C
    strings.) *)
Theorem record_reaches_go_without_housekeeping
        (values : StrDict.t) (u : P4GoClientUser) :
  List.NoDup (map fst values) ->
  c_keys values = true ->
  handler u = None ->
  StrDict.GetVar "specdef" values = None ->
  exists m,
    items (results (OutputStat E values u))
    = items (results u) ++ [record_unit (plain_dict values)]
    /\ P4.goResult (record_unit (plain_dict values)) = Some (P4.Dictionary m)
    /\ forall k,
        m !! k = if is_housekeeping k then None
                 else Cgo.GoString <$> StrDict.GetVar k values.
Proof.
  intros Hnd Hkeys Hh Hspec.
  exists (P4.dict_of_pairs (plain_dict values)).
  split; [|split; [reflexivity|]].
  - unfold OutputStat. rewrite Hspec.
    unfold ProcessOutput_Dict. rewrite Hh. reflexivity.
  - intros k.
    destruct (plain_dict_fold k values StrDict.empty Hnd (List.NoDup_nil _))
      as [Hn Hg].
    cbn zeta in Hn, Hg. fold (plain_dict values) in Hn, Hg.
    unfold P4.dict_of_pairs.
    rewrite dict_of_pairs_lookup
      by (try exact Hn; apply c_keys_plain_dict, Hkeys).
    rewrite Hg. cbn [StrDict.GetVar StrDict.empty].
    destruct (is_housekeeping k); [reflexivity|].
    destruct (StrDict.GetVar k values); reflexivity.
Qed.

End GoValues.


(** X15 at a record of [fstat] that also names its function. *)
Lemma record_reaches_go_without_housekeeping_witness :
  List.NoDup (map fst (("func", "client-FstatInfo") :: record1))
  /\ c_keys (("func", "client-FstatInfo") :: record1) = true
  /\ ClientUser.handler user0 = None
  /\ StrDict.GetVar "specdef" (("func", "client-FstatInfo") :: record1) = None
  /\ exists m,
      P4.goResult
        (record_unit
           (ClientUser.plain_dict (("func", "client-FstatInfo") :: record1)))
      = Some (P4.Dictionary m)
      /\ m !! "func" = None
      /\ m !! "depotFile" = Some "//depot/foo".
Proof.
  assert (Hnd : List.NoDup (map fst (("func", "client-FstatInfo") :: record1))).
  { repeat constructor; cbn; intuition discriminate. }
  split; [exact Hnd|]. split; [reflexivity|]. split; [reflexivity|].
  split; [reflexivity|].
  destruct (record_reaches_go_without_housekeeping one_field_engine
              (("func", "client-FstatInfo") :: record1) user0
              Hnd eq_refl eq_refl eq_refl)
    as (m & _ & Hgo & Hm).
  exists m. split; [exact Hgo|]. split; [exact (Hm "func")|].
  exact (Hm "depotFile").
Defined.

(* ===================================================================== *)
(** ** Track output *)
(* ===================================================================== *)

Section TrackOutput.

Import Results ClientUser.

Lemma get_append_left (a b : string) (n : nat) :
  (n < String.length a)%nat -> String.get n (a +:+ b) = String.get n a.
Proof.
  revert n. induction a as [|c a IH]; intros n Hn; cbn in Hn; [lia|].
  rewrite append_cons. destruct n as [|n]; cbn; [reflexivity|].
  apply IH. lia.
Qed.

Lemma no_newline_get (s : string) : forall n,
  no_newline s = true -> is_char newline (char_at s n) = false.
Proof.
  unfold no_newline, char_at.
  induction s as [|c s IH]; intros n Hs; [reflexivity|].
  cbn in Hs. apply andb_true_iff in Hs as [Hc Hs].
  destruct n as [|n]; cbn.
  - apply negb_true_iff. exact Hc.
  - apply IH, Hs.
Qed.

Lemma no_newline_append (a b : string) :
  no_newline a = true -> no_newline b = true -> no_newline (a +:+ b) = true.
Proof.
  unfold no_newline. intros Ha Hb.
  induction a as [|c a IH]; [exact Hb|].
  rewrite append_cons. cbn in Ha |- *.
  apply andb_true_iff in Ha as [Hc Ha]. rewrite Hc. cbn. apply IH, Ha.
Qed.

Lemma substring_skip (a s : string) (n : nat) :
  String.substring (String.length a) n (a +:+ s) = String.substring 0 n s.
Proof.
  induction a as [|c a IH]; [reflexivity|].
  rewrite append_cons. cbn. exact IH.
Qed.

(** The loop passes over characters that are not newlines. *)
Lemma OutputText_loop_skip (data : string) : forall k n i p u,
  (forall j, (j < k)%nat ->
             is_char newline (char_at data (i + j)) = false) ->
  OutputText_loop data (k + n) i p u = OutputText_loop data n (i + k) p u.
Proof.
  induction k as [|k IH]; intros n i p u Hk.
  { rewrite Nat.add_0_r. reflexivity. }
  cbn [Nat.add OutputText_loop].
  pose proof (Hk 0%nat ltac:(lia)) as H0. rewrite Nat.add_0_r in H0.
  rewrite H0, IH.
  - f_equal. lia.
  - intros j Hj. replace (S i + j)%nat with (i + S j)%nat by lia.
    apply Hk. lia.
Qed.

(** One line: from the start [i] of what precedes its text (nothing for
    the first line, the marker for the others) to behind its newline. *)
Lemma OutputText_loop_line (pre m l tail : string) (u : P4GoClientUser) :
  no_newline m = true ->
  track_line l = true ->
  OutputText_loop (pre +:+ m +:+ l +:+ nl +:+ tail)
                  (String.length m + String.length l + 1 + String.length tail)
                  (String.length pre)
                  (String.length pre + String.length m) u
  = OutputText_loop (pre +:+ m +:+ l +:+ nl +:+ tail)
                    (String.length tail)
                    (String.length (pre +:+ m +:+ l +:+ nl))
                    (String.length (pre +:+ m +:+ l +:+ nl) + 4)
                    (set_results (AddTrack l (results u)) u).
Proof.
  intros Hm Hl. unfold track_line in Hl.
  apply andb_true_iff in Hl as [Hne Hl].
  set (data := pre +:+ m +:+ l +:+ nl +:+ tail).
  replace (String.length m + String.length l + 1 + String.length tail)%nat
    with (String.length (m +:+ l) + S (String.length tail))%nat
    by (rewrite length_append; lia).
  rewrite OutputText_loop_skip.
  2:{ intros j Hj. unfold data, char_at.
      rewrite get_append_right.
      rewrite <- (append_assoc m l (nl +:+ tail)).
      rewrite get_append_left by exact Hj.
      apply (no_newline_get (m +:+ l) j).
      apply no_newline_append; assumption. }
  cbn [OutputText_loop].
  assert (Hnl : is_char newline
                  (char_at data (String.length pre + String.length (m +:+ l)))
                = true).
  { unfold data, char_at. rewrite get_append_right.
    rewrite <- (append_assoc m l (nl +:+ tail)).
    rewrite <- (Nat.add_0_r (String.length (m +:+ l))).
    rewrite get_append_right. reflexivity. }
  rewrite Hnl.
  assert (Hlen : (0 < String.length l)%nat).
  { destruct l; [discriminate|cbn; lia]. }
  assert (Hlt : (String.length pre + String.length m
                 <? String.length pre + String.length (m +:+ l))%nat = true).
  { apply Nat.ltb_lt. rewrite length_append. lia. }
  rewrite Hlt.
  assert (Hsub : String.substring
                   (String.length pre + String.length m)
                   (String.length pre + String.length (m +:+ l)
                    - (String.length pre + String.length m)) data = l).
  { rewrite length_append.
    replace (String.length pre + (String.length m + String.length l)
             - (String.length pre + String.length m))%nat
      with (String.length l) by lia.
    unfold data. rewrite <- length_append.
    rewrite <- (append_assoc pre m (l +:+ nl +:+ tail)).
    rewrite substring_skip. apply substring_prefix. }
  rewrite Hsub.
  f_equal.
  - rewrite !length_append. cbn. lia.
  - rewrite !length_append. cbn. lia.
Qed.

(** The lines behind the first: each starts with its marker. *)
Lemma OutputText_loop_lines (ls : list string) : forall pre rest u,
  forallb track_line ls = true ->
  no_newline rest = true ->
  OutputText_loop (pre +:+ track_text ls rest)
                  (String.length (track_text ls rest))
                  (String.length pre) (String.length pre + 4) u
  = set_results (fold_left (fun r l => AddTrack l r) ls (results u)) u.
Proof.
  induction ls as [|l ls IH]; intros pre rest u Hls Hrest.
  - cbn [track_text fold_right fold_left].
    rewrite <- (Nat.add_0_r (String.length rest)).
    rewrite OutputText_loop_skip.
    + cbn [OutputText_loop]. destruct u; reflexivity.
    + intros j _. unfold char_at. rewrite get_append_right.
      apply (no_newline_get rest j Hrest).
  - cbn in Hls. apply andb_true_iff in Hls as [Hl Hls].
    cbn [track_text fold_right fold_left].
    fold (track_text ls rest).
    pose proof (OutputText_loop_line pre "--- " l (track_text ls rest) u
                  eq_refl Hl) as Hline.
    replace (String.length ("--- " +:+ l +:+ nl +:+ track_text ls rest))
      with (String.length "--- " + String.length l + 1
            + String.length (track_text ls rest))%nat
      by (rewrite !length_append; cbn; lia).
    change (String.length pre + 4)%nat
      with (String.length pre + String.length "--- ")%nat.
    rewrite Hline.
    replace (pre +:+ "--- " +:+ l +:+ nl +:+ track_text ls rest)
      with ((pre +:+ "--- " +:+ l +:+ nl) +:+ track_text ls rest)
      by (rewrite !append_assoc; reflexivity).
    rewrite IH by assumption. reflexivity.
Qed.

(** X16.  In track mode, a text made of lines that each follow the
    marker ["--- "] and end in a newline is stored as one Track unit
    per line, holding the line without marker and newline.  The handler
    is not asked, no Text unit is stored, and what follows the last
    newline, the beginning of a line that is not ended, is dropped. *)
Theorem track_text_becomes_track_units
        (u : P4GoClientUser) (l0 : string) (ls : list string) (rest : string) :
  track u = true ->
  forallb track_line (l0 :: ls) = true ->
  no_newline rest = true ->
  OutputText (track_text (l0 :: ls) rest) u
  = set_results
      (fold_left (fun r l => AddTrack l r) (l0 :: ls) (results u)) u.
Proof.
  intros Ht Hls Hrest.
  cbn in Hls. apply andb_true_iff in Hls as [Hl0 Hls].
  assert (Hne : exists c l0', l0 = String c l0').
  { unfold track_line in Hl0. destruct l0 as [|c l0']; [discriminate|].
    eauto. }
  unfold OutputText.
  assert (Hguard : is_track_text u (track_text (l0 :: ls) rest) = true).
  { destruct Hne as (c & l0' & ->).
    unfold is_track_text. rewrite Ht. reflexivity. }
  rewrite Hguard.
  cbn [track_text fold_right fold_left]. fold (track_text ls rest).
  (* the first line: its text starts at 4, behind the marker *)
  pose proof (OutputText_loop_line "--- " "" l0 (track_text ls rest) u
                eq_refl Hl0) as Hline.
  replace (String.length ("--- " +:+ l0 +:+ nl +:+ track_text ls rest) - 4)%nat
    with (String.length "" + String.length l0 + 1
          + String.length (track_text ls rest))%nat
    by (rewrite !length_append; cbn; lia).
  change 4%nat with (String.length "--- ") at 1.
  change 4%nat with (String.length "--- " + String.length "")%nat.
  change ("--- " +:+ l0 +:+ nl +:+ track_text ls rest)
    with ("--- " +:+ "" +:+ l0 +:+ nl +:+ track_text ls rest).
  rewrite Hline.
  replace ("--- " +:+ "" +:+ l0 +:+ nl +:+ track_text ls rest)
    with (("--- " +:+ "" +:+ l0 +:+ nl) +:+ track_text ls rest)
    by (rewrite !append_assoc; reflexivity).
  rewrite OutputText_loop_lines by assumption.
  reflexivity.
Qed.

End TrackOutput.

(** X16 at two track lines and the beginning of a third. *)
Lemma track_text_becomes_track_units_witness :
  ClientUser.track (ClientUser.SetTrack true user0) = true
  /\ forallb track_line ["rpc msgs 2"; "db.rev 1"] = true
  /\ no_newline "--- lapse" = true
  /\ Results.items
       (ClientUser.results
          (ClientUser.OutputText
             (track_text ["rpc msgs 2"; "db.rev 1"] "--- lapse")
             (ClientUser.SetTrack true user0)))
     = [track_unit "rpc msgs 2"; track_unit "db.rev 1"].
Proof.
  split; [reflexivity|]. split; [reflexivity|]. split; [reflexivity|].
  rewrite (track_text_becomes_track_units (ClientUser.SetTrack true user0)
             "rpc msgs 2" ["db.rev 1"] "--- lapse" eq_refl eq_refl eq_refl).
  reflexivity.
Defined.

(* ===================================================================== *)
(** ** Fetching a spec, from the engine to the Go caller *)
(* ===================================================================== *)

Section FetchEndToEnd.

Import Results ClientUser ClientApi.

Variable E : SpecEngine.
Variable speclist : list (string * string).

(** What [RunFetch] sees when the engine answers with one record that
    brings a spec definition and the form text. *)
Lemma fetch_of_form (R : EngineRun) (spec : string) (args : list string)
      (a : P4GoClientApi) (values : StrDict.t) (sp form : string) :
  depth a = 0 ->
  connected a = true ->
  handler (ui a) = None ->
  run_events R = [EvOutputStat values] ->
  StrDict.GetVar "specdef" values = Some sp ->
  StrDict.GetVar "data" values = Some form ->
  exists a',
    P4.Run E speclist R spec ("-o" :: args) a
    = (a',
       mapM P4.goResult
         (match Spec_init E sp with
          | Some e => stored (CbMessage e)
          | None =>
              match Spec_ParseNoValid E sp form with
              | inl e => stored (CbMessage e)
              | inr table => [spec_unit (SpecMgr.StrDictToSpec E table sp)]
              end
          end),
       None)
    /\ specMgr (ui a')
       = SpecMgr.AddSpecDef spec sp (specMgr (ui a)).
Proof.
  intros Hd Hc Hh Hev Hsp Hdata.
  destruct (P4_Run_plain E speclist R spec ("-o" :: args) a Hd Hc Hh)
    as (a' & Hrun & Hui).
  exists a'. rewrite Hrun, Hui, Hev. clear Hrun Hui.
  set (u0 := SetCommand spec (ClientUser.Reset (ui a))).
  assert (Hh0 : handler u0 = None) by exact Hh.
  assert (Hr0 : items (results u0) = []).
  { subst u0. unfold SetCommand. cbn [results].
    rewrite (proj1 (ClientUser_Reset_fresh _)). reflexivity. }
  change (deliver_all E [EvOutputStat values] u0) with (OutputStat E values u0).
  split.
  - f_equal. f_equal.
    unfold OutputStat. rewrite Hsp, Hdata.
    set (u1 := set_specMgr _ u0).
    assert (Hh1 : handler u1 = None) by exact Hh0.
    assert (Hr1 : items (results u1) = []) by exact Hr0.
    destruct (Spec_init E sp) as [e|].
    + unfold HandleError, ProcessMessage. rewrite Hh1. cbn [results set_results].
      rewrite items_AddOutput_Error, Hr1. reflexivity.
    + destruct (Spec_ParseNoValid E sp form) as [e|table].
      * unfold HandleError, ProcessMessage. rewrite Hh1.
        cbn [results set_results].
        rewrite items_AddOutput_Error, Hr1. reflexivity.
      * unfold ProcessOutput_Spec. rewrite Hh1. cbn [results set_results].
        rewrite items_AddOutput_Spec, Hr1. reflexivity.
  - destruct (OutputStat_cache E values u0) as [_ Hm].
    rewrite Hm, Hsp. reflexivity.
Qed.

(** X17.  Fetching a spec, the good case.  On a connected session
    without handler, when the server answers with the form text and its
    spec definition, and the engine can parse the form and, once more,
    its own rendering of what it parsed, [RunFetch] returns the
    dictionary of that second parse and a nil error; and the session has
    learnt the spec definition under the name of the command. *)
Theorem RunFetch_returns_the_parsed_form
        (R : EngineRun) (spec : string) (args : list string)
        (a : P4GoClientApi) (values : StrDict.t) (sp form : string)
        (table table2 : StrDict.t) :
  depth a = 0 ->
  connected a = true ->
  handler (ui a) = None ->
  run_events R = [EvOutputStat values] ->
  StrDict.GetVar "specdef" values = Some sp ->
  StrDict.GetVar "data" values = Some form ->
  Spec_init E sp = None ->
  Spec_ParseNoValid E sp form = inr table ->
  Spec_ParseNoValid E sp (Spec_Format E sp table) = inr table2 ->
  snd (GoRun.RunFetch E speclist R spec args a)
  = Some (Some (P4.dict_of_pairs table2), None)
  /\ StrDict.GetVar spec
       (SpecMgr.specs
          (specMgr (ui (fst (GoRun.RunFetch E speclist R spec args a)))))
     = Some sp.
Proof.
  intros Hd Hc Hh Hev Hsp Hdata Hinit Hparse Hparse2.
  destruct (fetch_of_form R spec args a values sp form Hd Hc Hh Hev Hsp Hdata)
    as (a' & Hrun & Hm).
  unfold GoRun.RunFetch. rewrite Hrun. cbn [fst snd].
  split.
  - rewrite Hinit, Hparse. unfold SpecMgr.StrDictToSpec.
    rewrite Hinit, Hparse2. reflexivity.
  - rewrite Hm. apply AddSpecDef_same.
Qed.

(** X18.  Fetching a spec, the bad case.  When the engine cannot parse
    the form text the server sent and leaves an error of severity
    Failed or Fatal, that error takes the place of the spec in the
    results, and [RunFetch] returns no dictionary and a non-nil error
    that holds the Go message of the engine's error.  The spec
    definition is learnt all the same. *)
Theorem RunFetch_reports_the_unparsed_form
        (R : EngineRun) (spec : string) (args : list string)
        (a : P4GoClientApi) (values : StrDict.t) (sp form : string)
        (err : Msg.Error) :
  depth a = 0 ->
  connected a = true ->
  handler (ui a) = None ->
  run_events R = [EvOutputStat values] ->
  StrDict.GetVar "specdef" values = Some sp ->
  StrDict.GetVar "data" values = Some form ->
  Spec_init E sp = None ->
  Spec_ParseNoValid E sp form = inl err ->
  is_failed err = true ->
  snd (GoRun.RunFetch E speclist R spec args a)
  = Some (None, Some (P4.ErrJoin [P4.goMessage err]))
  /\ StrDict.GetVar spec
       (SpecMgr.specs
          (specMgr (ui (fst (GoRun.RunFetch E speclist R spec args a)))))
     = Some sp.
Proof.
  intros Hd Hc Hh Hev Hsp Hdata Hinit Hparse Hfail.
  destruct (fetch_of_form R spec args a values sp form Hd Hc Hh Hev Hsp Hdata)
    as (a' & Hrun & Hm).
  unfold GoRun.RunFetch. rewrite Hrun. cbn [fst snd].
  split.
  - rewrite Hinit, Hparse. unfold stored.
    assert (Hsev : (Msg.severity err =? Msg.E_EMPTY) = false).
    { unfold is_failed, Msg.E_FAILED, Msg.E_FATAL, Msg.E_EMPTY in *.
      apply orb_true_iff in Hfail as [H|H]; apply Z.eqb_eq in H;
        rewrite H; reflexivity. }
    rewrite Hsev.
    cbn. rewrite is_failure_goMessage, Hfail. reflexivity.
  - rewrite Hm. apply AddSpecDef_same.
Qed.

End FetchEndToEnd.

(** X17 at a [client -o] answered with the form of the client [ws]. *)
Lemma RunFetch_returns_the_parsed_form_witness :
  ClientUser.handler (ClientApi.ui session0) = None
  /\ StrDict.GetVar "specdef" client_record = Some "Client"
  /\ Spec_ParseNoValid one_field_engine "Client"
       ("Client:" +:+ tab +:+ "ws" +:+ nl) = inr [("Client", "ws")]
  /\ snd (GoRun.RunFetch one_field_engine []
            (engine_run [EvOutputStat client_record]) "client" [] session0)
     = Some (Some (P4.dict_of_pairs [("Client", "ws")]), None).
Proof.
  split; [reflexivity|]. split; [reflexivity|]. split; [reflexivity|].
  exact (proj1 (RunFetch_returns_the_parsed_form one_field_engine []
                  (engine_run [EvOutputStat client_record]) "client" []
                  session0 client_record "Client"
                  ("Client:" +:+ tab +:+ "ws" +:+ nl)
                  [("Client", "ws")] [("Client", "ws")]
                  eq_refl eq_refl eq_refl eq_refl eq_refl eq_refl
                  eq_refl eq_refl eq_refl)).
Defined.

(** X18 at a [client -o] answered with a form that does not start with
    the field of the spec definition. *)
Lemma RunFetch_reports_the_unparsed_form_witness :
  Spec_ParseNoValid one_field_engine "Client" "garbage"
  = inl (Msg.Set_ Msg.E_FAILED "Syntax error in form." Msg.empty)
  /\ is_failed (Msg.Set_ Msg.E_FAILED "Syntax error in form." Msg.empty) = true
  /\ snd (GoRun.RunFetch one_field_engine []
            (engine_run [EvOutputStat [("specdef", "Client");
                                       ("data", "garbage")]])
            "client" [] session0)
     = Some (None,
             Some (P4.ErrJoin
                     [P4.goMessage
                        (Msg.Set_ Msg.E_FAILED "Syntax error in form."
                                  Msg.empty)])).
Proof.
  split; [reflexivity|]. split; [reflexivity|].
  exact (proj1 (RunFetch_reports_the_unparsed_form one_field_engine []
                  (engine_run [EvOutputStat [("specdef", "Client");
                                             ("data", "garbage")]])
                  "client" [] session0
                  [("specdef", "Client"); ("data", "garbage")]
                  "Client" "garbage"
                  (Msg.Set_ Msg.E_FAILED "Syntax error in form." Msg.empty)
                  eq_refl eq_refl eq_refl eq_refl eq_refl eq_refl
                  eq_refl eq_refl eq_refl)).
Defined.

(* ===================================================================== *)
(** ** The alive flag during a command *)
(* ===================================================================== *)

Section KeepAlive.

Import Results ClientUser.

Variable E : SpecEngine.

Lemma any_cancel_app h (a : list Callback) : forall hist b,
  any_cancel h hist (a ++ b)
  = any_cancel h hist a || any_cancel h (hist ++ a) b.
Proof.
  induction a as [|cb a IH]; intros hist b; cbn [any_cancel app].
  - rewrite app_nil_r. reflexivity.
  - rewrite IH, <- app_assoc, orb_assoc. reflexivity.
Qed.

Lemma alive_step_refl ho u : alive_step ho u u.
Proof.
  exists []. rewrite app_nil_r. split; [reflexivity|].
  split; [destruct ho; reflexivity|reflexivity].
Qed.

Lemma alive_step_trans ho u v w :
  alive_step ho u v -> alive_step ho v w -> alive_step ho u w.
Proof.
  intros (n1 & Hc1 & Ha1 & Hn1) (n2 & Hc2 & Ha2 & Hn2).
  exists (n1 ++ n2). split; [rewrite Hc2, Hc1, app_assoc; reflexivity|].
  split.
  - rewrite Ha2, Ha1, Hc1. destruct ho as [h|]; [|reflexivity].
    rewrite any_cancel_app.
    destruct (any_cancel h (callbacks u) n1),
             (any_cancel h (callbacks u ++ n1) n2); reflexivity.
  - intros H. rewrite (Hn1 H), (Hn2 H). reflexivity.
Qed.

(** Storing a unit touches neither the log nor alive. *)
Lemma alive_step_set_results ho u u' r :
  alive_step ho u u' -> alive_step ho u (set_results r u').
Proof. intros (n & Hc & Ha & Hn). exists n. repeat split; assumption. Qed.

Lemma after_call_alive h cb u :
  alive_step (Some h) u (snd (after_call (Some cb) (answer h (callbacks u) cb) u)).
Proof.
  exists [cb]. unfold after_call. cbn [snd any_cancel]. unfold CANCEL.
  rewrite orb_false_r.
  destruct (answer h (callbacks u) cb =? 2); cbn;
    (split; [reflexivity|split; [reflexivity|discriminate]]).
Qed.

Lemma ProcessOutput_Str_alive data binary u :
  alive_step (handler u) u (ProcessOutput_Str data binary u).
Proof.
  unfold ProcessOutput_Str. destruct (handler u) as [h|] eqn:Hh.
  - unfold CallOutputMethod_Str.
    destruct binary.
    + pose proof (after_call_alive h (CbBinary data) u) as H.
      cbn [answer] in H.
      destruct (after_call (Some (CbBinary data)) _ u) as [report u1].
      cbn [snd] in H. destruct report;
        [apply alive_step_set_results|]; exact H.
    + pose proof (after_call_alive h (CbText data) u) as H.
      cbn [answer] in H.
      destruct (after_call (Some (CbText data)) _ u) as [report u1].
      cbn [snd] in H. destruct report;
        [apply alive_step_set_results|]; exact H.
  - apply alive_step_set_results, alive_step_refl.
Qed.

Lemma ProcessOutput_Dict_alive d u :
  alive_step (handler u) u (ProcessOutput_Dict d u).
Proof.
  unfold ProcessOutput_Dict. destruct (handler u) as [h|] eqn:Hh.
  - unfold CallOutputMethod_Dict.
    pose proof (after_call_alive h (CbStat d) u) as H. cbn [answer] in H.
    destruct (after_call (Some (CbStat d)) _ u) as [report u1].
    cbn [snd] in H. destruct report;
      [apply alive_step_set_results|]; exact H.
  - apply alive_step_set_results, alive_step_refl.
Qed.

Lemma ProcessMessage_alive e u :
  alive_step (handler u) u (ProcessMessage e u).
Proof.
  unfold ProcessMessage. destruct (handler u) as [h|] eqn:Hh.
  - unfold CallOutputMethod_Error.
    pose proof (after_call_alive h (CbMessage e) u) as H. cbn [answer] in H.
    destruct (after_call (Some (CbMessage e)) _ u) as [report u1].
    cbn [snd] in H. destruct report;
      [apply alive_step_set_results|]; exact H.
  - apply alive_step_set_results, alive_step_refl.
Qed.

(** A spec is stored without a call of the handler. *)
Lemma ProcessOutput_Spec_alive s u :
  alive_step (handler u) u (ProcessOutput_Spec s u).
Proof.
  unfold ProcessOutput_Spec.
  destruct (handler u); apply alive_step_set_results, alive_step_refl.
Qed.

Lemma alive_step_setup u v w :
  handler v = handler u ->
  alive_step (handler u) u v -> alive_step (handler v) v w ->
  alive_step (handler u) u w.
Proof.
  intros Hh H1 H2. rewrite Hh in H2. eapply alive_step_trans; eassumption.
Qed.

Lemma OutputText_loop_alive data n : forall i p u,
  alive_step (handler u) u (OutputText_loop data n i p u).
Proof.
  induction n as [|n IH]; intros i p u; cbn [OutputText_loop].
  - apply alive_step_refl.
  - destruct (is_char newline (char_at data i)); [|apply IH].
    destruct (p <? i)%nat.
    + eapply (alive_step_setup u (set_results _ u)); [reflexivity| |apply IH].
      apply alive_step_set_results, alive_step_refl.
    + apply alive_step_set_results, ProcessOutput_Str_alive.
Qed.

Lemma deliver_alive ev u : alive_step (handler u) u (deliver E ev u).
Proof.
  destruct ev as [data|data|values|e|e]; cbn [deliver].
  - unfold OutputText. destruct (is_track_text u data).
    + apply OutputText_loop_alive.
    + apply ProcessOutput_Str_alive.
  - apply ProcessOutput_Str_alive.
  - unfold OutputStat.
    set (u1 := match StrDict.GetVar "specdef" values with
               | Some sp => set_specMgr _ u | None => u end).
    assert (Hh : handler u1 = handler u)
      by (subst u1; destruct (StrDict.GetVar "specdef" values); reflexivity).
    assert (H1 : alive_step (handler u) u u1).
    { subst u1. destruct (StrDict.GetVar "specdef" values);
        [|apply alive_step_refl].
      exists []. rewrite app_nil_r. split; [reflexivity|].
      split; [destruct (handler u); reflexivity|reflexivity]. }
    apply (alive_step_setup u u1 _ Hh H1).
    destruct (StrDict.GetVar "specdef" values) as [sp|];
      [|apply ProcessOutput_Dict_alive].
    destruct (StrDict.GetVar "data" values) as [form|].
    + destruct (Spec_init E sp); [apply ProcessMessage_alive|].
      destruct (Spec_ParseNoValid E sp form);
        [apply ProcessMessage_alive|apply ProcessOutput_Spec_alive].
    + destruct (isspec values);
        [apply ProcessOutput_Spec_alive|apply ProcessOutput_Dict_alive].
  - apply ProcessMessage_alive.
  - apply ProcessMessage_alive.
Qed.

(** X19.  What the alive flag tells at the end of a command.  The
    output calls of a command add to the log the calls made to the
    handler, and alive is 0 afterwards exactly if it was 0 before or
    the handler answered CANCEL to one of those calls: nothing sets it
    back to 1 while the output is delivered, and later answers do not
    undo a CANCEL.  Without a handler no call is made and alive is left
    as it is. *)
Theorem alive_tells_of_a_cancel (evs : list Event) (u : P4GoClientUser) :
  exists news,
    callbacks (deliver_all E evs u) = callbacks u ++ news
    /\ alive (deliver_all E evs u)
       = match handler u with
         | Some h => if any_cancel h (callbacks u) news then 0 else alive u
         | None => alive u
         end
    /\ (handler u = None -> news = []).
Proof.
  change (alive_step (handler u) u (deliver_all E evs u)).
  revert u. induction evs as [|ev evs IH]; intros u.
  - apply alive_step_refl.
  - cbn [deliver_all fold_left]. fold (deliver_all E evs (deliver E ev u)).
    apply (alive_step_setup u (deliver E ev u)).
    + apply (deliver_setup E ev u).
    + apply deliver_alive.
    + apply IH.
Qed.

End KeepAlive.

(** X19 at the events [Record, Message(Info), Record, Message(Failed)]
    on a client user without handler. *)
Lemma alive_tells_of_a_cancel_witness :
  ClientUser.handler user0 = None
  /\ exists news,
      ClientUser.callbacks
        (ClientUser.deliver_all one_field_engine four_events user0)
      = ClientUser.callbacks user0 ++ news
      /\ news = [].
Proof.
  split; [reflexivity|].
  destruct (alive_tells_of_a_cancel one_field_engine four_events user0)
    as (news & Hc & _ & Hn).
  exists news. split; [exact Hc|exact (Hn eq_refl)].
Defined.

(* ===================================================================== *)
(** ** The registry of Go handlers *)
(* ===================================================================== *)

Section RegistryProofs.

Import Registry.

Variable V : Type.
Variable alloc : gset ptr -> ptr.

(** [operator new] never returns the address of a live object. *)
Hypothesis alloc_fresh : forall s, alloc s ∉ s.

Lemma Kind_eqb_spec (a b : Kind) : reflect (a = b) (Kind_eqb a b).
Proof. destruct a, b; cbn; constructor; congruence. Qed.

Lemma upd_same {A} (f : Kind -> A) k x : upd f k x k = x.
Proof. unfold upd. destruct (Kind_eqb_spec k k); congruence. Qed.

Lemma upd_other {A} (f : Kind -> A) k x k' : k' <> k -> upd f k x k' = f k'.
Proof. unfold upd. destruct (Kind_eqb_spec k' k); congruence. Qed.

Lemma Free_live (p : ptr) (w : World (V:=V)) :
  p ∈ live w ->
  Free p w
  = {| go_handle := go_handle w; pointer_map := pointer_map w;
       c_handle := c_handle w; live := live w ∖ {[p]};
       bad_deletes := bad_deletes w |}.
Proof. intros H. unfold Free. rewrite bool_decide_eq_true_2; auto. Qed.

Lemma Free_dead (p : ptr) (w : World (V:=V)) :
  p ∉ live w ->
  Free p w
  = {| go_handle := go_handle w; pointer_map := pointer_map w;
       c_handle := c_handle w; live := live w;
       bad_deletes := bad_deletes w ++ [p] |}.
Proof. intros H. unfold Free. rewrite bool_decide_eq_false_2; auto. Qed.

(** The first step of a setter: the object in use for the kind is
    deleted and leaves its map. *)
Lemma release_sound (k : Kind) (w : World (V:=V)) :
  sound w ->
  let w1 := match c_handle w k with
            | Some p => Free p (map_Delete k p w)
            | None => w
            end in
  go_handle w1 = go_handle w
  /\ c_handle w1 = c_handle w
  /\ bad_deletes w1 = []
  /\ (forall q, q ∈ live w1 <-> exists k', k' <> k /\ c_handle w k' = Some q)
  /\ (forall q, pointer_map w1 k !! q = None)
  /\ (forall k', k' <> k -> pointer_map w1 k' = pointer_map w k').
Proof.
  intros (Hmap & Hlive & Hdist & Hbad).
  destruct (c_handle w k) as [p|] eqn:Hk; cbn zeta.
  - assert (Hp : p ∈ live (map_Delete k p w))
      by (cbn; apply Hlive; eauto).
    rewrite (Free_live _ _ Hp). cbn.
    split; [reflexivity|]. split; [reflexivity|]. split; [exact Hbad|].
    split; [|split].
    + intros q. rewrite elem_of_difference, elem_of_singleton, Hlive.
      split.
      * intros [(k' & Hk') Hne]. exists k'. split; [|exact Hk'].
        intros ->. congruence.
      * intros (k' & Hne & Hk'). split; [eauto|].
        intros ->. apply Hne. exact (Hdist _ _ _ Hk' Hk).
    + intros q. rewrite upd_same.
      destruct (decide (q = p)) as [->|Hne].
      * apply lookup_delete_eq.
      * rewrite lookup_delete_ne by congruence.
        destruct (pointer_map w k !! q) eqn:Hq; [|reflexivity].
        exfalso. apply Hne.
        assert (Hs : c_handle w k = Some q) by (apply Hmap; eauto).
        congruence.
    + intros k' Hne. apply upd_other, Hne.
  - split; [reflexivity|]. split; [reflexivity|]. split; [exact Hbad|].
    split; [|split].
    + intros q. rewrite Hlive. split.
      * intros (k' & Hk'). exists k'. split; [|exact Hk'].
        intros ->. congruence.
      * intros (k' & _ & Hk'). eauto.
    + intros q. destruct (pointer_map w k !! q) eqn:Hq; [|reflexivity].
      assert (Hs : c_handle w k = Some q) by (apply Hmap; eauto).
      congruence.
    + reflexivity.
Qed.

(** What a setter of any kind does to a sound world: the objects stay
    accounted for; the object it makes is new to the other kinds, and
    its callbacks find the value registered; the Go fields are written
    as the source writes them. *)
Lemma set_handle_sound (k : Kind) (v : option V) (w : World (V:=V)) :
  sound w ->
  sound (set_handle alloc k v w)
  /\ match v with
     | Some x =>
         exists a,
           (forall k', k' <> k -> c_handle w k' <> Some a)
           /\ go_handle (set_handle alloc k v w)
              = upd (upd (go_handle w) (nilled k) None) k (Some a)
           /\ c_handle (set_handle alloc k v w)
              = upd (c_handle w) k (Some a)
           /\ lookup k a (set_handle alloc k v w) = Some x
     | None =>
         go_handle (set_handle alloc k v w)
         = upd (go_handle w) (nilled k) None
         /\ c_handle (set_handle alloc k v w) = upd (c_handle w) k None
     end
  /\ (forall k' q, k' <> k ->
                   pointer_map (set_handle alloc k v w) k' !! q
                   = pointer_map w k' !! q).
Proof.
  intros Hs.
  pose proof (release_sound k w Hs) as Hrel. cbn zeta in Hrel.
  destruct Hs as (Hmap & Hlive & Hdist & Hbad).
  unfold set_handle.
  set (w1 := match c_handle w k with
             | Some p => Free p (map_Delete k p w)
             | None => w
             end) in *.
  destruct Hrel as (Hgo1 & Hc1 & Hbad1 & Hlive1 & Hmap1 & Hmapo).
  rewrite Hgo1, Hc1.
  destruct v as [x|].
  - set (a := alloc (live w1)).
    assert (Ha : a ∉ live w1) by apply alloc_fresh.
    split; [|split].
    + unfold sound. cbn [go_handle pointer_map c_handle live bad_deletes].
      split; [|split; [|split]].
      * intros k' p. destruct (Kind_eqb_spec k' k) as [->|Hne].
        -- rewrite !upd_same.
           destruct (decide (p = a)) as [->|Hpa].
           ++ rewrite lookup_insert_eq. split; eauto.
           ++ rewrite lookup_insert_ne by congruence. rewrite Hmap1.
              split; [intros [? ?]; discriminate|congruence].
        -- rewrite !upd_other by exact Hne. rewrite Hmapo by exact Hne.
           apply Hmap.
      * intros p. rewrite elem_of_union, elem_of_singleton, Hlive1. split.
        -- intros [->|(k' & Hne & Hk')].
           ++ exists k. apply upd_same.
           ++ exists k'. rewrite upd_other by exact Hne. exact Hk'.
        -- intros (k' & Hk'). destruct (Kind_eqb_spec k' k) as [->|Hne].
           ++ rewrite upd_same in Hk'. left. congruence.
           ++ rewrite upd_other in Hk' by exact Hne. right. eauto.
      * intros k1 k2 p H1 H2.
        destruct (Kind_eqb_spec k1 k) as [->|Hn1];
          destruct (Kind_eqb_spec k2 k) as [->|Hn2]; [reflexivity| | |].
        -- rewrite upd_same in H1. rewrite upd_other in H2 by exact Hn2.
           exfalso. apply Ha. apply Hlive1. exists k2.
           split; [exact Hn2|congruence].
        -- rewrite upd_same in H2. rewrite upd_other in H1 by exact Hn1.
           exfalso. apply Ha. apply Hlive1. exists k1.
           split; [exact Hn1|congruence].
        -- rewrite upd_other in H1, H2 by assumption.
           exact (Hdist _ _ _ H1 H2).
      * exact Hbad1.
    + exists a. cbn [go_handle c_handle]. unfold lookup. cbn [pointer_map].
      rewrite !upd_same.
      split; [|split; [reflexivity|split; [reflexivity|]]].
      * intros k' Hne Hk'. apply Ha. apply Hlive1. eauto.
      * apply lookup_insert_eq.
    + intros k' q Hne. cbn [pointer_map].
      rewrite upd_other by exact Hne. rewrite Hmapo by exact Hne. reflexivity.
  - split; [|split].
    + unfold sound. cbn [go_handle pointer_map c_handle live bad_deletes].
      split; [|split; [|split]].
      * intros k' p. destruct (Kind_eqb_spec k' k) as [->|Hne].
        -- rewrite upd_same, Hmap1.
           split; [intros [? ?]; discriminate|discriminate].
        -- rewrite upd_other by exact Hne. rewrite Hmapo by exact Hne.
           apply Hmap.
      * intros p. rewrite Hlive1. split.
        -- intros (k' & Hne & Hk'). exists k'.
           rewrite upd_other by exact Hne. exact Hk'.
        -- intros (k' & Hk'). destruct (Kind_eqb_spec k' k) as [->|Hne].
           ++ rewrite upd_same in Hk'. discriminate.
           ++ rewrite upd_other in Hk' by exact Hne. eauto.
      * intros k1 k2 p H1 H2.
        destruct (Kind_eqb_spec k1 k) as [->|Hn1];
          [rewrite upd_same in H1; discriminate|].
        destruct (Kind_eqb_spec k2 k) as [->|Hn2];
          [rewrite upd_same in H2; discriminate|].
        rewrite upd_other in H1, H2 by assumption.
        exact (Hdist _ _ _ H1 H2).
      * exact Hbad1.
    + cbn [go_handle c_handle]. split; reflexivity.
    + intros k' q Hne. cbn [pointer_map]. rewrite Hmapo by exact Hne.
      reflexivity.
Qed.

(** A setter other than [SetResolveHandler] keeps the bookkeeping in
    order. *)
Lemma set_handle_tidy (k : Kind) (v : option V) (w : World (V:=V)) :
  k <> Resolve -> tidy w -> tidy (set_handle alloc k v w).
Proof.
  intros Hk (Hgo & Hs).
  destruct (set_handle_sound k v w Hs) as (Hs' & Hv & _).
  split; [|exact Hs'].
  assert (Hnil : nilled k = k) by (destruct k; try reflexivity; congruence).
  rewrite Hnil in Hv.
  intros k'. destruct v as [x|].
  - destruct Hv as (a & _ & -> & -> & _).
    destruct (Kind_eqb_spec k' k) as [->|Hne].
    + rewrite !upd_same. reflexivity.
    + rewrite !upd_other by exact Hne. apply Hgo.
  - destruct Hv as (-> & ->).
    destruct (Kind_eqb_spec k' k) as [->|Hne].
    + rewrite !upd_same. reflexivity.
    + rewrite !upd_other by exact Hne. apply Hgo.
Qed.

Lemma tidy_New : tidy (New (V:=V)).
Proof.
  unfold tidy, sound, New. cbn.
  split; [reflexivity|]. split; [|split; [|split; [|reflexivity]]].
  - intros k p. rewrite lookup_empty. split; [intros [? ?]|]; discriminate.
  - intros p. rewrite elem_of_empty. split; [tauto|intros (? & ?)]; discriminate.
  - intros k k' p H. discriminate.
Qed.

Lemma set_all_tidy (cs : list (Kind * option V)) : forall w,
  forallb (fun c => negb (is_Resolve (fst c))) cs = true ->
  tidy w -> tidy (set_all alloc cs w).
Proof.
  induction cs as [|[k v] cs IH]; intros w Hcs Hw; [exact Hw|].
  cbn in Hcs. apply andb_true_iff in Hcs as [Hk Hcs].
  cbn [set_all fold_left fst snd]. apply IH; [exact Hcs|].
  apply set_handle_tidy; [|exact Hw].
  intros ->. discriminate.
Qed.

(** One step of [Close], whatever the state of the bookkeeping. *)
Lemma close_one_nil (k : Kind) (w : World (V:=V)) :
  go_handle w k = None -> close_one k w = w.
Proof. intros H. unfold close_one. rewrite H. reflexivity. Qed.

Lemma close_one_good (k : Kind) (w : World (V:=V)) (q : ptr) :
  go_handle w k = Some q -> q ∈ live w ->
  go_handle (close_one k w) = go_handle w
  /\ live (close_one k w) = live w ∖ {[q]}
  /\ bad_deletes (close_one k w) = bad_deletes w.
Proof.
  intros H Hq. unfold close_one. rewrite H.
  rewrite Free_live by exact Hq. repeat split.
Qed.

Lemma close_one_bad (k : Kind) (w : World (V:=V)) (q : ptr) :
  go_handle w k = Some q -> q ∉ live w ->
  go_handle (close_one k w) = go_handle w
  /\ live (close_one k w) = live w
  /\ bad_deletes (close_one k w) = bad_deletes w ++ [q].
Proof.
  intros H Hq. unfold close_one. rewrite H.
  rewrite Free_dead by exact Hq. repeat split.
Qed.

Lemma close_one_keeps (k : Kind) (w : World (V:=V)) (p : ptr) :
  go_handle w k <> Some p ->
  go_handle (close_one k w) = go_handle w
  /\ (p ∈ live w -> p ∈ live (close_one k w))
  /\ (forall k', pointer_map (close_one k w) k' !! p = pointer_map w k' !! p).
Proof.
  intros Hne. unfold close_one.
  destruct (go_handle w k) as [q|] eqn:Hq; [|repeat split; auto].
  assert (Hqp : q <> p) by congruence.
  assert (Hmap : forall k', pointer_map (map_Delete k q w) k' !! p
                            = pointer_map w k' !! p).
  { intros k'. cbn. destruct (Kind_eqb_spec k' k) as [->|Hk'].
    - rewrite upd_same. apply lookup_delete_ne. exact Hqp.
    - rewrite upd_other by exact Hk'. reflexivity. }
  unfold Free. destruct (bool_decide (q ∈ live (map_Delete k q w))); cbn.
  - split; [reflexivity|]. split; [|exact Hmap].
    intros Hp. apply elem_of_difference. split; [exact Hp|].
    rewrite elem_of_singleton. congruence.
  - split; [reflexivity|]. split; [auto|exact Hmap].
Qed.

(** Closing, kind by kind: what is left is what the kinds still to be
    closed use. *)
Lemma close_one_step (k : Kind) (done : Kind -> bool) (w : World (V:=V)) :
  done k = false ->
  (forall k, go_handle w k = c_handle w k) ->
  (forall k' p, done k' = false ->
                (is_Some (pointer_map w k' !! p) <-> c_handle w k' = Some p)) ->
  (forall k' p, done k' = true -> pointer_map w k' !! p = None) ->
  (forall p, p ∈ live w <-> exists k', done k' = false /\ c_handle w k' = Some p) ->
  (forall k k' p, c_handle w k = Some p -> c_handle w k' = Some p -> k = k') ->
  bad_deletes w = [] ->
  let w' := close_one k w in
  let done' := fun k' => Kind_eqb k' k || done k' in
  go_handle w' = go_handle w /\ c_handle w' = c_handle w
  /\ (forall k' p, done' k' = false ->
                   (is_Some (pointer_map w' k' !! p) <-> c_handle w' k' = Some p))
  /\ (forall k' p, done' k' = true -> pointer_map w' k' !! p = None)
  /\ (forall p, p ∈ live w'
                <-> exists k', done' k' = false /\ c_handle w' k' = Some p)
  /\ bad_deletes w' = [].
Proof.
  intros Hk Hgo Hmap Hdone Hlive Hdist Hbad. cbn zeta.
  unfold close_one. rewrite Hgo.
  destruct (c_handle w k) as [p|] eqn:Hc.
  - assert (Hp : p ∈ live (map_Delete k p w))
      by (cbn; apply Hlive; eauto).
    rewrite (Free_live _ _ Hp). cbn.
    split; [reflexivity|]. split; [reflexivity|].
    split; [|split; [|split; [|exact Hbad]]].
    + intros k' q Hd. apply orb_false_iff in Hd as [Hne Hd].
      destruct (Kind_eqb_spec k' k); [discriminate|].
      rewrite upd_other by assumption. apply Hmap, Hd.
    + intros k' q Hd. destruct (Kind_eqb_spec k' k) as [->|Hne].
      * rewrite upd_same. destruct (decide (q = p)) as [->|Hqp].
        -- apply lookup_delete_eq.
        -- rewrite lookup_delete_ne by congruence.
           destruct (pointer_map w k !! q) eqn:Hq; [|reflexivity].
           exfalso. apply Hqp.
           assert (Hs : c_handle w k = Some q) by (apply Hmap; eauto).
           congruence.
      * rewrite upd_other by exact Hne. apply Hdone. exact Hd.
    + intros q. rewrite elem_of_difference, elem_of_singleton, Hlive. split.
      * intros [(k' & Hd & Hk') Hqp]. exists k'. split; [|exact Hk'].
        destruct (Kind_eqb_spec k' k) as [->|Hne]; [congruence|exact Hd].
      * intros (k' & Hd & Hk'). apply orb_false_iff in Hd as [Hne Hd].
        destruct (Kind_eqb_spec k' k) as [|Hne']; [discriminate|].
        split; [eauto|]. intros ->. apply Hne'. exact (Hdist _ _ _ Hk' Hc).
  - split; [reflexivity|]. split; [reflexivity|].
    split; [|split; [|split; [|exact Hbad]]].
    + intros k' q Hd. apply orb_false_iff in Hd as [_ Hd]. apply Hmap, Hd.
    + intros k' q Hd. destruct (Kind_eqb_spec k' k) as [->|Hne].
      * destruct (pointer_map w k !! q) eqn:Hq; [|reflexivity].
        assert (Hs : c_handle w k = Some q) by (apply Hmap; eauto).
        congruence.
      * apply Hdone. exact Hd.
    + intros q. rewrite Hlive. split.
      * intros (k' & Hd & Hk'). exists k'. split; [|exact Hk'].
        destruct (Kind_eqb_spec k' k) as [->|Hne]; [congruence|exact Hd].
      * intros (k' & Hd & Hk'). apply orb_false_iff in Hd as [_ Hd]. eauto.
Qed.

(** X20.  With [SetProgress], [SetHandler] and [SetSSOHandler] the
    registry stays in order.  After any sequence of these calls on a new
    [P4], the Go fields and the session name the same objects, each
    map holds exactly the entry of the object in use for its kind, and
    exactly the objects in use are live.  [Close] then deletes every
    object once and empties the maps: nothing leaks, nothing is deleted
    twice. *)
Theorem registry_stays_in_order (cs : list (Kind * option V)) :
  forallb (fun c => negb (is_Resolve (fst c))) cs = true ->
  tidy (set_all alloc cs New)
  /\ live (Close (set_all alloc cs New)) = ∅
  /\ bad_deletes (Close (set_all alloc cs New)) = []
  /\ (forall k p, lookup k p (Close (set_all alloc cs New)) = None).
Proof.
  intros Hcs.
  pose proof (set_all_tidy cs New Hcs tidy_New) as Ht.
  split; [exact Ht|].
  set (w := set_all alloc cs New) in *.
  destruct Ht as (Hgo & Hmap & Hlive & Hdist & Hbad).
  unfold Close.
  (* progress *)
  destruct (close_one_step Progress (fun _ => false) w eq_refl Hgo
              (fun k p _ => Hmap k p)
              (fun k p H => False_ind _ (diff_false_true H)))
    as (Hg1 & Hc1 & Hm1 & Hd1 & Hl1 & Hb1).
  { intros p. rewrite Hlive. split; intros (k & H); exists k; tauto. }
  { exact Hdist. } { exact Hbad. }
  set (w1 := close_one Progress w) in *.
  (* output *)
  destruct (close_one_step Output (fun k' => Kind_eqb k' Progress || false) w1
              eq_refl) as (Hg2 & Hc2 & Hm2 & Hd2 & Hl2 & Hb2);
    [rewrite Hg1, Hc1; exact Hgo|exact Hm1|exact Hd1|exact Hl1
    |rewrite Hc1; exact Hdist|exact Hb1|].
  set (w2 := close_one Output w1) in *.
  (* SSO *)
  destruct (close_one_step SSO
              (fun k' => Kind_eqb k' Output || (Kind_eqb k' Progress || false))
              w2 eq_refl) as (Hg3 & Hc3 & Hm3 & Hd3 & Hl3 & Hb3);
    [rewrite Hg2, Hc2, Hg1, Hc1; exact Hgo|exact Hm2|exact Hd2|exact Hl2
    |rewrite Hc2, Hc1; exact Hdist|exact Hb2|].
  set (w3 := close_one SSO w2) in *.
  (* resolve *)
  destruct (close_one_step Resolve
              (fun k' => Kind_eqb k' SSO
                         || (Kind_eqb k' Output || (Kind_eqb k' Progress || false)))
              w3 eq_refl) as (Hg4 & Hc4 & Hm4 & Hd4 & Hl4 & Hb4);
    [rewrite Hg3, Hc3, Hg2, Hc2, Hg1, Hc1; exact Hgo|exact Hm3|exact Hd3
    |exact Hl3|rewrite Hc3, Hc2, Hc1; exact Hdist|exact Hb3|].
  split; [|split; [exact Hb4|]].
  - apply set_eq. intros p. rewrite Hl4, elem_of_empty. split; [|tauto].
    intros (k & Hk & _). destruct k; discriminate.
  - intros k p. unfold lookup. apply Hd4. destruct k; reflexivity.
Qed.

(** X21.  [SetResolveHandler] orphans the output handler.  It sets the
    Go field [outputhandle] to nil, so when an output handler is in
    use and a resolve handler is set (or unset), the output handler is
    still installed in the session and still registered in its map,
    but [Close] no longer knows it: after [Close] its object is still
    live and its map entry is still there. *)
Theorem SetResolveHandler_orphans_the_output_handler
        (w : World (V:=V)) (v : option V) (p : ptr) :
  tidy w ->
  c_handle w Output = Some p ->
  c_handle (SetResolveHandler alloc v w) Output = Some p
  /\ go_handle (SetResolveHandler alloc v w) Output = None
  /\ p ∈ live (Close (SetResolveHandler alloc v w))
  /\ is_Some (lookup Output p (Close (SetResolveHandler alloc v w))).
Proof.
  intros (Hgo & Hs) Hp. unfold SetResolveHandler.
  destruct (set_handle_sound Resolve v w Hs) as (Hs' & Hv & Hmapo).
  set (w' := set_handle alloc Resolve v w) in *.
  destruct Hs as (Hmap & Hlive & Hdist & Hbad).
  destruct Hs' as (Hmap' & Hlive' & Hdist' & Hbad').
  assert (Hc' : c_handle w' Output = Some p).
  { destruct v; [destruct Hv as (a & _ & _ & -> & _)|destruct Hv as (_ & ->)];
      rewrite upd_other by discriminate; exact Hp. }
  assert (Hgo' : forall k, go_handle w' k <> Some p).
  { intros k Hk. destruct v as [x|].
    - destruct Hv as (a & Ha & Hg & _ & _). rewrite Hg in Hk.
      destruct k; cbn in Hk; try discriminate.
      + rewrite Hgo in Hk. pose proof (Hdist _ _ _ Hk Hp). discriminate.
      + rewrite Hgo in Hk. pose proof (Hdist _ _ _ Hk Hp). discriminate.
      + injection Hk as ->. exact (Ha Output ltac:(discriminate) Hp).
    - destruct Hv as (Hg & _). rewrite Hg in Hk.
      destruct k; cbn in Hk; try discriminate;
        rewrite Hgo in Hk; pose proof (Hdist _ _ _ Hk Hp); discriminate. }
  assert (Hnil : go_handle w' Output = None).
  { destruct v as [x|].
    - destruct Hv as (a & _ & -> & _). reflexivity.
    - destruct Hv as (-> & _). reflexivity. }
  split; [exact Hc'|]. split; [exact Hnil|].
  assert (Hlp : p ∈ live w') by (apply Hlive'; eauto).
  assert (Hmp : is_Some (pointer_map w' Output !! p)) by (apply Hmap'; exact Hc').
  unfold Close, lookup.
  destruct (close_one_keeps Progress w' p (Hgo' _)) as (G1 & L1 & M1).
  destruct (close_one_keeps Output (close_one Progress w') p) as (G2 & L2 & M2);
    [rewrite G1; apply Hgo'|].
  destruct (close_one_keeps SSO (close_one Output (close_one Progress w')) p)
    as (G3 & L3 & M3); [rewrite G2, G1; apply Hgo'|].
  destruct (close_one_keeps Resolve
              (close_one SSO (close_one Output (close_one Progress w'))) p)
    as (G4 & L4 & M4); [rewrite G3, G2, G1; apply Hgo'|].
  split; [auto|]. rewrite M4, M3, M2, M1. exact Hmp.
Qed.

(** X22.  A resolve handler that is unset is deleted twice.
    [SetResolveHandler] with nil deletes the object of the resolve
    handler in use but leaves its address in the Go field
    [resolvehandle]; [Close] then deletes that object again.  With the
    bookkeeping in order before, this is the only bad delete. *)
Theorem unset_resolve_handler_is_deleted_twice (w : World (V:=V)) (x : V) :
  tidy w ->
  exists a,
    c_handle (SetResolveHandler alloc (Some x) w) Resolve = Some a
    /\ go_handle
         (SetResolveHandler alloc None (SetResolveHandler alloc (Some x) w))
         Resolve = Some a
    /\ (a ∉ live (SetResolveHandler alloc None
                                      (SetResolveHandler alloc (Some x) w)))
    /\ bad_deletes
         (Close
            (SetResolveHandler alloc None
               (SetResolveHandler alloc (Some x) w)))
       = [a].
Proof.
  intros (Hgo & Hs). unfold SetResolveHandler.
  destruct (set_handle_sound Resolve (Some x) w Hs)
    as (Hs1 & (a & Ha & Hg1 & Hc1 & _) & _).
  set (w1 := set_handle alloc Resolve (Some x) w) in *.
  destruct (set_handle_sound Resolve None w1 Hs1) as (Hs2 & (Hg2 & Hc2) & _).
  set (w2 := set_handle alloc Resolve None w1) in *.
  destruct Hs as (Hmap & Hlive & Hdist & Hbad).
  destruct Hs2 as (Hmap2 & Hlive2 & Hdist2 & Hbad2).
  assert (Hc2' : forall k, c_handle w2 k
                           = if Kind_eqb k Resolve then None else c_handle w k).
  { intros k. rewrite Hc2, Hc1. unfold upd.
    destruct (Kind_eqb k Resolve); reflexivity. }
  assert (Hg2' : forall k, go_handle w2 k
                           = match k with
                             | Resolve => Some a
                             | Output => None
                             | _ => c_handle w k
                             end).
  { intros k. rewrite Hg2, Hg1. destruct k; cbn; try reflexivity; apply Hgo. }
  assert (Hdead : a ∉ live w2).
  { rewrite Hlive2. intros (k & Hk). rewrite Hc2' in Hk.
    destruct k; cbn in Hk; try discriminate;
      (eapply Ha; [|exact Hk]; discriminate). }
  exists a. split; [rewrite Hc1; apply upd_same|].
  split; [apply Hg2'|]. split; [exact Hdead|].
  unfold Close.
  (* progress: a good delete, or none *)
  assert (S1 : go_handle (close_one Progress w2) = go_handle w2
               /\ bad_deletes (close_one Progress w2) = []
               /\ (a ∉ live (close_one Progress w2))
               /\ (forall q, c_handle w SSO = Some q ->
                             q ∈ live (close_one Progress w2))).
  { destruct (go_handle w2 Progress) as [q|] eqn:Hq.
    - assert (Hql : q ∈ live w2).
      { rewrite Hg2' in Hq. apply Hlive2. exists Progress.
        rewrite Hc2'. exact Hq. }
      destruct (close_one_good Progress w2 q Hq Hql) as (G & L & B).
      rewrite G, L, B. split; [reflexivity|]. split; [exact Hbad2|].
      split; [intros Hin; apply elem_of_difference in Hin as [Hin _];
              exact (Hdead Hin)|].
      intros s Hs. apply elem_of_difference. split.
      + apply Hlive2. exists SSO. rewrite Hc2'. exact Hs.
      + rewrite elem_of_singleton. intros ->.
        rewrite Hg2' in Hq. pose proof (Hdist _ _ _ Hs Hq). discriminate.
    - rewrite close_one_nil by exact Hq.
      split; [reflexivity|]. split; [exact Hbad2|]. split; [exact Hdead|].
      intros s Hs. apply Hlive2. exists SSO. rewrite Hc2'. exact Hs. }
  destruct S1 as (G1 & B1 & D1 & L1).
  set (w3 := close_one Progress w2) in *.
  (* output: the Go field is nil *)
  assert (S2 : close_one Output w3 = w3).
  { apply close_one_nil. rewrite G1. apply Hg2'. }
  rewrite S2.
  (* SSO: a good delete, or none *)
  assert (S3 : go_handle (close_one SSO w3) = go_handle w2
               /\ bad_deletes (close_one SSO w3) = []
               /\ (a ∉ live (close_one SSO w3))).
  { destruct (go_handle w3 SSO) as [q|] eqn:Hq.
    - assert (Hql : q ∈ live w3).
      { apply L1. rewrite G1, Hg2' in Hq. exact Hq. }
      destruct (close_one_good SSO w3 q Hq Hql) as (G & L & B).
      rewrite G, L, B, G1. split; [reflexivity|]. split; [exact B1|].
      intros Hin. apply elem_of_difference in Hin as [Hin _].
      exact (D1 Hin).
    - rewrite close_one_nil by exact Hq.
      split; [exact G1|]. split; [exact B1|exact D1]. }
  destruct S3 as (G3 & B3 & D3).
  (* resolve: the object is no longer live *)
  destruct (close_one_bad Resolve (close_one SSO w3) a) as (_ & _ & B4);
    [rewrite G3; apply Hg2'|exact D3|].
  rewrite B4, B3. reflexivity.
Qed.

End RegistryProofs.

(** X20 at an output handler and a progress indicator that are set, and
    the output handler unset again; [new] is stdpp's [fresh]. *)
Lemma registry_stays_in_order_witness :
  forallb (fun c => negb (Registry.is_Resolve (fst c)))
    [(Registry.Output, Some "handler"); (Registry.Progress, Some "progress");
     (Registry.Output, None)] = true
  /\ Registry.live
       (Registry.Close
          (Registry.set_all fresh
             [(Registry.Output, Some "handler");
              (Registry.Progress, Some "progress");
              (Registry.Output, None)] Registry.New)) = ∅.
Proof.
  split; [reflexivity|].
  exact (proj1 (proj2 (registry_stays_in_order string fresh is_fresh
                         [(Registry.Output, Some "handler");
                          (Registry.Progress, Some "progress");
                          (Registry.Output, None)] eq_refl))).
Defined.

(** X21 at an output handler followed by a resolve handler. *)
Lemma SetResolveHandler_orphans_the_output_handler_witness :
  Registry.c_handle
    (Registry.SetHandler fresh (Some "handler") Registry.New) Registry.Output
  = Some (fresh (∅ : gset Registry.ptr))
  /\ fresh (∅ : gset Registry.ptr)
     ∈ Registry.live
         (Registry.Close
            (Registry.SetResolveHandler fresh (Some "resolver")
               (Registry.SetHandler fresh (Some "handler") Registry.New))).
Proof.
  split; [reflexivity|].
  exact (proj1 (proj2 (proj2
           (SetResolveHandler_orphans_the_output_handler string fresh is_fresh
              (Registry.SetHandler fresh (Some "handler") Registry.New)
              (Some "resolver") (fresh (∅ : gset Registry.ptr))
              (set_handle_tidy string fresh is_fresh Registry.Output
                 (Some "handler") Registry.New
                 ltac:(discriminate) (tidy_New string))
              eq_refl)))).
Defined.

(** X22 at a resolve handler that is set and unset on a new [P4]. *)
Lemma unset_resolve_handler_is_deleted_twice_witness :
  exists a,
    Registry.bad_deletes
      (Registry.Close
         (Registry.SetResolveHandler fresh None
            (Registry.SetResolveHandler fresh (Some "resolver") Registry.New)))
    = [a].
Proof.
  destruct (unset_resolve_handler_is_deleted_twice string fresh is_fresh
              Registry.New "resolver" (tidy_New string))
    as (a & _ & _ & _ & H).
  exists a. exact H.
Defined.

(* ===================================================================== *)
(** ** The ticket file and the trust file *)
(* ===================================================================== *)

Section TicketAndTrust.

Import Files.

(** X23.  The trust file follows [P4TICKETS].  When no trust file was
    set and [P4TICKETS] is set, [GetTrustFile] returns the value of
    [P4TICKETS], the same name [GetTicketFile] returns when no ticket
    file was set; when [P4TICKETS] is not set it returns the default of
    the host.  The function itself never asks for [P4TRUST]: two
    environments that differ in it alone, on hosts with the same
    default, give the same answer.  A name that is not empty
    is remembered, so later calls return it whatever the environment
    says by then; and a trust file set by [SetTrustFile] wins over
    both. *)
Theorem trust_file_follows_P4TICKETS (env : Environment) (f : FileNames) :
  trustFile f = "" ->
  (forall t, enviro_Get env "P4TICKETS" = Some t ->
             fst (GetTrustFile env f) = t
             /\ (ticketFile f = "" -> fst (GetTicketFile env f) = t))
  /\ (enviro_Get env "P4TICKETS" = None ->
      fst (GetTrustFile env f) = host_trust_file env)
  /\ (forall env',
         (forall var, var <> "P4TRUST" ->
                      enviro_Get env' var = enviro_Get env var) ->
         host_trust_file env' = host_trust_file env ->
         GetTrustFile env' f = GetTrustFile env f)
  /\ (forall env',
         fst (GetTrustFile env f) <> "" ->
         GetTrustFile env' (snd (GetTrustFile env f))
         = (fst (GetTrustFile env f), snd (GetTrustFile env f)))
  /\ (forall p env',
         p <> "" -> fst (GetTrustFile env' (SetTrustFile p f)) = p).
Proof.
  intros Hf.
  assert (Hget : forall e, GetTrustFile e f
            = (match enviro_Get e "P4TICKETS" with
               | Some t => t | None => host_trust_file e end,
               {| ticketFile := ticketFile f;
                  trustFile := match enviro_Get e "P4TICKETS" with
                               | Some t => t | None => host_trust_file e end |})).
  { intros e. unfold GetTrustFile. rewrite Hf. reflexivity. }
  split; [|split; [|split; [|split]]].
  - intros t Ht. rewrite Hget, Ht. split; [reflexivity|].
    intros Hk. unfold GetTicketFile. rewrite Hk, Ht. reflexivity.
  - intros Hn. rewrite Hget, Hn. reflexivity.
  - intros env' Hsame Hhost. rewrite !Hget, Hhost.
    rewrite (Hsame "P4TICKETS") by discriminate. reflexivity.
  - intros env' Hne. rewrite Hget in *. cbn [fst snd] in *.
    unfold GetTrustFile. cbn [trustFile].
    destruct (match enviro_Get env "P4TICKETS" with
              | Some t => t | None => host_trust_file env end) as [|c s];
      [contradiction|reflexivity].
  - intros p env' Hp. unfold GetTrustFile, SetTrustFile. cbn [trustFile].
    destruct p as [|c s]; [contradiction|reflexivity].
Qed.

End TicketAndTrust.

(** X23 at a host that sets both [P4TICKETS] and [P4TRUST]. *)
Lemma trust_file_follows_P4TICKETS_witness :
  Files.trustFile Files.new = ""
  /\ Files.enviro_Get host_env "P4TICKETS" = Some "/home/u/tickets"
  /\ Files.enviro_Get host_env "P4TRUST" = Some "/home/u/trust"
  /\ fst (Files.GetTrustFile host_env Files.new) = "/home/u/tickets".
Proof.
  split; [reflexivity|]. split; [reflexivity|]. split; [reflexivity|].
  exact (proj1 (proj1 (trust_file_follows_P4TICKETS host_env Files.new eq_refl)
                      "/home/u/tickets" eq_refl)).
Defined.

(* ===================================================================== *)
(** ** File histories *)
(* ===================================================================== *)

Section FileHistories.

Import Filelog.

Variable intSize : Z.

Lemma pretty_N_char_code (d : N) :
  (d < 10)%N -> nat_of_ascii (pretty_N_char d) = (48 + N.to_nat d)%nat.
Proof.
  intros Hd.
  assert (Hcases : (d = 0 \/ d = 1 \/ d = 2 \/ d = 3 \/ d = 4 \/ d = 5
                    \/ d = 6 \/ d = 7 \/ d = 8 \/ d = 9)%N) by lia.
  repeat (destruct Hcases as [-> | Hcases]; [reflexivity|]).
  subst d. reflexivity.
Qed.

Lemma ParseUint_loop_step (c : ascii) (s : string) (n maxVal : Z) (d : N) :
  (d < 10)%N -> c = pretty_N_char d ->
  10 * n + Z.of_N d <= maxVal ->
  ParseUint_loop (String c s) n maxVal
  = ParseUint_loop s (10 * n + Z.of_N d) maxVal.
Proof.
  intros Hd -> Hfit. cbn [ParseUint_loop].
  rewrite pretty_N_char_code by exact Hd.
  replace ((48 <=? 48 + N.to_nat d)%nat) with true
    by (symmetry; apply Nat.leb_le; lia).
  replace ((48 + N.to_nat d <=? 57)%nat) with true
    by (symmetry; apply Nat.leb_le; lia).
  cbn [andb]. cbv zeta.
  replace (10 * n + (Z.of_nat (48 + N.to_nat d) - 48))
    with (10 * n + Z.of_N d) by lia.
  replace (maxVal <? 10 * n + Z.of_N d) with false
    by (symmetry; apply Z.ltb_ge; exact Hfit).
  reflexivity.
Qed.

Lemma ParseUint_loop_pretty_N_go (maxVal : Z) (x : N) (s : string) :
  Z.of_N x <= maxVal ->
  ParseUint_loop (pretty_N_go x s) 0 maxVal
  = ParseUint_loop s (Z.of_N x) maxVal.
Proof.
  revert s. induction (N.lt_wf_0 x) as [x _ IH]. intros s Hfit.
  destruct (N.eq_dec x 0%N) as [->|Hx].
  - rewrite pretty_N_go_0. reflexivity.
  - assert (Hdiv : (x `div` 10 < x)%N) by (apply N.div_lt; lia).
    assert (Hmod : (x `mod` 10 < 10)%N) by (apply N.mod_lt; lia).
    assert (Hx10 : 10 * Z.of_N (x `div` 10) + Z.of_N (x `mod` 10)
                   = Z.of_N x).
    { rewrite <- N2Z.inj_mul with (n := 10%N), <- N2Z.inj_add.
      f_equal. symmetry. apply N.div_mod. lia. }
    rewrite pretty_N_go_step by lia.
    rewrite IH by (try exact Hdiv; lia).
    rewrite (ParseUint_loop_step _ s _ _ (x `mod` 10)%N);
      [|exact Hmod|reflexivity|lia].
    rewrite Hx10. reflexivity.
Qed.

Lemma ParseUint_loop_pretty (maxVal : Z) (n : nat) :
  Z.of_nat n <= maxVal ->
  ParseUint_loop (pretty n) 0 maxVal = Some (Z.of_nat n).
Proof.
  intros Hfit. unfold pretty, pretty_nat, pretty, pretty_N.
  destruct (decide (N.of_nat n = 0%N)) as [H0|H0].
  - cbn [ParseUint_loop]. cbv zeta.
    change ((48 <=? nat_of_ascii "0")%nat && (nat_of_ascii "0" <=? 57)%nat)
      with true.
    change (10 * 0 + (Z.of_nat (nat_of_ascii "0") - 48)) with 0. cbn iota.
    replace (maxVal <? 0) with false by (symmetry; apply Z.ltb_ge; lia).
    f_equal. lia.
  - rewrite ParseUint_loop_pretty_N_go by lia.
    cbn [ParseUint_loop]. f_equal. lia.
Qed.

(** A string of digits starts with no sign and no hash. *)
Lemma ParseUint_loop_head (c : ascii) (r : string) (n maxVal un : Z) :
  ParseUint_loop (String c r) n maxVal = Some un ->
  Ascii.eqb c "+" = false /\ Ascii.eqb c "-" = false
  /\ Ascii.eqb c "#" = false.
Proof.
  cbn [ParseUint_loop]. intros H.
  destruct ((48 <=? nat_of_ascii c)%nat) eqn:Hlo; [|discriminate].
  apply Nat.leb_le in Hlo.
  split; [|split]; apply Ascii.eqb_neq; intros ->; vm_compute in Hlo; lia.
Qed.

Lemma half_fits (bitSize n : Z) :
  0 <= n -> n < 2 ^ (bitSize - 1) -> n <= 2 ^ bitSize - 1.
Proof.
  intros H0 Hn. destruct (Z.le_gt_cases 1 bitSize) as [Hb|Hb].
  - replace bitSize with (Z.succ (bitSize - 1)) at 1 by lia.
    rewrite Z.pow_succ_r by lia. lia.
  - rewrite Z.pow_neg_r in Hn by lia. lia.
Qed.

Lemma ParseInt_digits (s : string) (bitSize un : Z) :
  ParseUint_loop s 0 (2 ^ bitSize - 1) = Some un ->
  un < 2 ^ (bitSize - 1) ->
  ParseInt s bitSize = un.
Proof.
  intros Hd Hun. destruct s as [|c r].
  - cbn in Hd. injection Hd as <-. reflexivity.
  - destruct (ParseUint_loop_head _ _ _ _ _ Hd) as (Hp & Hm & _).
    unfold ParseInt, ParseUint. rewrite Hp, Hm. cbn [orb negb andb].
    rewrite Hd.
    replace (2 ^ (bitSize - 1) <=? un) with false
      by (symmetry; apply Z.leb_gt; exact Hun).
    reflexivity.
Qed.

Lemma ParseInt_pretty (bitSize : Z) (n : nat) :
  Z.of_nat n < 2 ^ (bitSize - 1) -> ParseInt (pretty n) bitSize = Z.of_nat n.
Proof.
  intros Hn. apply ParseInt_digits; [|exact Hn].
  apply ParseUint_loop_pretty, half_fits; [lia|exact Hn].
Qed.

Lemma Atoi_pretty (n : nat) :
  Z.of_nat n < 2 ^ (intSize - 1) -> Atoi intSize (pretty n) = Z.of_nat n.
Proof. intros Hn. unfold Atoi. apply ParseInt_pretty, Hn. Qed.

Lemma TrimPrefix_digits (s : string) (maxVal un : Z) :
  ParseUint_loop s 0 maxVal = Some un -> TrimPrefix s "#" = s.
Proof.
  intros Hd. unfold TrimPrefix. destruct s as [|c r]; [reflexivity|].
  destruct (ParseUint_loop_head _ _ _ _ _ Hd) as (_ & _ & Hh).
  cbn [String.prefix]. apply Ascii.eqb_neq in Hh.
  destruct (ascii_dec "#" c) as [e|_]; [congruence|reflexivity].
Qed.

Lemma TrimPrefix_hash (s : string) : TrimPrefix ("#" +:+ s) "#" = s.
Proof.
  change ("#" +:+ s) with (String "#" s).
  unfold TrimPrefix. cbn [String.prefix].
  destruct (ascii_dec "#" "#") as [_|ne]; [|congruence].
  replace (String.prefix "" s) with true by (destruct s; reflexivity).
  cbn [String.length String.substring Nat.sub]. rewrite Nat.sub_0_r.
  apply substring_whole.
Qed.

Lemma digits_not_none (s : string) (maxVal un : Z) :
  ParseUint_loop s 0 maxVal = Some un ->
  String.eqb s "none" = false /\ String.eqb s "#none" = false.
Proof.
  intros Hd. split; apply String.eqb_neq; intros ->; cbn in Hd; discriminate.
Qed.

(** X24.  [parseRevision] reads a revision number back from its decimal
    form, with or without the leading hash, as long as the number fits
    in an [int]; ["none"] and ["#none"] read as 0. *)
Theorem parseRevision_reads_the_number (n : nat) :
  Z.of_nat n < 2 ^ (intSize - 1) ->
  parseRevision intSize (pretty n) = Z.of_nat n
  /\ parseRevision intSize ("#" +:+ pretty n) = Z.of_nat n
  /\ parseRevision intSize "none" = 0
  /\ parseRevision intSize "#none" = 0.
Proof.
  intros Hn.
  pose proof (ParseUint_loop_pretty (Z.of_nat n) n (Z.le_refl _)) as Hd.
  destruct (digits_not_none _ _ _ Hd) as [Hnone Hhash].
  split; [|split; [|split; reflexivity]].
  - unfold parseRevision. rewrite Hnone, Hhash. cbn [orb].
    rewrite (TrimPrefix_digits _ _ _ Hd). apply Atoi_pretty. exact Hn.
  - unfold parseRevision. rewrite TrimPrefix_hash.
    change ("#" +:+ pretty n) with (String "#" (pretty n)).
    cbn [String.eqb Ascii.eqb Bool.eqb]. rewrite Hnone. cbn [orb].
    apply Atoi_pretty. exact Hn.
Qed.

Lemma key2_inj (name : string) (n m m' : nat) :
  key2 name n m = key2 name n m' -> m = m'.
Proof.
  unfold key2. intros H.
  do 3 apply (inj (String.append _)) in H.
  apply (inj pretty). exact H.
Qed.

Lemma key1_inj (name : string) (n n' : nat) :
  key1 name n = key1 name n' -> n = n'.
Proof.
  unfold key1. intros H. apply (inj (String.append _)) in H.
  apply (inj pretty). exact H.
Qed.

Lemma integration_at_how (h : gmap string GoValue) (n m : nat) :
  is_Some (integration_at intSize h n m) -> is_Some (h !! key2 "how" n m).
Proof.
  unfold integration_at, get_string. intros [i Hi].
  destruct (h !! key2 "how" n m) as [v|]; [eauto|discriminate].
Qed.

Lemma integrations_None (h : gmap string GoValue) (n fuel m : nat) :
  integrations intSize h n m fuel = None ->
  forall i, (i < fuel)%nat -> is_Some (integration_at intSize h n (m + i)).
Proof.
  revert m. induction fuel as [|f IH]; intros m H i Hi; [lia|].
  cbn [integrations] in H.
  destruct (integration_at intSize h n m) as [x|] eqn:Hm; [|discriminate].
  destruct (integrations intSize h n (S m) f) as [l|] eqn:Hr; [discriminate|].
  destruct i as [|i].
  - rewrite Nat.add_0_r, Hm. eauto.
  - replace (m + S i)%nat with (S m + i)%nat by lia.
    apply (IH _ Hr). lia.
Qed.

(** The integration loop ends before it has made more turns than the
    map has keys, since every turn but the last finds a key of its own. *)
Lemma integrations_end (h : gmap string GoValue) (n : nat) :
  is_Some (integrations intSize h n 0 (S (size h))).
Proof.
  destruct (integrations intSize h n 0 (S (size h))) as [l|] eqn:H; [eauto|].
  exfalso. pose proof (integrations_None _ _ _ _ H) as Hall.
  set (l := key2 "how" n <$> seq 0 (S (size h))).
  assert (Hnd : NoDup l).
  { apply NoDup_fmap_2; [|apply NoDup_seq].
    intros m m' Hk. exact (key2_inj _ _ _ _ Hk). }
  assert (Hsub : (list_to_set l : gset string) ⊆ dom h).
  { intros k Hk. apply elem_of_list_to_set in Hk.
    apply list_elem_of_fmap in Hk as (m & -> & Hm).
    apply elem_of_seq in Hm. apply elem_of_dom.
    apply integration_at_how. apply (Hall m). lia. }
  apply subseteq_size in Hsub.
  rewrite size_list_to_set in Hsub by exact Hnd.
  rewrite size_dom in Hsub. unfold l in Hsub.
  rewrite length_fmap, length_seq in Hsub. lia.
Qed.

Lemma integrations_spec (h : gmap string GoValue) (n fuel m : nat)
      (l : list P4Integration) :
  integrations intSize h n m fuel = Some l ->
  (forall i, (i < length l)%nat ->
             l !! i = integration_at intSize h n (m + i))
  /\ integration_at intSize h n (m + length l) = None.
Proof.
  revert m l. induction fuel as [|f IH]; intros m l H; [discriminate|].
  cbn [integrations] in H.
  destruct (integration_at intSize h n m) as [x|] eqn:Hm.
  - destruct (integrations intSize h n (S m) f) as [l'|] eqn:Hr;
      [|discriminate].
    cbn in H. injection H as <-. destruct (IH _ _ Hr) as [Hin Hout].
    split.
    + intros i Hi. destruct i as [|i].
      * rewrite Nat.add_0_r, Hm. reflexivity.
      * cbn [length] in Hi. cbn [lookup list_lookup].
        replace (m + S i)%nat with (S m + i)%nat by lia.
        apply Hin. lia.
    + cbn [length]. replace (m + S (length l'))%nat
        with (S m + length l')%nat by lia. exact Hout.
  - injection H as <-. cbn [length]. rewrite Nat.add_0_r.
    split; [intros i Hi; cbn in Hi; lia|exact Hm].
Qed.

Lemma revision_is_Some (h : gmap string GoValue) (n : nat) :
  is_Some (revision intSize h (S (size h)) n).
Proof.
  unfold revision. destruct (integrations_end h n) as [l ->]. cbn. eauto.
Qed.

Lemma ProcessFilelog_revision (h : gmap string GoValue) (df : P4DepotFile)
      (n : nat) (r : P4Revision) :
  ProcessFilelog intSize h = Some (inl df) ->
  Revisions df !! n = Some r ->
  revision intSize h (S (size h)) n = Some r /\ (n < revisionCount h)%nat.
Proof.
  unfold ProcessFilelog. intros H Hr.
  destruct (get_string h "depotFile") as [name|]; [|discriminate].
  destruct (mapM (revision intSize h (S (size h))) (seq 0 (revisionCount h)))
    as [revs|] eqn:Hm; [|discriminate].
  cbn in H. injection H as <-. cbn [Revisions] in Hr.
  apply mapM_Some_1 in Hm.
  destruct (Forall2_lookup_r _ _ _ _ _ Hm Hr) as (x & Hx & Hrev).
  apply lookup_seq in Hx as [-> Hlt]. split; [exact Hrev|exact Hlt].
Qed.

(** X25.  [ProcessFilelog] always returns: the loop over the
    integration records of a revision, which has no bound of its own,
    ends for every map.  The result is the error "not a filelog object:
    missing depotFile" exactly when [depotFile] holds no string;
    otherwise it is a depot file of that name with one revision for each
    key that starts with "rev". *)
Theorem ProcessFilelog_always_returns (h : gmap string GoValue) :
  (get_string h "depotFile" = None ->
   ProcessFilelog intSize h
   = Some (inr "not a filelog object: missing depotFile"))
  /\ (forall name,
         get_string h "depotFile" = Some name ->
         exists revs,
           ProcessFilelog intSize h
           = Some (inl {| Name := name; Revisions := revs |})
           /\ length revs = revisionCount h).
Proof.
  split.
  - intros Hn. unfold ProcessFilelog. rewrite Hn. reflexivity.
  - intros name Hs. unfold ProcessFilelog. rewrite Hs.
    destruct (mapM (revision intSize h (S (size h)))
                   (seq 0 (revisionCount h))) as [revs|] eqn:Hm.
    + exists revs. split; [reflexivity|].
      apply length_mapM in Hm. rewrite length_seq in Hm. lia.
    + exfalso.
      assert (Hs' : is_Some (mapM (revision intSize h (S (size h)))
                                  (seq 0 (revisionCount h)))).
      { apply mapM_is_Some_2, Forall_forall. intros n _.
        apply revision_is_Some. }
      rewrite Hm in Hs'. destruct Hs' as [? Hs']. discriminate.
Qed.

(** X26.  The integrations of a revision are the first unbroken run of
    integration records: record [m] of revision [n] is read from the
    keys [how], [file], [srev] and [erev] with the suffix [n,m], the
    revisions through [parseRevision], and the run ends at the first
    [m] where one of the four holds no string.  Records after such a
    gap are never read. *)
Theorem integrations_are_the_first_run
        (h : gmap string GoValue) (df : P4DepotFile) (n : nat)
        (r : P4Revision) :
  ProcessFilelog intSize h = Some (inl df) ->
  Revisions df !! n = Some r ->
  (forall m, (m < length (Integrations r))%nat ->
             Integrations r !! m = integration_at intSize h n m)
  /\ integration_at intSize h n (length (Integrations r)) = None
  /\ (forall k, integration_at intSize h n k = None ->
                (length (Integrations r) <= k)%nat).
Proof.
  intros H Hr. destruct (ProcessFilelog_revision _ _ _ _ H Hr) as [Hrev _].
  unfold revision in Hrev.
  destruct (integrations intSize h n 0 (S (size h))) as [l|] eqn:Hl;
    [|discriminate].
  cbn in Hrev. injection Hrev as <-. cbn [Integrations].
  destruct (integrations_spec _ _ _ _ _ Hl) as [Hin Hout].
  split; [|split].
  - intros m Hm. exact (Hin m Hm).
  - exact Hout.
  - intros k Hk. destruct (le_lt_dec (length l) k) as [Hle|Hlt]; [exact Hle|].
    exfalso. pose proof (Hin k Hlt) as Hk'. cbn [Nat.add] in Hk'.
    rewrite Hk in Hk'. apply lookup_lt_is_Some_2 in Hlt.
    rewrite Hk' in Hlt. destruct Hlt as [? Hlt]. discriminate.
Qed.

Lemma prefix_rev_key1 (n : nat) : String.prefix "rev" (key1 "rev" n) = true.
Proof.
  unfold key1.
  change ("rev" +:+ pretty n)
    with (String "r" (String "e" (String "v" (pretty n)))).
  generalize (pretty n). intros s. destruct s; reflexivity.
Qed.

(** When the keys that start with "rev" are [rev0] to [rev(N-1)], the
    count of [ProcessFilelog] is [N]. *)
Lemma revisionCount_exact (h : gmap string GoValue) (N : nat) :
  (forall key, is_Some (h !! key) -> String.prefix "rev" key = true ->
               exists n, (n < N)%nat /\ key = key1 "rev" n) ->
  (forall n, (n < N)%nat -> is_Some (h !! key1 "rev" n)) ->
  revisionCount h = N.
Proof.
  intros H1 H2. unfold revisionCount.
  change (map fst (map_to_list h)) with ((map_to_list h).*1).
  transitivity (length (key1 "rev" <$> seq 0 N));
    [|rewrite length_fmap, length_seq; reflexivity].
  apply Permutation_length, NoDup_Permutation.
  - apply NoDup_ListNoDup, List.NoDup_filter, NoDup_ListNoDup,
      NoDup_fst_map_to_list.
  - apply NoDup_fmap_2; [|apply NoDup_seq].
    intros n n' Hk. exact (key1_inj _ _ _ Hk).
  - intros x. split.
    + intros Hx. apply list_elem_of_In, filter_In in Hx as [Hx Hp].
      apply list_elem_of_In, list_elem_of_fmap in Hx as ([k v] & -> & Hkv).
      apply elem_of_map_to_list in Hkv. cbn [fst] in *.
      destruct (H1 k (ex_intro _ v Hkv) Hp) as (n & Hn & ->).
      apply list_elem_of_fmap. exists n. split; [reflexivity|].
      apply elem_of_seq. lia.
    + intros Hx. apply list_elem_of_fmap in Hx as (n & -> & Hn).
      apply elem_of_seq in Hn.
      apply list_elem_of_In, filter_In. split; [|apply prefix_rev_key1].
      destruct (H2 n) as [v Hv]; [lia|].
      apply list_elem_of_In, list_elem_of_fmap. exists (key1 "rev" n, v).
      split; [reflexivity|]. apply elem_of_map_to_list. exact Hv.
Qed.

Lemma field_default (h : gmap string GoValue) (key : string) :
  field h key "" id = default "" (get_string h key).
Proof. unfold field. destruct (get_string h key); reflexivity. Qed.

(** X27.  [ProcessFilelog] reads a well-formed record.  When
    [depotFile] holds the name and the keys that start with "rev" are
    [rev0] to [rev(N-1)], the result is a depot file of that name with
    [N] revisions.  Revision [n] has the numbers written in decimal
    under [rev], [change] and [time] with the suffix [n], as long as
    they fit, and the strings under [action], [type], [user], [client],
    [desc], [digest] and [fileSize] with that suffix, each empty when
    its key holds no string. *)
Theorem ProcessFilelog_reads_the_record
        (h : gmap string GoValue) (name : string) (N : nat) :
  get_string h "depotFile" = Some name ->
  (forall key, is_Some (h !! key) -> String.prefix "rev" key = true ->
               exists n, (n < N)%nat /\ key = key1 "rev" n) ->
  (forall n, (n < N)%nat -> is_Some (h !! key1 "rev" n)) ->
  exists df,
    ProcessFilelog intSize h = Some (inl df)
    /\ Name df = name
    /\ length (Revisions df) = N
    /\ forall n r,
        Revisions df !! n = Some r ->
        (forall v, get_string h (key1 "rev" n) = Some (pretty v) ->
                   Z.of_nat v < 2 ^ (intSize - 1) -> Rev r = Z.of_nat v)
        /\ (forall v, get_string h (key1 "change" n) = Some (pretty v) ->
                      Z.of_nat v < 2 ^ (intSize - 1) ->
                      Change r = Z.of_nat v)
        /\ (forall v, get_string h (key1 "time" n) = Some (pretty v) ->
                      Z.of_nat v < 2 ^ 63 -> Time r = Some (Z.of_nat v))
        /\ (get_string h (key1 "time" n) = None -> Time r = None)
        /\ Action r = default "" (get_string h (key1 "action" n))
        /\ Type_ r = default "" (get_string h (key1 "type" n))
        /\ User r = default "" (get_string h (key1 "user" n))
        /\ Client r = default "" (get_string h (key1 "client" n))
        /\ Desc r = default "" (get_string h (key1 "desc" n))
        /\ Digest r = default "" (get_string h (key1 "digest" n))
        /\ FileSize r = default "" (get_string h (key1 "fileSize" n)).
Proof.
  intros Hname H1 H2.
  assert (Hcount : revisionCount h = N) by (apply revisionCount_exact; assumption).
  assert (Hsome : is_Some (mapM (revision intSize h (S (size h)))
                                (seq 0 (revisionCount h)))).
  { apply mapM_is_Some_2, Forall_forall. intros n _. apply revision_is_Some. }
  destruct Hsome as [revs Hrevs].
  assert (Hdf : ProcessFilelog intSize h
                = Some (inl {| Name := name; Revisions := revs |})).
  { unfold ProcessFilelog. rewrite Hname, Hrevs. reflexivity. }
  exists {| Name := name; Revisions := revs |}.
  split; [exact Hdf|]. split; [reflexivity|]. split.
  { cbn [Revisions]. apply length_mapM in Hrevs.
    rewrite length_seq in Hrevs. lia. }
  intros n r Hr.
  destruct (ProcessFilelog_revision _ _ _ _ Hdf Hr) as [Hrev _].
  unfold revision in Hrev.
  destruct (integrations intSize h n 0 (S (size h))) as [l|]; [|discriminate].
  cbn in Hrev. injection Hrev as <-.
  cbn [Rev Change Time Action Type_ User Client Desc Digest FileSize].
  rewrite !field_default.
  split; [|split; [|split; [|split]]].
  - intros v Hv Hfit. unfold field. rewrite Hv. apply Atoi_pretty. exact Hfit.
  - intros v Hv Hfit. unfold field. rewrite Hv. apply Atoi_pretty. exact Hfit.
  - intros v Hv Hfit. unfold field. rewrite Hv. f_equal.
    apply ParseInt_pretty. exact Hfit.
  - intros Hv. unfold field. rewrite Hv. reflexivity.
  - repeat split; reflexivity.
Qed.

Variable E : SpecEngine.
Variable speclist : list (string * string).

(** Results that name a depot file are passed through [ProcessFilelog]
    one by one and end in [result]. *)
Lemma filelog_scan_names (pre : list P4.P4Result) (names : list string) :
  mapM depot_name pre = Some names ->
  forall run_err result,
  exists dfs,
    map Name dfs = names
    /\ forall rest,
        filelog_scan intSize (pre ++ rest) run_err result
        = filelog_scan intSize rest run_err (result ++ dfs).
Proof.
  revert names. induction pre as [|x pre IH]; intros names Hn run_err result.
  - cbn in Hn. injection Hn as <-. exists []. split; [reflexivity|].
    intros rest. rewrite app_nil_r. reflexivity.
  - apply mapM_Some_1 in Hn. inversion Hn as [|? name ? names' Hx Hrest]; subst.
    apply mapM_Some_2 in Hrest.
    destruct x as [s|s|d|m]; cbn [depot_name] in Hx; try discriminate.
    assert (Hs : get_string (GoString <$> d) "depotFile" = Some name).
    { unfold get_string. rewrite lookup_fmap, Hx. reflexivity. }
    destruct (proj2 (ProcessFilelog_always_returns _) _ Hs) as (revs & Hp & _).
    destruct (IH _ Hrest run_err
                 (result ++ [{| Name := name; Revisions := revs |}]))
      as (dfs & Hnames & Hscan).
    exists ({| Name := name; Revisions := revs |} :: dfs).
    split; [cbn; f_equal; exact Hnames|].
    intros rest. cbn [app filelog_scan]. rewrite Hp, Hscan.
    rewrite <- app_assoc. reflexivity.
Qed.

(** X28.  [RunFilelog] returns all the depot files or none.  When every
    result of the run is a dictionary with a [depotFile], it returns one
    depot file for each, in order and under that name, with the error
    of the run.  At the first result that is not, such as the message
    for a file that does not exist, it returns no depot file at all,
    whatever came before, and an error that is never nil: the error of
    the run, if there is one, joined with "unexpected filelog data
    type", or with "not a filelog object: missing depotFile" for a
    dictionary. *)
Theorem RunFilelog_all_or_nothing
        (R : EngineRun) (args : list string) (a : ClientApi.P4GoClientApi)
        (raw : list P4.P4Result) :
  snd (fst (P4.Run E speclist R "filelog" args a)) = Some raw ->
  (forall names,
      mapM depot_name raw = Some names ->
      exists dfs,
        snd (RunFilelog intSize E speclist R args a)
        = Some (dfs, ErrRun <$> snd (P4.Run E speclist R "filelog" args a))
        /\ map Name dfs = names)
  /\ (forall pre x post,
         raw = pre ++ x :: post ->
         is_Some (mapM depot_name pre) ->
         depot_name x = None ->
         snd (RunFilelog intSize E speclist R args a)
         = Some ([], join (snd (P4.Run E speclist R "filelog" args a))
                          (filelog_error_text x)))
  /\ fst (RunFilelog intSize E speclist R args a)
     = fst (fst (P4.Run E speclist R "filelog" args a)).
Proof.
  intros Hraw. unfold RunFilelog.
  destruct (P4.Run E speclist R "filelog" args a) as [[a' raw'] run_err].
  cbn [fst snd] in *. subst raw'. cbn [mbind option_bind].
  split; [|split; [|reflexivity]].
  - intros names Hn.
    destruct (filelog_scan_names _ _ Hn run_err []) as (dfs & Hnames & Hscan).
    exists dfs. split; [|exact Hnames].
    specialize (Hscan []). rewrite app_nil_r in Hscan. rewrite Hscan.
    reflexivity.
  - intros pre x post -> [names Hn] Hx.
    destruct (filelog_scan_names _ _ Hn run_err []) as (dfs & _ & Hscan).
    rewrite Hscan. destruct x as [s|s|d|m]; try reflexivity.
    cbn [depot_name] in Hx. cbn [filelog_scan filelog_error_text].
    assert (Hs : get_string (GoString <$> d) "depotFile" = None).
    { unfold get_string. rewrite lookup_fmap, Hx. reflexivity. }
    rewrite (proj1 (ProcessFilelog_always_returns _) Hs). reflexivity.
Qed.

End FileHistories.

(** X24 at revision 3 on a platform with 64-bit integers. *)
Lemma parseRevision_reads_the_number_witness :
  Z.of_nat 3 < 2 ^ (64 - 1)
  /\ Filelog.parseRevision 64 "#3" = 3.
Proof.
  split; [reflexivity|].
  exact (proj1 (proj2 (parseRevision_reads_the_number 64 3 eq_refl))).
Defined.

(** X25 at the record of a file with two revisions. *)
Lemma ProcessFilelog_always_returns_witness :
  Filelog.get_string filelog_map "depotFile" = Some "//depot/a"
  /\ exists revs,
      Filelog.ProcessFilelog 64 filelog_map
      = Some (inl {| Filelog.Name := "//depot/a"; Filelog.Revisions := revs |})
      /\ length revs = Filelog.revisionCount filelog_map.
Proof.
  split; [vm_compute; reflexivity|].
  apply (proj2 (ProcessFilelog_always_returns 64 filelog_map)).
  vm_compute. reflexivity.
Defined.

(** X26 at the later revision of that file, which has one integration
    record. *)
Lemma integrations_are_the_first_run_witness :
  Filelog.ProcessFilelog 64 filelog_map = Some (inl filelog_depot_file)
  /\ Filelog.Revisions filelog_depot_file !! 0%nat = Some filelog_revision0
  /\ Filelog.integration_at 64 filelog_map 0 1 = None
  /\ (length (Filelog.Integrations filelog_revision0) <= 1)%nat.
Proof.
  assert (H : Filelog.ProcessFilelog 64 filelog_map
              = Some (inl filelog_depot_file)) by (vm_compute; reflexivity).
  assert (Hgap : Filelog.integration_at 64 filelog_map 0 1 = None)
    by (vm_compute; reflexivity).
  split; [exact H|]. split; [reflexivity|]. split; [exact Hgap|].
  exact (proj2 (proj2 (integrations_are_the_first_run
                         64 filelog_map filelog_depot_file 0
                         filelog_revision0 H eq_refl)) 1%nat Hgap).
Defined.

(** X27 at the same record. *)
Lemma ProcessFilelog_reads_the_record_witness :
  Filelog.get_string filelog_map "depotFile" = Some "//depot/a"
  /\ (forall n, (n < 2)%nat ->
                is_Some (filelog_map !! Filelog.key1 "rev" n))
  /\ exists df,
      Filelog.ProcessFilelog 64 filelog_map = Some (inl df)
      /\ Filelog.Name df = "//depot/a"
      /\ length (Filelog.Revisions df) = 2%nat.
Proof.
  assert (H0 : Filelog.get_string filelog_map "depotFile" = Some "//depot/a")
    by (vm_compute; reflexivity).
  assert (H2 : forall n, (n < 2)%nat ->
                         is_Some (filelog_map !! Filelog.key1 "rev" n)).
  { intros n Hn. destruct n as [|[|n]]; [| |lia].
    - exists (Filelog.GoString "2"). vm_compute. reflexivity.
    - exists (Filelog.GoString "1"). vm_compute. reflexivity. }
  assert (H1 : forall key, is_Some (filelog_map !! key) ->
                           String.prefix "rev" key = true ->
                           exists n, (n < 2)%nat /\ key = Filelog.key1 "rev" n).
  { assert (HF : map_Forall
                   (fun key (_ : Filelog.GoValue) =>
                      String.prefix "rev" key = true ->
                      key ∈ Filelog.key1 "rev" <$> seq 0 2) filelog_map).
    { apply (bool_decide_unpack _). vm_compute. exact I. }
    intros key [v Hv] Hp.
    pose proof (HF key v Hv Hp) as Hin.
    apply list_elem_of_fmap in Hin as (n & -> & Hn).
    apply elem_of_seq in Hn. exists n. split; [lia|reflexivity]. }
  split; [exact H0|]. split; [exact H2|].
  destruct (ProcessFilelog_reads_the_record 64 filelog_map "//depot/a" 2
              H0 H1 H2) as (df & Hdf & Hname & Hlen & _).
  exists df. split; [exact Hdf|]. split; [exact Hname|exact Hlen].
Defined.

(** X28 at a filelog of two files, the second of which does not exist. *)
Lemma RunFilelog_all_or_nothing_witness :
  snd (fst (P4.Run one_field_engine []
              (engine_run [EvOutputStat filelog_record;
                           EvMessage failed_message])
              "filelog" ["//depot/a"; "//depot/baz"] session0))
  = Some ([P4.Dictionary (P4.dict_of_pairs filelog_record)]
            ++ P4.Message (P4.goMessage failed_message) :: [])
  /\ depot_name (P4.Dictionary (P4.dict_of_pairs filelog_record))
     = Some "//depot/a"
  /\ snd (Filelog.RunFilelog 64 one_field_engine []
            (engine_run [EvOutputStat filelog_record;
                         EvMessage failed_message])
            ["//depot/a"; "//depot/baz"] session0)
     = Some ([], Some (Filelog.ErrJoin [inr "unexpected filelog data type"])).
Proof.
  assert (Hraw : snd (fst (P4.Run one_field_engine []
                             (engine_run [EvOutputStat filelog_record;
                                          EvMessage failed_message])
                             "filelog" ["//depot/a"; "//depot/baz"] session0))
                 = Some ([P4.Dictionary (P4.dict_of_pairs filelog_record)]
                           ++ P4.Message (P4.goMessage failed_message) :: []))
    by (vm_compute; reflexivity).
  split; [exact Hraw|]. split; [vm_compute; reflexivity|].
  refine (proj1 (proj2 (RunFilelog_all_or_nothing 64 one_field_engine []
                          (engine_run [EvOutputStat filelog_record;
                                       EvMessage failed_message])
                          ["//depot/a"; "//depot/baz"] session0 _ Hraw))
                [P4.Dictionary (P4.dict_of_pairs filelog_record)]
                (P4.Message (P4.goMessage failed_message)) []
                eq_refl _ eq_refl).
  exists ["//depot/a"]. vm_compute. reflexivity.
Defined.

(* ===================================================================== *)
(** ** Records reported by an output handler *)
(* ===================================================================== *)

Section ReportedRecords.

Import Results ClientUser.

Variable E : SpecEngine.
Variable speclist : list (string * string).

(** The records of the collection only grow while output is
    delivered. *)
Lemma records_ProcessOutput_Dict_grow (d : StrDict.t) (u : P4GoClientUser) :
  exists added,
    records (results (ProcessOutput_Dict d u)) = records (results u) ++ added.
Proof.
  unfold ProcessOutput_Dict, CallOutputMethod_Dict, after_call.
  assert (Hadd : forall r, records (AddOutput_Dict d r)
                           = records r ++ [record_unit d]).
  { intros r. unfold records. rewrite items_AddOutput_Dict.
    rewrite List.filter_app. reflexivity. }
  destruct (handler u) as [h|]; [|eexists; apply Hadd].
  destruct (cbHandleStat h (callbacks u) d =? 0);
    destruct (cbHandleStat h (callbacks u) d =? 2);
    cbn [results set_results set_alive set_callbacks];
    try (eexists; apply Hadd);
    exists []; rewrite app_nil_r; reflexivity.
Qed.

Lemma records_deliver_grow (ev : Event) (u : P4GoClientUser) :
  exists added,
    records (results (deliver E ev u)) = records (results u) ++ added.
Proof.
  assert (Hsame : forall u', records (results u') = records (results u) ->
            exists added, records (results u') = records (results u) ++ added).
  { intros u' ->. exists []. symmetry. apply app_nil_r. }
  destruct ev as [data|data|values|e|e]; cbn [deliver].
  - apply Hsame. unfold OutputText. destruct (is_track_text u data).
    + apply records_OutputText_loop.
    + apply records_ProcessOutput_Str.
  - apply Hsame, records_ProcessOutput_Str.
  - unfold OutputStat.
    destruct (StrDict.GetVar "specdef" values) as [sp|].
    + set (u1 := set_specMgr _ u).
      change (records (results u)) with (records (results u1)) in *.
      destruct (StrDict.GetVar "data" values) as [form|].
      * destruct (Spec_init E sp);
          [exists []; rewrite app_nil_r; apply records_ProcessMessage|].
        destruct (Spec_ParseNoValid E sp form); exists []; rewrite app_nil_r;
          [apply records_ProcessMessage|apply records_ProcessOutput_Spec].
      * destruct (isspec values);
          [exists []; rewrite app_nil_r; apply records_ProcessOutput_Spec|].
        apply records_ProcessOutput_Dict_grow.
    + apply records_ProcessOutput_Dict_grow.
  - apply Hsame, records_ProcessMessage.
  - apply Hsame, records_ProcessMessage.
Qed.

Lemma records_deliver_all_grow (evs : list Event) : forall u,
  exists added,
    records (results (deliver_all E evs u)) = records (results u) ++ added.
Proof.
  induction evs as [|ev evs IH]; intros u.
  - exists []. symmetry. apply app_nil_r.
  - cbn [deliver_all fold_left].
    change (fold_left (fun acc ev0 => deliver E ev0 acc) evs (deliver E ev u))
      with (deliver_all E evs (deliver E ev u)).
    destruct (records_deliver_grow ev u) as [a1 H1].
    destruct (IH (deliver E ev u)) as [a2 H2].
    exists (a1 ++ a2). rewrite H2, H1, app_assoc. reflexivity.
Qed.

(** X29.  [Run] of p4.go does not get through after an output handler
    has reported a record.  On a connected session with an output
    handler whose stat callback answers REPORT, when the output of the
    command holds a record without spec definition that has a variable
    left besides [func] and [specFormatted], the record is in the
    collection [P4GoClientApi::Run] leaves, and the result loop stops at
    it: [goCallHandleStatFunction] has freed the buffers of its last key
    and value, and the loop reads them and frees them again. *)
Theorem Run_stops_after_a_reported_record
        (R : EngineRun) (cmd : string) (argv : list string)
        (a : ClientApi.P4GoClientApi) (h : P4GoHandler)
        (evs1 evs2 : list Event) (values : StrDict.t) :
  ClientApi.depth a = 0 ->
  ClientApi.connected a = true ->
  run_dropped R = false ->
  handler (ClientApi.ui a) = Some h ->
  (forall hist d, cbHandleStat h hist d = REPORT) ->
  run_events R = evs1 ++ EvOutputStat values :: evs2 ->
  StrDict.GetVar "specdef" values = None ->
  plain_dict values <> [] ->
  In (record_unit (plain_dict values))
     (items
        (ClientApi.GetResults
           (fst (fst (ClientApi.Run E speclist R cmd argv Msg.empty a)))))
  /\ snd (fst (P4.Run E speclist R cmd argv a)) = None.
Proof.
  intros Hd Hc Hdrop Hh Hrep Hev Hspec Hne.
  destruct (P4_Run_walk E speclist R cmd argv a Hd Hc (or_intror Hdrop))
    as (a' & Hrun & Hcpp & Hui).
  rewrite Hrun, Hcpp. cbn [fst snd]. unfold ClientApi.GetResults, GetResults.
  set (u0 := SetCommand cmd (ClientUser.Reset (ClientApi.ui a))) in *.
  assert (Hh0 : handler u0 = Some h) by exact Hh.
  assert (Hset : forall evs, handler (deliver_all E evs u0) = Some h).
  { intros evs. destruct (deliver_all_setup E evs u0) as (-> & _).
    exact Hh0. }
  assert (Hin : In (record_unit (plain_dict values))
                   (items (results (ClientApi.ui a')))).
  { rewrite Hui, Hev, deliver_all_app.
    change (EvOutputStat values :: evs2)
      with ([EvOutputStat values] ++ evs2).
    rewrite deliver_all_app.
    set (u1 := deliver_all E evs1 u0).
    destruct (records_deliver_all_grow evs2
                (deliver_all E [EvOutputStat values] u1)) as [post Hpost].
    assert (Hrec : In (record_unit (plain_dict values))
                      (records (results
                                  (deliver_all E [EvOutputStat values] u1)))).
    { cbn [deliver_all fold_left deliver]. unfold OutputStat.
      rewrite Hspec. unfold ProcessOutput_Dict, CallOutputMethod_Dict,
        after_call.
      unfold u1. rewrite (Hset evs1), Hrep. unfold REPORT.
      cbn [Z.eqb fst snd results set_results set_callbacks].
      unfold records. rewrite items_AddOutput_Dict, List.filter_app.
      apply in_or_app. right. left. reflexivity. }
    assert (Hfin : In (record_unit (plain_dict values))
                      (records (results
                         (deliver_all E evs2
                            (deliver_all E [EvOutputStat values] u1))))).
    { rewrite Hpost. apply in_or_app. left. exact Hrec. }
    unfold records in Hfin. apply filter_In in Hfin as [Hfin _]. exact Hfin. }
  split; [exact Hin|].
  rewrite (walk_reported_record (ClientApi.ui a') h
             (record_unit (plain_dict values))); [reflexivity| |exact Hin| |].
  - rewrite Hui. apply Hset.
  - reflexivity.
  - unfold P4.last_pair. cbn [type dict record_unit].
    destruct (plain_dict values); [contradiction|reflexivity].
Qed.

End ReportedRecords.

(** X29 at a handler that reports everything and one record of
    [fstat]. *)
Lemma Run_stops_after_a_reported_record_witness :
  ClientApi.depth session0 = 0
  /\ ClientApi.connected session0 = true
  /\ ClientUser.plain_dict record1 <> []
  /\ snd (fst (P4.Run one_field_engine [] (engine_run [EvOutputStat record1])
                      "fstat" []
                      (ClientApi.SetHandler
                         (Some (handler_of REPORT REPORT REPORT REPORT))
                         session0)))
     = None.
Proof.
  split; [reflexivity|]. split; [reflexivity|]. split; [discriminate|].
  exact (proj2 (Run_stops_after_a_reported_record one_field_engine []
                  (engine_run [EvOutputStat record1]) "fstat" []
                  (ClientApi.SetHandler
                     (Some (handler_of REPORT REPORT REPORT REPORT)) session0)
                  (handler_of REPORT REPORT REPORT REPORT) [] [] record1
                  eq_refl eq_refl eq_refl eq_refl
                  (fun _ _ => eq_refl) eq_refl eq_refl
                  ltac:(discriminate))).
Defined.
